(** * Bitnodes country-delta bot: a shallow embedding of [bot.py] and
    [bot_once.py], and the properties of the aggregation, delta, report,
    delivery and persistence code.

    Conventions of the embedding.
    - A Python [str] is the list of its code points ([pystr]); [len] is
      [length].  ASCII literals are written with [str "..."], the three
      non-ASCII glyphs of the reports are named constants.
    - A Python [float] is a binary64 value ([spec_float] of the standard
      library, with 53 bits of precision); the conversion of an [int], the
      product and the quotient round to the nearest float, ties to even, as
      the machine does, and [:.2f] rounds the exact value of the float to
      two decimals, ties to even.
    - JSON values as [json.load] returns them are [pyval] (null, booleans,
      integers, strings, arrays, objects); non-integer JSON numbers are not
      modelled.
    - A [dict] is an association list in insertion order with pairwise
      different keys; Python's key equality ([True == 1]) is [key_eqb].
    - The network, the state file and the exceptions are explicit: a world
      record threaded through a state-and-exception monad. *)

From Stdlib Require Import List ZArith Bool Lia Ascii String Permutation
  Sorted DecimalString.
From Stdlib Require Import Floats.SpecFloat.
Import ListNotations.
Local Open Scope Z_scope.

(* ------------------------------------------------------------------ *)
(** ** Python strings *)

Module PyStr.

Definition pystr := list N.

(** The code points of an ASCII literal. *)
Definition str (s : string) : pystr :=
  List.map N_of_ascii (list_ascii_of_string s).

Definition bullet : pystr := [8226%N].        (* U+2022 *)
Definition chart : pystr := [128202%N].       (* U+1F4CA *)
Definition emdash : pystr := [8212%N].        (* U+2014 *)
Definition nl : pystr := [10%N].

Definition pystr_eqb (a b : pystr) : bool :=
  if list_eq_dec N.eq_dec a b then true else false.

(** [sep.join(parts)] *)
Fixpoint join (sep : pystr) (parts : list pystr) : pystr :=
  match parts with
  | [] => []
  | [p] => p
  | p :: rest => p ++ sep ++ join sep rest
  end.

(** The line boundaries of [str.splitlines]. *)
Definition is_break (c : N) : bool :=
  existsb (N.eqb c) [10; 13; 11; 12; 28; 29; 30; 133; 8232; 8233]%N.

(** [text.splitlines()]: the lines without their terminators; CR LF is one
    terminator; a terminator at the very end opens no further line.  [cur]
    holds the current line, reversed. *)
Fixpoint splitlines_from (cur : pystr) (s : pystr) : list pystr :=
  match s with
  | [] => match cur with [] => [] | _ => [rev cur] end
  | c :: rest =>
      if N.eqb c 13
      then match rest with
           | c' :: rest' =>
               if N.eqb c' 10
               then rev cur :: splitlines_from [] rest'
               else rev cur :: splitlines_from [] rest
           | [] => rev cur :: splitlines_from [] rest
           end
      else if is_break c
           then rev cur :: splitlines_from [] rest
           else splitlines_from (c :: cur) rest
  end.

Definition splitlines (s : pystr) : list pystr := splitlines_from [] s.

(** Decimal digits of a natural number. *)
Definition dec (n : N) : pystr :=
  str (NilZero.string_of_uint (N.to_uint n)).

(** Groups of three digits from the right, separated by commas. *)
Fixpoint group3 (fuel : nat) (digits_rev : pystr) : pystr :=
  match fuel, digits_rev with
  | S f, a :: b :: c :: (d :: more) =>
      a :: b :: c :: 44%N :: group3 f (d :: more)
  | _, _ => digits_rev
  end.

(** [f"{z:,}"] for an [int]. *)
Definition commas (z : Z) : pystr :=
  let d := dec (Z.abs_N z) in
  (if z <? 0 then str "-" else []) ++ rev (group3 (List.length d) (rev d)).

(** Two digits, zero padded. *)
Definition dec2 (n : N) : pystr :=
  (if (n <? 10)%N then str "0" else []) ++ dec n.

(** The quotient [n / d] of a natural number by a positive one, rounded to
    the nearest integer, ties to even. *)
Definition round_half_even (n d : Z) : Z :=
  let q := n / d in
  match 2 * (n mod d) ?= d with
  | Lt => q
  | Gt => q + 1
  | Eq => if Z.even q then q else q + 1
  end.

(** The minus sign of a negative float, of [-0.0] too. *)
Definition minus_sign (s : bool) : pystr := if s then str "-" else [].

(** [f"{x:.2f}"]: the exact value [m * 2^e] of the float in hundredths,
    rounded to the nearest one, ties to even. *)
Definition fmt_2f (x : spec_float) : pystr :=
  match x with
  | S754_nan => str "nan"
  | S754_infinity s => minus_sign s ++ str "inf"
  | S754_zero s => minus_sign s ++ str "0.00"
  | S754_finite s m e =>
      let h := if 0 <=? e then Z.pos m * 2 ^ e * 100
               else round_half_even (Z.pos m * 100) (2 ^ (- e)) in
      minus_sign s
        ++ dec (Z.to_N (h / 100)) ++ str "." ++ dec2 (Z.to_N (h mod 100))
  end.

End PyStr.
Import PyStr.

(* ------------------------------------------------------------------ *)
(** ** Python values, dictionaries and exceptions *)

Module Py.

(** Hashable values that occur as dictionary keys. *)
Inductive pykey :=
| KNone
| KBool (b : bool)
| KInt (z : Z)
| KStr (s : pystr).

#[local] Unset Elimination Schemes.
Inductive pyval :=
| PNone
| PBool (b : bool)
| PInt (z : Z)
| PStr (s : pystr)
| PList (l : list pyval)
| PDict (d : list (pykey * pyval)).
#[local] Set Elimination Schemes.

Inductive exn :=
| ConnectionError | HTTPError | TypeError | IndexError | KeyError
| AttributeError | ValueError | OverflowError | OSError | SystemExit.

Inductive result (A : Type) :=
| Ok (a : A)
| Raise (e : exn).
Arguments Ok {A} a.
Arguments Raise {A} e.

Definition rbind {A B} (r : result A) (f : A -> result B) : result B :=
  match r with
  | Ok a => f a
  | Raise e => Raise e
  end.

(** Runs [f] on the elements in order and stops at the first exception. *)
Fixpoint rmap {A B} (f : A -> result B) (l : list A) : result (list B) :=
  match l with
  | [] => Ok []
  | x :: rest =>
      rbind (f x) (fun y => rbind (rmap f rest) (fun ys => Ok (y :: ys)))
  end.

Definition pykey_eq_dec (a b : pykey) : {a = b} + {a <> b}.
Proof.
  decide equality;
    [ apply Bool.bool_dec | apply Z.eq_dec | apply (list_eq_dec N.eq_dec) ].
Defined.

(** Python compares [True] and [1] (and [False] and [0]) equal, also as
    dictionary keys. *)
Definition key_norm (k : pykey) : pykey :=
  match k with
  | KBool b => KInt (if b then 1 else 0)
  | _ => k
  end.

Definition key_eqb (a b : pykey) : bool :=
  if pykey_eq_dec (key_norm a) (key_norm b) then true else false.

(** [str(k)], as an f-string prints a key. *)
Definition key_text (k : pykey) : pystr :=
  match k with
  | KNone => str "None"
  | KBool b => if b then str "True" else str "False"
  | KInt z => (if z <? 0 then str "-" else []) ++ dec (Z.abs_N z)
  | KStr s => s
  end.

Definition dict (V : Type) := list (pykey * V).

(** [d.get(k)] *)
Fixpoint dict_get {V} (d : dict V) (k : pykey) : option V :=
  match d with
  | [] => None
  | (k', v) :: rest => if key_eqb k' k then Some v else dict_get rest k
  end.

(** [d[k] = v]: an existing key keeps its place (and its key object), a new
    key goes last. *)
Fixpoint dict_set {V} (d : dict V) (k : pykey) (v : V) : dict V :=
  match d with
  | [] => [(k, v)]
  | (k', v') :: rest =>
      if key_eqb k' k then (k', v) :: rest else (k', v') :: dict_set rest k v
  end.

Definition dict_mem {V} (d : dict V) (k : pykey) : bool :=
  match dict_get d k with Some _ => true | None => false end.

Definition values {K V} (d : list (K * V)) : list V := List.map snd d.

Definition sum (l : list Z) : Z := fold_right Z.add 0 l.

(** Truth value of an object ([if x], [not x], [x or y]). *)
Definition truthy (v : pyval) : bool :=
  match v with
  | PNone => false
  | PBool b => b
  | PInt z => negb (z =? 0)
  | PStr s => match s with [] => false | _ => true end
  | PList l => match l with [] => false | _ => true end
  | PDict d => match d with [] => false | _ => true end
  end.

(** The key a value hashes to; lists and dicts are unhashable. *)
Definition to_key (v : pyval) : option pykey :=
  match v with
  | PNone => Some KNone
  | PBool b => Some (KBool b)
  | PInt z => Some (KInt z)
  | PStr s => Some (KStr s)
  | PList _ | PDict _ => None
  end.

(** [v[i]] for a non-negative literal index. *)
Definition subscript (v : pyval) (i : nat) : result pyval :=
  match v with
  | PList l =>
      match nth_error l i with Some x => Ok x | None => Raise IndexError end
  | PStr s =>
      match nth_error s i with
      | Some c => Ok (PStr [c])
      | None => Raise IndexError
      end
  | PDict d =>
      match dict_get d (KInt (Z.of_nat i)) with
      | Some x => Ok x
      | None => Raise KeyError
      end
  | PNone | PBool _ | PInt _ => Raise TypeError
  end.

(** A value used as a number in [a - b] or [sum]: an [int] or a [bool]. *)
Definition as_num (v : pyval) : result Z :=
  match v with
  | PInt z => Ok z
  | PBool b => Ok (if b then 1 else 0)
  | _ => Raise TypeError
  end.

(** [int(v)]; the numeral strings that [int] also accepts are not
    modelled and count as not convertible. *)
Definition py_int (v : pyval) : result Z :=
  match v with
  | PInt z => Ok z
  | PBool b => Ok (if b then 1 else 0)
  | PStr _ => Raise ValueError
  | _ => Raise TypeError
  end.

(** [v.get(k, default)]: only a dict has [get]. *)
Definition py_get (v : pyval) (k : pystr) (default : pyval) : result pyval :=
  match v with
  | PDict d =>
      Ok (match dict_get d (KStr k) with Some x => x | None => default end)
  | _ => Raise AttributeError
  end.

(** [a or b] *)
Definition py_or (a b : pyval) : pyval := if truthy a then a else b.

(** The dict of counts as a Python object. *)
Definition counts_obj (d : dict Z) : pyval :=
  PDict (List.map (fun kv => (fst kv, PInt (snd kv))) d).

(** A Python float: a binary64 value, with its two zeros, its infinities
    and nan. *)
Definition pyfloat := spec_float.

Definition prec : Z := 53.
Definition emax : Z := 1024.

(** [float('inf')] *)
Definition inf : pyfloat := S754_infinity false.

(** [0.0] *)
Definition fzero : pyfloat := S754_zero false.

(** The float an [int] is turned into where it meets a float in a product
    or a quotient: the nearest float, ties to even.  An [int] beyond the
    largest float, 2^1024 - 2^970 or more, rounds to infinity here; CPython
    raises [OverflowError] for it. *)
Definition float_of_int (z : Z) : pyfloat :=
  binary_normalize prec emax z 0 false.

(** [x * y] and [x / y] of two floats, [y] not zero. *)
Definition fmul (x y : pyfloat) : pyfloat := SFmul prec emax x y.
Definition fdiv (x y : pyfloat) : pyfloat := SFdiv prec emax x y.

(** An [int] as the quotient of two ints takes it: exactly. *)
Definition exact_int (z : Z) : spec_float :=
  match z with
  | Z0 => S754_zero false
  | Z.pos p => S754_finite false p 0
  | Z.neg p => S754_finite true p 0
  end.

(** [a / b] of two ints, [b] not 0: the float nearest to the exact
    quotient, ties to even; [0 / b] has the sign of [b].  A quotient beyond
    the largest float rounds to infinity here; CPython raises
    [OverflowError] for it. *)
Definition int_truediv (a b : Z) : pyfloat :=
  SFdiv prec emax (exact_int a) (exact_int b).

(** [x == float('inf')] *)
Definition is_inf (x : pyfloat) : bool := SFeqb x inf.

(** [f"{x:.2f}"] *)
Definition fmt_float (x : pyfloat) : pystr := fmt_2f x.

(** [sorted(items, key=lambda kv: kv[1], reverse=True)]: Python's sort is
    stable, and stays so under [reverse=True]: items of equal count keep
    the order they had. *)
Fixpoint insert_desc {K} (x : K * Z) (l : list (K * Z)) : list (K * Z) :=
  match l with
  | [] => [x]
  | y :: rest =>
      if snd x <? snd y then y :: insert_desc x rest else x :: y :: rest
  end.

Definition sorted_desc {K} (items : list (K * Z)) : list (K * Z) :=
  fold_right insert_desc [] items.

End Py.
Import Py.

(* ------------------------------------------------------------------ *)
(** ** The snapshot of the census API *)

(** The decoded body of the API answer: [timestamp] and [total_nodes] may be
    missing, [nodes] maps an address to a record, which is an arbitrary JSON
    value here. *)
Record snapshot := {
  snap_timestamp : option Z;
  snap_total_nodes : option Z;
  snap_nodes : option (list (pystr * pyval))
}.

(* ------------------------------------------------------------------ *)
(** ** The [json] module, on values *)

Module Json.

(** A JSON document: what [json.dump] writes and [json.load] reads. *)
#[local] Unset Elimination Schemes.
Inductive jval :=
| JNull
| JBool (b : bool)
| JInt (z : Z)
| JStr (s : pystr)
| JArr (l : list jval)
| JObj (members : list (pystr * jval)).
#[local] Set Elimination Schemes.

(** [json.dump] turns a key that is not a string into one. *)
Definition json_key (k : pykey) : pystr :=
  match k with
  | KNone => str "null"
  | KBool b => if b then str "true" else str "false"
  | KInt z => (if z <? 0 then str "-" else []) ++ dec (Z.abs_N z)
  | KStr s => s
  end.

Fixpoint encode (v : pyval) : jval :=
  match v with
  | PNone => JNull
  | PBool b => JBool b
  | PInt z => JInt z
  | PStr s => JStr s
  | PList l => JArr (List.map encode l)
  | PDict d => JObj (List.map (fun kv => (json_key (fst kv), encode (snd kv))) d)
  end.

(** [json.load] builds a dict member by member, so of two members of one
    name the later value stays, at the place of the first. *)
Definition dict_of_members (ms : list (pystr * pyval)) : dict pyval :=
  fold_left (fun acc kv => dict_set acc (KStr (fst kv)) (snd kv)) ms [].

Fixpoint decode (j : jval) : pyval :=
  match j with
  | JNull => PNone
  | JBool b => PBool b
  | JInt z => PInt z
  | JStr s => PStr s
  | JArr l => PList (List.map decode l)
  | JObj ms =>
      PDict (dict_of_members
               (List.map (fun kv => (fst kv, decode (snd kv))) ms))
  end.

End Json.
Import Json.

(* ------------------------------------------------------------------ *)
(** ** The world: the state file and the network *)

Module World.

(** The state file as [load_state] finds it. *)
Inductive storage :=
| Missing                 (* [os.path.exists] is false *)
| Unreadable              (* [open] raises *)
| Unparseable             (* [json.load] raises *)
| Doc (j : jval).

(** What a request meets: no connection, or an answer with a status. *)
Inductive reply (A : Type) :=
| Refused
| Answer (status : Z) (body : A).
Arguments Refused {A}.
Arguments Answer {A} status body.

(** [posts] logs the text of every POST issued, in order.  [get_reply] is
    what the census API answers (a body that is not the JSON of a snapshot
    is [None]); [post_reply n] is what the messaging API answers to the
    POST issued after [n] earlier ones. *)
Record world := {
  state_file : storage;
  posts : list pystr;
  get_reply : reply (option snapshot);
  post_reply : nat -> reply unit
}.

Definition M (A : Type) := world -> result A * world.

Definition ret {A} (a : A) : M A := fun w => (Ok a, w).

Definition raise {A} (e : exn) : M A := fun w => (Raise e, w).

Definition bind {A B} (m : M A) (f : A -> M B) : M B :=
  fun w => match m w with
           | (Ok a, w') => f a w'
           | (Raise e, w') => (Raise e, w')
           end.

Definition lift {A} (r : result A) : M A := fun w => (r, w).

(** [r.raise_for_status()] *)
Definition bad_status (status : Z) : bool :=
  (400 <=? status) && (status <? 600).

(** The write of the state file when it succeeds: the file then holds the
    document.  (A file that cannot be opened for writing, and a state with
    a text that UTF-8 cannot encode, make [save_state] raise; the model
    has no such write, and the statements about a saved state are about a
    save that came to its end.) *)
Definition write_state (j : jval) : M unit :=
  fun w => (Ok tt, {| state_file := Doc j; posts := posts w;
                      get_reply := get_reply w;
                      post_reply := post_reply w |}).

(** [requests.post(url, ...)] with the text [text]: the request is logged,
    the answer comes back unless the connection fails.  (With [data=], as
    in [bot_once.py], a text that holds a surrogate cannot be form-encoded
    and raises before any request; the model has no such failure, the
    texts it posts are taken to be ones UTF-8 can encode.) *)
Definition http_post (text : pystr) : M Z :=
  fun w =>
    let w' := {| state_file := state_file w; posts := posts w ++ [text];
                 get_reply := get_reply w; post_reply := post_reply w |} in
    match post_reply w (List.length (posts w)) with
    | Refused => (Raise ConnectionError, w')
    | Answer status _ => (Ok status, w')
    end.

(** [requests.get(API_URL, ...)], [raise_for_status()] and [r.json()]. *)
Definition http_get_json : M snapshot :=
  fun w =>
    match get_reply w with
    | Refused => (Raise ConnectionError, w)
    | Answer status body =>
        if bad_status status then (Raise HTTPError, w)
        else match body with
             | Some snap => (Ok snap, w)
             | None => (Raise ValueError, w)
             end
    end.

End World.
Import World.

Notation "x <- m ;; k" := (bind m (fun x => k))
  (at level 61, m at next level, right associativity).
Notation "m ;;; k" := (bind m (fun _ => k))
  (at level 61, right associativity).

(* ------------------------------------------------------------------ *)
(** ** [bot.py]: the scheduled bot *)

Module Bot.

Definition COUNTRY_CODE_TO_NAME : list (pystr * pystr) :=
  [ (str "US", str "United States"); (str "DE", str "Germany");
    (str "FR", str "France"); (str "FI", str "Finland");
    (str "CA", str "Canada"); (str "NL", str "Netherlands");
    (str "GB", str "United Kingdom"); (str "CH", str "Switzerland");
    (str "RU", str "Russian Federation"); (str "AU", str "Australia");
    (str "SG", str "Singapore"); (str "JP", str "Japan");
    (str "KR", str "Korea (Republic of)"); (str "CZ", str "Czechia");
    (str "CN", str "China"); (str "BR", str "Brazil");
    (str "IN", str "India") ].

(** The body of the loop of [summarize_by_country]: [arr[7]] under
    [try/except], the [continue] on a false code, then [counts[cc] += 1],
    which raises on an unhashable code. *)
Definition count_record (counts : dict Z) (arr : pyval) : result (dict Z) :=
  let cc := match subscript arr 7 with Ok v => v | Raise _ => PNone end in
  if negb (truthy cc) then Ok counts
  else match to_key cc with
       | None => Raise TypeError
       | Some k =>
           Ok (dict_set counts k
                 (match dict_get counts k with Some c => c | None => 0 end + 1))
       end.

Fixpoint count_records (counts : dict Z) (records : list pyval)
  : result (dict Z) :=
  match records with
  | [] => Ok counts
  | arr :: rest =>
      match count_record counts arr with
      | Ok counts' => count_records counts' rest
      | Raise e => Raise e
      end
  end.

Definition nodes_of (snap : snapshot) : list (pystr * pyval) :=
  match snap_nodes snap with Some n => n | None => [] end.

(** [int(snapshot.get("total_nodes") or len(nodes))] *)
Definition total_nodes_of (snap : snapshot) : Z :=
  match snap_total_nodes snap with
  | Some t => if t =? 0 then Z.of_nat (List.length (nodes_of snap)) else t
  | None => Z.of_nat (List.length (nodes_of snap))
  end.

Definition summarize_by_country (snap : snapshot) : result (Z * dict Z) :=
  match count_records [] (List.map snd (nodes_of snap)) with
  | Ok counts => Ok (total_nodes_of snap, counts)
  | Raise e => Raise e
  end.

(** [(new - old) * 100.0 / old]: the difference becomes a float in the
    product, [old] in the quotient. *)
Definition pct_change (old new : Z) : pyfloat :=
  if old =? 0
  then if new >? 0 then inf else fzero
  else fdiv (fmul (float_of_int (new - old)) (float_of_int 100))
            (float_of_int old).

(** [COUNTRY_CODE_TO_NAME.get(code, code)], as the f-string prints it. *)
Definition human_country (code : pykey) : pystr :=
  match code with
  | KStr s =>
      match find (fun kv => pystr_eqb (fst kv) s) COUNTRY_CODE_TO_NAME with
      | Some kv => snd kv
      | None => s
      end
  | _ => key_text code
  end.

Definition sign_of (delta : Z) : pystr :=
  if delta >=? 0 then str "+" else [].

(** The inner function [line_for] of [format_report]. *)
Definition line_for (code : pykey) (now prev : Z) : pystr :=
  let delta := now - prev in
  let pc := pct_change prev now in
  human_country code ++ str ": " ++ commas now ++ str " ("
    ++ sign_of delta ++ commas delta ++ str ", "
    ++ fmt_float (if is_inf pc then float_of_int 100 else pc) ++ str "%)".

Definition total_line (total_now total_prev : Z) : pystr :=
  if negb (total_prev =? 0)
  then let total_delta := total_now - total_prev in
       let total_pct := pct_change total_prev total_now in
       str "Total: " ++ commas total_now ++ str " ("
         ++ sign_of total_delta ++ commas total_delta ++ str ", "
         ++ fmt_float total_pct ++ str "%)"
  else str "Total: " ++ commas total_now ++ str " (first run)".

Definition top_items (by_country_now : dict Z) (top_n : nat) : dict Z :=
  firstn top_n (sorted_desc by_country_now).

Definition others_count (by_country_now : dict Z) (top_n : nat) : Z :=
  sum (values (skipn top_n (sorted_desc by_country_now))).

(** [prev = by_country_prev or {}] and [prev.get(code, 0)], then the value
    as the number that [now - prev] needs. *)
Definition prev_count (by_country_prev : pyval) (code : pykey) : result Z :=
  match py_or by_country_prev (PDict []) with
  | PDict d =>
      match dict_get d code with
      | Some v => as_num v
      | None => Ok 0
      end
  | _ => Raise AttributeError
  end.

(** [sum(v for k, v in prev.items() if k not in dict(top_items))] *)
Definition others_prev (by_country_prev : pyval) (top : dict Z) : result Z :=
  match py_or by_country_prev (PDict []) with
  | PDict d =>
      rbind (rmap (fun kv => as_num (snd kv))
               (filter (fun kv => negb (dict_mem top (fst kv))) d))
            (fun vs => Ok (sum vs))
  | _ => Raise AttributeError
  end.

Definition country_lines (by_country_now : dict Z) (by_country_prev : pyval)
    (top_n : nat) : result (list pystr) :=
  rmap (fun kv =>
          rbind (prev_count by_country_prev (fst kv)) (fun count_prev =>
          Ok (bullet ++ str " " ++ line_for (fst kv) (snd kv) count_prev)))
       (top_items by_country_now top_n).

Definition others_lines (by_country_now : dict Z) (by_country_prev : pyval)
    (top_n : nat) : result (list pystr) :=
  let oc := others_count by_country_now top_n in
  if negb (oc =? 0)
  then rbind (others_prev by_country_prev (top_items by_country_now top_n))
         (fun op =>
            Ok [bullet ++ str " " ++ line_for (KStr (str "Others")) oc op])
  else Ok [].

Definition footer : pystr :=
  nl ++ str "Source: bitnodes.io " ++ emdash ++ str " snapshot every ~10 min".

(** The list [lines] of [format_report]. *)
Definition report_lines (total_now total_prev : Z) (by_country_now : dict Z)
    (by_country_prev : pyval) (top_n : nat) : result (list pystr) :=
  rbind (country_lines by_country_now by_country_prev top_n) (fun cl =>
  rbind (others_lines by_country_now by_country_prev top_n) (fun ol =>
  Ok ([total_line total_now total_prev] ++ cl ++ ol ++ [footer]))).

Definition header (stamp : pystr) : pystr :=
  chart ++ str " Bitnodes by Country " ++ emdash ++ str " " ++ stamp ++ nl.

(** [format_report] from its third statement on, after [ts_utc] has been
    turned into the local time [dt_local]; [stamp] is the text that
    [dt_local.strftime('%Y-%m-%d %H:%M %Z')] gives. *)
Definition format_report (stamp : pystr) (total_now total_prev : Z)
    (by_country_now : dict Z) (by_country_prev : pyval) (top_n : nat)
  : result pystr :=
  rbind (report_lines total_now total_prev by_country_now by_country_prev
           top_n)
        (fun lines => Ok (header stamp ++ join nl lines)).

(** *** State, network and one cycle of the loop of [main] *)

Definition load_state : M pyval :=
  fun w =>
    match state_file w with
    | Missing => (Ok (PDict []), w)
    | Unreadable | Unparseable => (Ok (PDict []), w)
    | Doc j => (Ok (decode j), w)
    end.

(** The temporary file and [os.replace] make the write one step. *)
Definition save_state (state : pyval) : M unit := write_state (encode state).

Definition fetch_latest_snapshot : M snapshot := http_get_json.

Definition send_telegram (text : pystr) : M unit :=
  status <- http_post text ;;
  if bad_status status then raise HTTPError else ret tt.

(** [state["last"] = v] *)
Definition setitem (state : pyval) (k : pystr) (v : pyval) : result pyval :=
  match state with
  | PDict d => Ok (PDict (dict_set d (KStr k) v))
  | _ => Raise TypeError
  end.

Definition top_n : nat := 15.

Section Main.

(** The first two statements of [format_report] and the [strftime] of its
    header: [datetime.fromtimestamp(ts_utc, tz)] raises for a timestamp
    outside the years it can hold, and otherwise gives the local time,
    whose text is [stamp]. *)
Variable strftime : Z -> result pystr.

Definition last_entry (ts total_now : Z) (by_cc_now : dict Z) : pyval :=
  PDict [ (KStr (str "ts"), PInt ts);
          (KStr (str "total"), PInt total_now);
          (KStr (str "by_cc"), counts_obj by_cc_now) ].

(** The body of the [try] of one cycle; [now] is [time.time()], [state] the
    dict held in memory.  Returns the dict as it is after the cycle. *)
Definition try_block (now : Z) (state : pyval) : M pyval :=
  snap <- fetch_latest_snapshot ;;
  let ts := match snap_timestamp snap with Some t => t | None => now end in
  tc <- lift (summarize_by_country snap) ;;
  last <- lift (py_get state (str "last") PNone) ;;
  let prev_entry := py_or last (PDict []) in
  tp <- lift (py_get prev_entry (str "total") (PInt 0)) ;;
  total_prev <- lift (py_int tp) ;;
  by_cc_prev <- lift (py_get prev_entry (str "by_cc") (PDict [])) ;;
  stamp <- lift (strftime ts) ;;
  report <- lift (format_report stamp (fst tc) total_prev (snd tc)
                    by_cc_prev top_n) ;;
  send_telegram report ;;;
  state' <- lift (setitem state (str "last")
                    (last_entry ts (fst tc) (snd tc))) ;;
  save_state state' ;;;
  ret state'.

(** One cycle: [except Exception] prints the error and goes on with the
    state in memory as it was. *)
Definition cycle (now : Z) (state : pyval) (w : world) : pyval * world :=
  match try_block now state w with
  | (Ok state', w') => (state', w')
  | (Raise _, w') => (state, w')
  end.

(** The cycles of the loop, one for each time [now] at which a run is
    due. *)
Fixpoint cycles (nows : list Z) (state : pyval) (w : world) : pyval * world :=
  match nows with
  | [] => (state, w)
  | now :: rest =>
      let (state', w') := cycle now state w in cycles rest state' w'
  end.

(** [main]: the check of the credentials, the state loaded once, then the
    loop, cut to the cycles that run before the stop signal; the sleeps
    between them do nothing to the state or the world.  [configured] says
    that both credentials are set. *)
Definition main (configured : bool) (nows : list Z) : M pyval :=
  if negb configured then raise SystemExit
  else
    state <- load_state ;;
    fun w => let (state', w') := cycles nows state w in (Ok state', w').

Definition interval : Z := 30.

(** The [while] loop of [main]: [ticks] are the values of [time.time()] of
    its passes, in turn, up to the stop signal; [next_run] is the loop
    variable.  A pass runs a cycle when its time has come, and sleeps. *)
Fixpoint loop (ticks : list Z) (next_run : Z) (state : pyval) (w : world)
  : pyval * world :=
  match ticks with
  | [] => (state, w)
  | now :: rest =>
      if now >=? next_run
      then let (state', w') := cycle now state w in
           loop rest (now + interval * 60) state' w'
      else loop rest next_run state w
  end.

End Main.

End Bot.

(* ------------------------------------------------------------------ *)
(** ** [bot_once.py]: the one-shot bot *)

Module BotOnce.

(** [summarize_by_country]: [arr[7]] is not guarded here; a false code is
    counted under the key [None]. *)
Definition count_record (counts : dict Z) (arr : pyval) : result (dict Z) :=
  rbind (subscript arr 7) (fun code =>
  let key := if truthy code then code else PNone in
  match to_key key with
  | None => Raise TypeError
  | Some k =>
      Ok (dict_set counts k
            (match dict_get counts k with Some c => c | None => 0 end + 1))
  end).

Fixpoint count_records (counts : dict Z) (records : list pyval)
  : result (dict Z) :=
  match records with
  | [] => Ok counts
  | arr :: rest => rbind (count_record counts arr)
                         (fun counts' => count_records counts' rest)
  end.

Definition summarize_by_country (nodes_dict : list (pystr * pyval))
  : result (dict Z) :=
  count_records [] (List.map snd nodes_dict).

(** [fmt_change(new, old)] with [old] a number or [None]. *)
Definition fmt_change (new : Z) (old : option Z) : pystr :=
  match old with
  | None => []
  | Some o =>
      let diff := new - o in
      let sign := if diff >? 0 then str "+" else [] in
      let pct :=
        if o =? 0 then []
        else str ", " ++ sign
               ++ fmt_float (fmul (int_truediv diff o) (float_of_int 100))
               ++ str "%" in
      str " (" ++ sign ++ commas diff ++ pct ++ str ")"
  end.

(** The value [old] that main hands to [fmt_change], as [new - old] will
    take it. *)
Definition old_of (v : pyval) : result (option Z) :=
  match v with
  | PNone => Ok None
  | _ => rbind (as_num v) (fun z => Ok (Some z))
  end.

Definition key_truthy (k : pykey) : bool :=
  match k with
  | KNone => false
  | KBool b => b
  | KInt z => negb (z =? 0)
  | KStr s => match s with [] => false | _ => true end
  end.

(** [send_chunked]'s loop, with the chunks it hands to [send_telegram]
    collected in order: [chunk] and [size] are the loop variables. *)
Fixpoint chunk_loop (chunk_size : nat) (lines : list pystr)
    (chunk : list pystr) (size : nat) : list (list pystr) :=
  match lines with
  | [] => match chunk with [] => [] | _ => [chunk] end
  | line :: rest =>
      let add := (List.length line + 1)%nat in
      if (chunk_size <? size + add)%nat
           && match chunk with [] => false | _ => true end
      then chunk :: chunk_loop chunk_size rest [line] add
      else chunk_loop chunk_size rest (chunk ++ [line]) (size + add)%nat
  end.

(** The texts that [send_chunked(text, chunk_size)] posts when no post
    raises. *)
Definition chunks (chunk_size : nat) (text : pystr) : list pystr :=
  List.map (join nl) (chunk_loop chunk_size (splitlines text) [] 0).

Section Report.

(** [pycountry.countries.get(alpha_2=code)], the name when there is one. *)
Variable pycountry_name : pystr -> option pystr.

Definition country_name (alpha2 : pykey) : pystr :=
  if negb (key_truthy alpha2) then str "n/a"
  else match alpha2 with
       | KStr s =>
           match pycountry_name s with Some n => n | None => s end
       | _ => key_text alpha2
       end.

(** The key under which main looks a country up in the saved counts. *)
Definition saved_key (code : pykey) : pykey :=
  if key_truthy code then code else KStr (str "null").

(** [country_name(code) if code else "n/a"] *)
Definition item_name (code : pykey) : pystr :=
  if key_truthy code then country_name code else str "n/a".

(** One item of main's list [items]. *)
Definition item_line (prev_countries : pyval) (kv : pykey * Z)
  : result pystr :=
  let name := item_name (fst kv) in
  match prev_countries with
  | PDict d =>
      rbind (old_of (match dict_get d (saved_key (fst kv)) with
                     | Some v => v
                     | None => PNone
                     end))
            (fun old =>
               Ok (bullet ++ str " " ++ name ++ str ": " ++ commas (snd kv)
                     ++ fmt_change (snd kv) old))
  | _ => Raise AttributeError
  end.

Definition footer : pystr :=
  nl ++ str "Source: bitnodes.io " ++ emdash ++ str " snapshot every ~10 min".

Definition header (stamp : pystr) : pystr :=
  chart ++ str " Bitnodes by Country " ++ emdash ++ str " " ++ stamp
    ++ str " PKT".

(** The text [message] of main; [stamp] is what [pkt_now()] returns. *)
Definition build_message (stamp : pystr) (total : Z) (by_country : dict Z)
    (prev_total prev_countries : pyval) : result pystr :=
  let header := header stamp in
  rbind (old_of prev_total) (fun old_total =>
  let total_line := str "Total: " ++ commas total
                      ++ fmt_change total old_total in
  rbind (rmap (item_line prev_countries) (sorted_desc by_country))
        (fun items =>
           Ok (join nl ([header; total_line] ++ items ++ [footer])))).

End Report.

(** [k if k is not None else "null"] *)
Definition normal_key (k : pykey) : pykey :=
  match k with
  | KNone => KStr (str "null")
  | _ => k
  end.

(** The dict comprehension [normalized] of main. *)
Definition normalized (by_country : dict Z) : dict Z :=
  fold_left (fun acc kv => dict_set acc (normal_key (fst kv)) (snd kv))
            by_country [].

(** *** State, network and [main] *)

Definition load_state : M pyval :=
  fun w =>
    match state_file w with
    | Missing => (Ok PNone, w)
    | Unreadable | Unparseable => (Ok PNone, w)
    | Doc j => (Ok (decode j), w)
    end.

Definition save_state (state : pyval) : M unit := write_state (encode state).

Definition fetch_latest : M snapshot := http_get_json.

(** The answer of the messaging API is not looked at. *)
Definition send_telegram (text : pystr) : M unit :=
  _ <- http_post text ;; ret tt.

Fixpoint send_loop (chunk_size : nat) (lines : list pystr)
    (chunk : list pystr) (size : nat) : M unit :=
  match lines with
  | [] => match chunk with
          | [] => ret tt
          | _ => send_telegram (join nl chunk)
          end
  | line :: rest =>
      let add := (List.length line + 1)%nat in
      if (chunk_size <? size + add)%nat
           && match chunk with [] => false | _ => true end
      then send_telegram (join nl chunk) ;;;
           send_loop chunk_size rest [line] add
      else send_loop chunk_size rest (chunk ++ [line]) (size + add)%nat
  end.

Definition send_chunked (text : pystr) (chunk_size : nat) : M unit :=
  send_loop chunk_size (splitlines text) [] 0.

Definition default_chunk_size : nat := 3800.

Definition saved_state (total : Z) (by_country : dict Z) : pyval :=
  PDict [ (KStr (str "total"), PInt total);
          (KStr (str "countries"), counts_obj (normalized by_country)) ].

Section Main.

Variable pycountry_name : pystr -> option pystr.

(** [main]; [configured] says that both credentials are set, [stamp] is
    what [pkt_now()] returns. *)
Definition main (configured : bool) (stamp : pystr) : M unit :=
  if negb configured then ret tt
  else
    data <- fetch_latest ;;
    total <- match snap_total_nodes data with
             | Some t => ret t
             | None => raise KeyError
             end ;;
    nodes <- match snap_nodes data with
             | Some n => ret n
             | None => raise KeyError
             end ;;
    by_country <- lift (summarize_by_country nodes) ;;
    loaded <- load_state ;;
    let prev := py_or loaded (PDict []) in
    prev_total <- lift (py_get prev (str "total") PNone) ;;
    prev_countries <- lift (py_get prev (str "countries") (PDict [])) ;;
    message <- lift (build_message pycountry_name stamp total by_country
                       prev_total prev_countries) ;;
    send_chunked message default_chunk_size ;;;
    save_state (saved_state total by_country).

End Main.

End BotOnce.

(* ------------------------------------------------------------------ *)
(** ** The vocabulary of the statements *)

(** Counts never increase along the list. *)
Definition descending {K} (l : list (K * Z)) : Prop :=
  StronglySorted (fun a b => snd b <= snd a) l.

Definition has_count {K} (c : Z) (x : K * Z) : bool := snd x =? c.

Definition count_of (d : dict Z) (k : pykey) : Z :=
  match dict_get d k with Some c => c | None => 0 end.

(** A node record as the API sends it, with [code] at index 7. *)
Definition record_with (code : pyval) : pyval :=
  PList (repeat PNone 7 ++ [code]).

(** A snapshot of one node in the US. *)
Definition sample_snapshot : snapshot :=
  {| snap_timestamp := Some 1700000000;
     snap_total_nodes := Some 1;
     snap_nodes := Some [(str "1.2.3.4:8333", record_with (PStr (str "US")))]
  |}.

(** A record that is too short to have a country code. *)
Definition short_record : pyval := PList [PStr (str "70016"); PInt 1].

(** The records that [bot.py] counts: those with a true value at index 7. *)
Definition has_country (arr : pyval) : bool :=
  match subscript arr 7 with
  | Ok v => truthy v
  | Raise _ => false
  end.

(** The ints from which on the float nearest to an int is infinity. *)
Definition float_limit : Z := 2 ^ 1024 - 2 ^ 970.

(** The suffix of a line whose previous count is zero. *)
Definition new_suffix (count : Z) : pystr :=
  str " (+" ++ commas count ++ str ", 100.00%)".

(** The sign that [fmt_change] puts before a difference. *)
Definition plus_sign (diff : Z) : pystr :=
  if diff >? 0 then str "+" else [].

(** A line of [bot.py]'s report for a count that had no previous count. *)
Definition new_line (kv : pykey * Z) : pystr :=
  bullet ++ str " " ++ Bot.human_country (fst kv) ++ str ": "
    ++ commas (snd kv) ++ new_suffix (snd kv).

(** A line of [bot_once.py]'s message without a suffix. *)
Definition plain_line (pycountry_name : pystr -> option pystr)
    (kv : pykey * Z) : pystr :=
  bullet ++ str " " ++ BotOnce.item_name pycountry_name (fst kv)
    ++ str ": " ++ commas (snd kv).

(** What a line adds to [size] in [send_chunked]. *)
Definition lines_size (lines : list pystr) : nat :=
  fold_right (fun l acc => (List.length l + 1 + acc)%nat) 0%nat lines.

Definition break_free (l : pystr) : Prop :=
  forallb (fun c => negb (is_break c)) l = true.

(** A chunk in the making is empty or fits. *)
Definition chunk_ok (chunk_size : nat) (chunk : list pystr) : Prop :=
  chunk = [] \/ (List.length (join nl chunk) <= chunk_size)%nat.

(** The texts are posted one after the other, until a post raises. *)
Fixpoint send_all (texts : list pystr) : M unit :=
  match texts with
  | [] => ret tt
  | t :: rest => BotOnce.send_telegram t ;;; send_all rest
  end.

(** The world after some more posts. *)
Definition add_posts (w : world) (texts : list pystr) : world :=
  {| state_file := state_file w; posts := posts w ++ texts;
     get_reply := get_reply w; post_reply := post_reply w |}.

Definition all_answered (w : world) : Prop :=
  forall n, post_reply w n <> Refused.

(** A surrogate code point, which no text in UTF-8 holds. *)
Definition is_surrogate (c : N) : bool := (55296 <=? c)%N && (c <=? 57343)%N.

(** The text can be encoded in UTF-8, as the form encoding of a POST and
    the writing of a file do: it holds no surrogate. *)
Definition utf8_text (s : pystr) : Prop :=
  forallb (fun c => negb (is_surrogate c)) s = true.

(** The world after the state file has been written. *)
Definition with_state_file (w : world) (j : jval) : world :=
  {| state_file := Doc j; posts := posts w;
     get_reply := get_reply w; post_reply := post_reply w |}.

(** The steps of the [try] block up to the report, without the network. *)
Definition report_of (strftime : Z -> result pystr) (now : Z)
    (state : pyval) (snap : snapshot)
  : result (Z * (Z * dict Z) * pystr) :=
  let ts := match snap_timestamp snap with Some t => t | None => now end in
  rbind (Bot.summarize_by_country snap) (fun tc =>
  rbind (py_get state (str "last") PNone) (fun last =>
  let prev_entry := py_or last (PDict []) in
  rbind (py_get prev_entry (str "total") (PInt 0)) (fun tp =>
  rbind (py_int tp) (fun total_prev =>
  rbind (py_get prev_entry (str "by_cc") (PDict [])) (fun by_cc_prev =>
  rbind (strftime ts) (fun stamp =>
  rbind (Bot.format_report stamp (fst tc) total_prev (snd tc)
           by_cc_prev Bot.top_n) (fun report =>
  Ok (ts, tc, report)))))))).

(** The steps of [main] up to the message, without the network. *)
Definition message_of (pycountry_name : pystr -> option pystr)
    (stamp : pystr) (data : snapshot) (loaded : pyval)
  : result (Z * dict Z * pystr) :=
  rbind (match snap_total_nodes data with
         | Some t => Ok t
         | None => Raise KeyError
         end) (fun total =>
  rbind (match snap_nodes data with
         | Some n => Ok n
         | None => Raise KeyError
         end) (fun nodes =>
  rbind (BotOnce.summarize_by_country nodes) (fun by_country =>
  let prev := py_or loaded (PDict []) in
  rbind (py_get prev (str "total") PNone) (fun prev_total =>
  rbind (py_get prev (str "countries") (PDict [])) (fun prev_countries =>
  rbind (BotOnce.build_message pycountry_name stamp total by_country
           prev_total prev_countries) (fun message =>
  Ok (total, by_country, message))))))).

(** What [load_state] returns in a world. *)
Definition once_loaded (w : world) : pyval :=
  match state_file w with
  | Doc j => decode j
  | _ => PNone
  end.

(** The state file is missing, cannot be read, or is not JSON. *)
Definition no_baseline (s : storage) : Prop :=
  s = Missing \/ s = Unreadable \/ s = Unparseable.

(** A world in which the census API answers with [sample_snapshot], the
    messaging API answers every POST with status 400, and the state file
    holds the baseline {total: 5, countries: {US: 5}}. *)
Definition rejecting_world : world :=
  {| state_file :=
       Doc (encode (BotOnce.saved_state 5 [(KStr (str "US"), 5)]));
     posts := [];
     get_reply := Answer 200 (Some sample_snapshot);
     post_reply := fun _ => Answer 400 tt |}.

(** No two keys of the list are equal as Python compares them. *)
Fixpoint keys_distinct (ks : list pykey) : bool :=
  match ks with
  | [] => true
  | k :: rest =>
      forallb (fun k' => negb (key_eqb k k')) rest && keys_distinct rest
  end.

Definition keys {V} (d : dict V) : list pykey := List.map fst d.

Definition is_str_key (k : pykey) : bool :=
  match k with KStr _ => true | _ => false end.

(** Every key of every dict in the value is a string, and the dicts have
    no key twice. *)
Fixpoint json_stable (v : pyval) : bool :=
  match v with
  | PList l => forallb json_stable l
  | PDict d =>
      forallb is_str_key (List.map fst d)
      && keys_distinct (List.map fst d)
      && forallb (fun kv => json_stable (snd kv)) d
  | _ => true
  end.

(** Induction on values, with the hypothesis for the values inside. *)
Fixpoint pyval_nested_ind (P : pyval -> Prop)
    (HNone : P PNone) (HBool : forall b, P (PBool b))
    (HInt : forall z, P (PInt z)) (HStr : forall s, P (PStr s))
    (HList : forall l, Forall P l -> P (PList l))
    (HDict : forall d, Forall (fun kv => P (snd kv)) d -> P (PDict d))
    (v : pyval) : P v :=
  match v with
  | PNone => HNone
  | PBool b => HBool b
  | PInt z => HInt z
  | PStr s => HStr s
  | PList l =>
      HList l
        ((fix go (l : list pyval) : Forall P l :=
            match l with
            | [] => Forall_nil P
            | x :: rest =>
                Forall_cons x
                  (pyval_nested_ind P HNone HBool HInt HStr HList HDict x)
                  (go rest)
            end) l)
  | PDict d =>
      HDict d
        ((fix go (d : list (pykey * pyval))
            : Forall (fun kv => P (snd kv)) d :=
            match d with
            | [] => Forall_nil _
            | kv :: rest =>
                Forall_cons kv
                  (pyval_nested_ind P HNone HBool HInt HStr HList HDict
                     (snd kv))
                  (go rest)
            end) d)
  end.

(** A key of the counts as the data model has it: [None] for the unknown
    bucket or a country code of two characters. *)
Definition is_code_key (k : pykey) : bool :=
  match k with
  | KNone => true
  | KStr s => Nat.eqb (List.length s) 2
  | _ => false
  end.

(** The key under which [bot.py] counts a record, if it counts it. *)
Definition counted_key (arr : pyval) : option pykey :=
  match subscript arr 7 with
  | Ok v => if truthy v then to_key v else None
  | Raise _ => None
  end.

(** The record is one [bot.py] can take: its code is false or hashable. *)
Definition countable (arr : pyval) : bool :=
  match subscript arr 7 with
  | Ok v => negb (truthy v) || match to_key v with Some _ => true | None => false end
  | Raise _ => true
  end.

(** The key under which [bot_once.py] counts a record that has an index 7
    and a code that is false or hashable. *)
Definition once_key (arr : pyval) : option pykey :=
  match subscript arr 7 with
  | Ok v => to_key (if truthy v then v else PNone)
  | Raise _ => None
  end.

(** The records that are counted under a key equal to [k]. *)
Definition counted_under (key_of : pyval -> option pykey) (k : pykey)
    (arr : pyval) : bool :=
  match key_of arr with
  | Some k' => key_eqb k' k
  | None => false
  end.

Definition positive_counts (d : dict Z) : Prop :=
  Forall (fun kv => 0 < snd kv) d.

(** The state of the loop of [summarize_by_country]: counts above zero, no
    key twice. *)
Definition counter_ok (d : dict Z) : Prop :=
  positive_counts d /\ keys_distinct (keys d) = true.



(** The passes of the loop of [bot.py] that run a cycle. *)
Fixpoint run_times (ticks : list Z) (next_run : Z) : list Z :=
  match ticks with
  | [] => []
  | now :: rest =>
      if now >=? next_run
      then now :: run_times rest (now + Bot.interval * 60)
      else run_times rest next_run
  end.

(** Each time is at least 1800 seconds after every time before it. *)
Definition apart (times : list Z) : Prop :=
  StronglySorted (fun a b => a + 1800 <= b) times.

(** The counts with the key [None] renamed as main of [bot_once.py]
    renames it. *)
Definition renamed (by_country : dict Z) : dict Z :=
  List.map (fun kv => (BotOnce.normal_key (fst kv), snd kv)) by_country.

(** No key is the string "null". *)
Definition no_null_code (by_country : dict Z) : Prop :=
  forallb (fun k => negb (key_eqb k (KStr (str "null")))) (keys by_country)
  = true.




(** The messaging API accepts the POST issued after [i] earlier ones: it
    answers, and with a status [raise_for_status] lets through. *)
Definition delivered (w : world) (i : nat) : bool :=
  match post_reply w i with
  | Refused => false
  | Answer status _ => negb (bad_status status)
  end.

(** The characters of the text of [pkt_now], which [strftime] makes of
    digits, "-", ":" and a space. *)
Definition stamp_char (c : N) : bool :=
  ((48 <=? c) && (c <=? 58))%N || N.eqb c 45 || N.eqb c 32.

Definition pkt_stamp (stamp : pystr) : Prop :=
  forallb stamp_char stamp = true.

(** The last line of the messages, after the newline that opens the
    footer. *)
Definition source_line : pystr :=
  str "Source: bitnodes.io " ++ emdash ++ str " snapshot every ~10 min".

(** A world without a state file in which the census API answers with
    [snap] and the messaging API answers every POST with status 200. *)
Definition answering_world (snap : snapshot) : world :=
  {| state_file := Missing; posts := [];
     get_reply := Answer 200 (Some snap);
     post_reply := fun _ => Answer 200 tt |}.

(** A snapshot with one node for each of the country codes. *)
Definition snapshot_of_codes (codes : list pystr) : snapshot :=
  {| snap_timestamp := Some 1700000000;
     snap_total_nodes := Some (Z.of_nat (List.length codes));
     snap_nodes :=
       Some (List.map (fun c => (c, record_with (PStr c))) codes) |}.

(** A country code of 3801 characters, and one that holds a carriage
    return. *)
Definition long_code : pystr := repeat 65%N 3801.
Definition broken_code : pystr :=
  repeat 66%N 1000 ++ [13%N] ++ repeat 66%N 1000.

(* ------------------------------------------------------------------ *)
(** ** Examples of the embedding at work *)

Example commas_1234567 : commas 1234567 = str "1,234,567".
Proof. reflexivity. Qed.
Example commas_neg : commas (-1200) = str "-1,200".
Proof. reflexivity. Qed.
Example commas_small : commas 999 = str "999" /\ commas 0 = str "0".
Proof. split; reflexivity. Qed.
Example fmt_2f_ex :
  fmt_2f (float_of_int 100) = str "100.00"
  /\ fmt_2f (int_truediv (-25) 2) = str "-12.50"
  /\ fmt_2f (int_truediv 1 3) = str "0.33"
  /\ fmt_2f (int_truediv 200 3) = str "66.67"
  /\ fmt_2f (int_truediv 1 8) = str "0.12"
  /\ fmt_2f (int_truediv 0 (-5)) = str "-0.00".
Proof. repeat split; vm_compute; reflexivity. Qed.

(** The float nearest to 0.025 is above it and the float nearest to 0.005
    too, so both print rounded up. *)
Example pct_change_ex :
  fmt_float (Bot.pct_change 4000 4001) = str "0.03"
  /\ fmt_float (Bot.pct_change 20000 20001) = str "0.01"
  /\ fmt_float (Bot.pct_change 3 2) = str "-33.33"
  /\ Bot.line_for (KStr (str "US")) 4001 4000
     = str "United States: 4,001 (+1, 0.03%)".
Proof. repeat split; vm_compute; reflexivity. Qed.
Example splitlines_ex :
  splitlines (str "a" ++ nl ++ nl ++ str "b" ++ nl) = [str "a"; []; str "b"].
Proof. reflexivity. Qed.

Example sorted_desc_ex :
  sorted_desc [(1%nat, 5); (2%nat, 7); (3%nat, 5); (4%nat, 7)]
  = [(2%nat, 7); (4%nat, 7); (1%nat, 5); (3%nat, 5)].
Proof. reflexivity. Qed.

Example bot_report_example :
  Bot.report_lines 170 100
    [(KStr (str "US"), 150); (KStr (str "DE"), 20)]
    (counts_obj [(KStr (str "US"), 100)]) 1
  = Ok [ str "Total: 170 (+70, 70.00%)";
         bullet ++ str " United States: 150 (+50, 50.00%)";
         bullet ++ str " Others: 20 (+20, 100.00%)";
         Bot.footer ].
Proof. vm_compute. reflexivity. Qed.

Example fmt_change_ex :
  BotOnce.fmt_change 150 (Some 100) = str " (+50, +50.00%)"
  /\ BotOnce.fmt_change 90 (Some 100) = str " (-10, -10.00%)"
  /\ BotOnce.fmt_change 20001 (Some 20000) = str " (+1, +0.01%)"
  /\ BotOnce.fmt_change 5 (Some 0) = str " (+5)"
  /\ BotOnce.fmt_change 5 None = [].
Proof. repeat split; vm_compute; reflexivity. Qed.

Example chunks_ex :
  BotOnce.chunks 6 (str "ab" ++ nl ++ str "cd" ++ nl ++ str "efg")
  = [str "ab" ++ nl ++ str "cd"; str "efg"].
Proof. reflexivity. Qed.

(* ------------------------------------------------------------------ *)
(** ** Facts about dictionaries, sums and the sort *)

Section SortFacts.

Context {K : Type}.
Implicit Types (x : K * Z) (l items : list (K * Z)).

Lemma insert_desc_perm x l : Permutation (insert_desc x l) (x :: l).
Proof.
  induction l as [|y l IH]; simpl; [reflexivity|].
  destruct (snd x <? snd y).
  - rewrite IH. apply perm_swap.
  - reflexivity.
Qed.

Lemma sorted_desc_perm items : Permutation (sorted_desc items) items.
Proof.
  induction items as [|x l IH]; simpl; [constructor|].
  rewrite insert_desc_perm. now constructor.
Qed.

Lemma insert_desc_descending x l :
  descending l -> descending (insert_desc x l).
Proof.
  unfold descending. induction l as [|y l IH]; simpl; intros Hs.
  - repeat constructor.
  - inversion Hs as [|? ? Hl Hy]; subst.
    destruct (snd x <? snd y) eqn:E.
    + apply Z.ltb_lt in E. constructor; [now apply IH|].
      rewrite Forall_forall in *. intros z Hz.
      apply (Permutation_in _ (insert_desc_perm x l)) in Hz.
      destruct Hz as [<-|Hz]; [lia | now apply Hy].
    + apply Z.ltb_ge in E. constructor; [assumption|].
      constructor; [assumption|].
      rewrite Forall_forall in *. intros z Hz. specialize (Hy z Hz). lia.
Qed.

Lemma sorted_desc_descending items : descending (sorted_desc items).
Proof.
  induction items as [|x l IH]; simpl.
  - constructor.
  - now apply insert_desc_descending.
Qed.

Lemma insert_desc_stable c x l :
  descending l ->
  filter (has_count c) (insert_desc x l) = filter (has_count c) (x :: l).
Proof.
  unfold descending, has_count.
  induction l as [|y l IH]; intros Hs; [reflexivity|].
  inversion Hs as [|? ? Hl Hy]; subst. simpl.
  destruct (snd x <? snd y) eqn:E; [|reflexivity].
  apply Z.ltb_lt in E. simpl. rewrite (IH Hl). simpl.
  destruct (snd y =? c) eqn:Ey, (snd x =? c) eqn:Ex; try reflexivity.
  apply Z.eqb_eq in Ey, Ex. lia.
Qed.

Lemma sorted_desc_stable c items :
  filter (has_count c) (sorted_desc items) = filter (has_count c) items.
Proof.
  induction items as [|x l IH]; [reflexivity|].
  simpl sorted_desc.
  rewrite insert_desc_stable by apply sorted_desc_descending.
  simpl. now rewrite IH.
Qed.

Lemma sum_values_perm l l' :
  Permutation l l' -> sum (values l) = sum (values l').
Proof.
  unfold values, sum.
  induction 1; simpl; try lia.
Qed.

Lemma sum_values_app l l' :
  sum (values (l ++ l')) = sum (values l) + sum (values l').
Proof.
  unfold values, sum. induction l; simpl; lia.
Qed.

Lemma sum_values_sorted items :
  sum (values (sorted_desc items)) = sum (values items).
Proof. apply sum_values_perm, sorted_desc_perm. Qed.

Lemma sum_values_split (n : nat) l :
  sum (values (firstn n l)) + sum (values (skipn n l)) = sum (values l).
Proof. rewrite <- sum_values_app. now rewrite firstn_skipn. Qed.

Lemma sorted_desc_Forall (P : K * Z -> Prop) items :
  Forall P items -> Forall P (sorted_desc items).
Proof.
  intros H. eapply Permutation_Forall; [|exact H].
  symmetry. apply sorted_desc_perm.
Qed.

End SortFacts.

Section DictFacts.

Lemma sum_values_incr (d : dict Z) k :
  sum (values (dict_set d k (count_of d k + 1))) = sum (values d) + 1.
Proof.
  unfold count_of.
  induction d as [|[k' v'] d IH]; simpl; [lia|].
  destruct (key_eqb k' k); simpl; [lia|].
  unfold values, sum in *. simpl in *. rewrite IH. lia.
Qed.

Lemma key_eqb_refl k : key_eqb k k = true.
Proof. unfold key_eqb. now destruct (pykey_eq_dec (key_norm k) (key_norm k)). Qed.

Lemma key_eqb_sym a b : key_eqb a b = key_eqb b a.
Proof.
  unfold key_eqb.
  destruct (pykey_eq_dec (key_norm a) (key_norm b)),
           (pykey_eq_dec (key_norm b) (key_norm a)); congruence.
Qed.

End DictFacts.

(* ------------------------------------------------------------------ *)
(** ** The order of the top-N selection *)

(** C7, as the code has it: the top-N selection takes the first [top_n] items
    of the mapping sorted by count, largest first; the sort keeps every
    item, and items of equal count keep the order in which the mapping
    enumerates them.  The country code plays no part in the order. *)
Theorem C7_sorted_by_count_ties_in_enumeration_order
    (items : dict Z) (n : nat) :
  Bot.top_items items n = firstn n (sorted_desc items)
  /\ Permutation (sorted_desc items) items
  /\ descending (sorted_desc items)
  /\ forall c, filter (has_count c) (sorted_desc items)
               = filter (has_count c) items.
Proof.
  split; [reflexivity|]. split; [apply sorted_desc_perm|].
  split; [apply sorted_desc_descending|].
  intros c. apply sorted_desc_stable.
Qed.

(** C7, refuted as stated: one mapping, {US: 5, DE: 5}, enumerated in two
    orders gives two different top-N orders; in the first US stands before
    DE, so the tie is not broken by country code ascending. *)
Lemma C7_counterexample_tie_follows_enumeration :
  let a := [(KStr (str "US"), 5); (KStr (str "DE"), 5)] in
  let b := [(KStr (str "DE"), 5); (KStr (str "US"), 5)] in
  (forall k, dict_get a k = dict_get b k)
  /\ Bot.top_items a 15 = a
  /\ Bot.top_items b 15 = b
  /\ Bot.top_items a 15 <> Bot.top_items b 15.
Proof.
  cbv zeta. split; [|split; [reflexivity|split; [reflexivity|discriminate]]].
  intros k. simpl.
  destruct (key_eqb (KStr (str "US")) k), (key_eqb (KStr (str "DE")) k);
    reflexivity.
Qed.

(* ------------------------------------------------------------------ *)
(** ** What the counts add up to *)

Lemma bot_count_record_sum counts arr counts' :
  Bot.count_record counts arr = Ok counts' ->
  sum (values counts')
  = sum (values counts) + (if has_country arr then 1 else 0).
Proof.
  unfold Bot.count_record, has_country.
  destruct (subscript arr 7) as [v|e]; simpl.
  - destruct (truthy v); simpl.
    + destruct (to_key v) as [k|]; [|discriminate].
      intros [= <-]. apply sum_values_incr.
    + intros [= <-]. lia.
  - intros [= <-]. lia.
Qed.

Lemma bot_count_records_sum records : forall counts counts',
  Bot.count_records counts records = Ok counts' ->
  sum (values counts')
  = sum (values counts)
    + Z.of_nat (List.length (filter has_country records)).
Proof.
  induction records as [|arr rest IH]; simpl; intros counts counts' H.
  - injection H as <-. lia.
  - destruct (Bot.count_record counts arr) as [c1|e] eqn:E; [|discriminate].
    apply bot_count_record_sum in E. apply IH in H. rewrite H, E.
    destruct (has_country arr); simpl List.length; lia.
Qed.

(** C3, as the code has it: the counts of the top-N items and the Others
    count add up to the sum of all per-country counts, which is the number
    of records that have a country code; this is the total of the total
    line when the snapshot declares no total (or zero) and every record has
    a country code. *)
Theorem C3_top_n_plus_others_is_sum_of_counts
    (snap : snapshot) (total : Z) (counts : dict Z) (n : nat) :
  Bot.summarize_by_country snap = Ok (total, counts) ->
  let records := List.map snd (Bot.nodes_of snap) in
  sum (values (Bot.top_items counts n)) + Bot.others_count counts n
  = sum (values counts)
  /\ sum (values counts)
     = Z.of_nat (List.length (filter has_country records))
  /\ ((snap_total_nodes snap = None \/ snap_total_nodes snap = Some 0) ->
      forallb has_country records = true ->
      sum (values (Bot.top_items counts n)) + Bot.others_count counts n
      = total).
Proof.
  intros H. cbv zeta.
  set (records := List.map snd (Bot.nodes_of snap)).
  unfold Bot.summarize_by_country in H. fold records in H.
  destruct (Bot.count_records [] records) as [c|e] eqn:E; [|discriminate].
  injection H as <- <-.
  assert (Hsplit : sum (values (Bot.top_items c n)) + Bot.others_count c n
                   = sum (values c)).
  { unfold Bot.top_items, Bot.others_count.
    rewrite sum_values_split. apply sum_values_sorted. }
  apply bot_count_records_sum in E. simpl in E.
  split; [exact Hsplit|]. split; [exact E|].
  intros Hdecl Hall. rewrite Hsplit, E.
  assert (Hf : filter has_country records = records).
  { clear -Hall. induction records as [|r l IH]; [reflexivity|].
    simpl in *. apply andb_prop in Hall as [-> Hl]. now rewrite IH. }
  rewrite Hf. unfold records. rewrite length_map.
  unfold Bot.total_nodes_of. destruct Hdecl as [-> | ->]; reflexivity.
Qed.

Lemma C3_top_n_plus_others_witness :
  let snap := {| snap_timestamp := None; snap_total_nodes := None;
                 snap_nodes := Some [(str "a", record_with (PStr (str "US")));
                                     (str "b", record_with (PStr (str "DE")))]
              |} in
  let counts := [(KStr (str "US"), 1); (KStr (str "DE"), 1)] in
  Bot.summarize_by_country snap = Ok (2, counts)
  /\ sum (values (Bot.top_items counts 1)) + Bot.others_count counts 1 = 2.
Proof.
  intros snap counts. split; [reflexivity|].
  apply (C3_top_n_plus_others_is_sum_of_counts snap 2 counts 1 eq_refl);
    [left|]; reflexivity.
Defined.

(** C3, refuted as stated: of two records one has no country code; the total
    line shows 2, the top-N counts and Others add up to 1. *)
Lemma C3_counterexample_total_exceeds_counts :
  let snap := {| snap_timestamp := None; snap_total_nodes := None;
                 snap_nodes := Some [(str "a", record_with (PStr (str "US")));
                                     (str "b", record_with PNone)] |} in
  exists counts,
    Bot.summarize_by_country snap = Ok (2, counts)
    /\ sum (values (Bot.top_items counts Bot.top_n))
       + Bot.others_count counts Bot.top_n = 1
    /\ Bot.total_line 2 0 = str "Total: 2 (first run)".
Proof.
  exists [(KStr (str "US"), 1)]. repeat split.
Qed.

(* ------------------------------------------------------------------ *)
(** ** Records without a country code *)

Lemma bot_count_record_skips counts arr :
  has_country arr = false -> Bot.count_record counts arr = Ok counts.
Proof.
  unfold has_country, Bot.count_record.
  destruct (subscript arr 7) as [v|e]; simpl.
  - now intros ->.
  - reflexivity.
Qed.

Lemma bot_count_records_skip bad before : forall after counts,
  has_country bad = false ->
  Bot.count_records counts (before ++ bad :: after)
  = Bot.count_records counts (before ++ after).
Proof.
  induction before as [|arr before IH]; intros after counts Hbad; simpl.
  - now rewrite bot_count_record_skips.
  - destruct (Bot.count_record counts arr); [now apply IH | reflexivity].
Qed.

(** C2, as the code has it.  In [bot.py] a record whose country code is
    absent (no index 7), [None] or empty is skipped: the counts stay as they
    are, the record is in no bucket, and the aggregation of the other
    records goes on as if the record were not there.  In [bot_once.py] a
    record whose code is there but [None] or empty is counted under the one
    key [None]. *)
Theorem C2_records_without_country_code
    (counts : dict Z) (bad : pyval) (before after : list pyval) :
  has_country bad = false ->
  Bot.count_record counts bad = Ok counts
  /\ Bot.count_records counts (before ++ bad :: after)
     = Bot.count_records counts (before ++ after)
  /\ forall code,
       subscript bad 7 = Ok code ->
       BotOnce.count_record counts bad
       = Ok (dict_set counts KNone (count_of counts KNone + 1)).
Proof.
  intros Hbad. split; [now apply bot_count_record_skips|].
  split; [now apply bot_count_records_skip|].
  intros code Hcode. unfold has_country in Hbad. rewrite Hcode in Hbad.
  unfold BotOnce.count_record. rewrite Hcode. simpl. now rewrite Hbad.
Qed.

Lemma C2_records_without_country_code_witness :
  has_country (record_with (PStr [])) = false
  /\ Bot.count_records [] [record_with (PStr (str "US"));
                           record_with (PStr []);
                           record_with (PStr (str "DE"))]
     = Bot.count_records [] [record_with (PStr (str "US"));
                             record_with (PStr (str "DE"))]
  /\ BotOnce.count_record [] (record_with (PStr [])) = Ok [(KNone, 1)].
Proof.
  split; [reflexivity|].
  destruct (C2_records_without_country_code []
              (record_with (PStr [])) [record_with (PStr (str "US"))]
              [record_with (PStr (str "DE"))] eq_refl) as (_ & H2 & H3).
  split; [exact H2|]. exact (H3 (PStr []) eq_refl).
Defined.

(** C2, refuted as stated: three records with an empty, a null and an absent
    country code leave [bot.py]'s counts empty; there is no unknown bucket
    and the three nodes are counted nowhere. *)
Lemma C2_counterexample_unknown_nodes_dropped :
  let snap := {| snap_timestamp := None; snap_total_nodes := None;
                 snap_nodes := Some [(str "a", record_with (PStr []));
                                     (str "b", record_with PNone);
                                     (str "c", short_record)] |} in
  Bot.summarize_by_country snap = Ok (3, [])
  /\ sum (values ([] : dict Z)) <> 3.
Proof. split; [reflexivity | discriminate]. Qed.

(* ------------------------------------------------------------------ *)
(** ** The float of an int *)

Section Rounding.

Lemma digits2_pos_succ p :
  (digits2_pos p <= digits2_pos (Pos.succ p) <= digits2_pos p + 1)%positive.
Proof.
  induction p as [p IH|p IH|]; simpl; lia.
Qed.

Lemma Zdigits2_pos m : 0 < m -> 0 < Zdigits2 m.
Proof. destruct m; simpl; lia. Qed.

Lemma Zdigits2_succ m :
  0 < m -> Zdigits2 m <= Zdigits2 (m + 1) <= Zdigits2 m + 1.
Proof.
  destruct m as [|p|p]; try lia. intros _.
  change (Z.pos p + 1) with (Z.pos (p + 1)). rewrite Pos.add_1_r. simpl.
  pose proof (digits2_pos_succ p). lia.
Qed.

(** A number of [d] digits is below [2^d]. *)
Lemma digits2_pos_bound p : Z.pos p < 2 ^ Z.pos (digits2_pos p).
Proof.
  induction p as [p IH|p IH|]; cbn [digits2_pos]; [| |reflexivity];
    rewrite Pos2Z.inj_succ, Z.pow_succ_r by lia; lia.
Qed.

Lemma digits2_pos_le p k : 0 <= k -> Z.pos p < 2 ^ k -> Z.pos (digits2_pos p) <= k.
Proof.
  revert k. induction p as [p IH|p IH|]; intros k Hk H; cbn [digits2_pos].
  - destruct (Z.eq_dec k 0) as [->|]; [simpl in H; lia|].
    replace k with (Z.succ (k - 1)) in H by lia.
    rewrite Z.pow_succ_r in H by lia.
    specialize (IH (k - 1) ltac:(lia) ltac:(lia)). lia.
  - destruct (Z.eq_dec k 0) as [->|]; [simpl in H; lia|].
    replace k with (Z.succ (k - 1)) in H by lia.
    rewrite Z.pow_succ_r in H by lia.
    specialize (IH (k - 1) ltac:(lia) ltac:(lia)). lia.
  - destruct (Z.eq_dec k 0) as [->|]; [simpl in H; lia|]. lia.
Qed.

Lemma digits2_pos_iter_xO p k :
  digits2_pos (Pos.iter xO p k) = (digits2_pos p + k)%positive.
Proof.
  induction k as [|k IH] using Pos.peano_ind.
  - simpl. lia.
  - rewrite Pos.iter_succ. cbn [digits2_pos]. rewrite IH. lia.
Qed.

(** One shift to the right takes one digit off. *)
Lemma shr_1_digits mrs :
  0 <= shr_m mrs ->
  0 <= shr_m (shr_1 mrs)
  /\ Zdigits2 (shr_m (shr_1 mrs)) = Z.max 0 (Zdigits2 (shr_m mrs) - 1).
Proof.
  destruct mrs as [m r s]. cbn [shr_m]. intros Hm.
  destruct m as [|[p|p|]|p]; cbn [shr_1 shr_m Zdigits2 digits2_pos];
    try lia; split; lia.
Qed.

Lemma iter_shr_1_digits n : forall mrs,
  0 <= shr_m mrs ->
  0 <= shr_m (iter_pos shr_1 n mrs)
  /\ Zdigits2 (shr_m (iter_pos shr_1 n mrs))
     = Z.max 0 (Zdigits2 (shr_m mrs) - Z.pos n).
Proof.
  induction n as [n IH|n IH|]; intros mrs Hm; simpl.
  - destruct (shr_1_digits mrs Hm) as [H1 D1].
    destruct (IH _ H1) as [H2 D2]. destruct (IH _ H2) as [H3 D3].
    split; [assumption|]. rewrite D3, D2, D1. lia.
  - destruct (IH _ Hm) as [H2 D2]. destruct (IH _ H2) as [H3 D3].
    split; [assumption|]. rewrite D3, D2. lia.
  - apply shr_1_digits, Hm.
Qed.

(** One shift to the right halves the mantissa and keeps the bit that
    falls off as the round bit. *)
Lemma shr_1_spec mrs :
  0 <= shr_m mrs ->
  shr_m (shr_1 mrs) = shr_m mrs / 2
  /\ shr_r (shr_1 mrs) = Z.odd (shr_m mrs).
Proof.
  destruct mrs as [m r s]. cbn [shr_m]. intros Hm.
  rewrite <- Z.div2_div.
  destruct m as [|[p|p|]|p]; try lia; split; reflexivity.
Qed.

Lemma iter_shr_1_spec n : forall mrs,
  0 <= shr_m mrs ->
  shr_m (iter_pos shr_1 n mrs) = shr_m mrs / 2 ^ Z.pos n
  /\ shr_r (iter_pos shr_1 n mrs) = Z.testbit (shr_m mrs) (Z.pos n - 1).
Proof.
  assert (Hdiv : forall a k, 0 <= a -> 0 <= k -> 0 <= a / 2 ^ k).
  { intros a k Ha Hk. apply Z.div_pos; [assumption|]. now apply Z.pow_pos_nonneg. }
  induction n as [n IH|n IH|]; intros mrs Hm; cbn [iter_pos].
  - destruct (shr_1_spec mrs Hm) as [V1 R1].
    assert (H1 : 0 <= shr_m (shr_1 mrs)).
    { rewrite V1. apply Z.div_pos; lia. }
    destruct (IH _ H1) as [V2 R2].
    assert (H2 : 0 <= shr_m (iter_pos shr_1 n (shr_1 mrs))).
    { rewrite V2. now apply Hdiv. }
    destruct (IH _ H2) as [V3 R3].
    rewrite V3, R3, V2, V1. split.
    + rewrite !Z.div_div by (try apply Z.pow_pos_nonneg; lia).
      f_equal. rewrite (Pos2Z.inj_xI n).
      replace (2 * Z.pos n + 1) with (1 + Z.pos n + Z.pos n) by lia.
      rewrite !Z.pow_add_r by lia. rewrite Z.pow_1_r. ring.
    + rewrite Z.div_div by (try apply Z.pow_pos_nonneg; lia).
      replace (2 * 2 ^ Z.pos n) with (2 ^ (Z.pos n + 1))
        by (rewrite Z.pow_add_r by lia; rewrite Z.pow_1_r; lia).
      rewrite Z.div_pow2_bits by lia. f_equal. lia.
  - destruct (IH _ Hm) as [V2 R2].
    assert (H2 : 0 <= shr_m (iter_pos shr_1 n mrs)).
    { rewrite V2. now apply Hdiv. }
    destruct (IH _ H2) as [V3 R3].
    rewrite V3, R3, V2. split.
    + rewrite Z.div_div by (try apply Z.pow_pos_nonneg; lia).
      f_equal. rewrite (Pos2Z.inj_xO n).
      replace (2 * Z.pos n) with (Z.pos n + Z.pos n) by lia.
      rewrite Z.pow_add_r by lia. ring.
    + rewrite Z.div_pow2_bits by lia. f_equal. lia.
  - destruct (shr_1_spec mrs Hm) as [V1 R1]. rewrite V1, R1. split.
    + now rewrite Z.pow_1_r.
    + symmetry. apply Z.bit0_odd.
Qed.

Lemma shr_record_of_loc_m m l : shr_m (shr_record_of_loc m l) = m.
Proof. destruct l as [|[]]; reflexivity. Qed.



Lemma fexp_mono a b : a <= b -> fexp prec emax a <= fexp prec emax b.
Proof. unfold fexp. lia. Qed.

(** What [shr_fexp] does to a mantissa that is aligned or too long, when
    the value is not below the smallest float: it leaves the magnitude as
    it is and brings the exponent to the one of the format. *)
Lemma shr_fexp_spec m e l :
  0 < m -> emin prec emax < Zdigits2 m + e ->
  e <= fexp prec emax (Zdigits2 m + e) ->
  let r := shr_fexp prec emax m e l in
  0 < shr_m (fst r)
  /\ Zdigits2 (shr_m (fst r)) + snd r = Zdigits2 m + e
  /\ snd r = fexp prec emax (Zdigits2 m + e).
Proof.
  intros Hm He Ha. unfold shr_fexp, shr.
  pose proof (Zdigits2_pos m Hm) as Hd.
  assert (Hn : fexp prec emax (Zdigits2 m + e) - e < Zdigits2 m).
  { unfold fexp, emin, prec, emax in *. lia. }
  destruct (fexp prec emax (Zdigits2 m + e) - e) as [|n|n] eqn:En;
    cbn [fst snd]; rewrite ?shr_record_of_loc_m; try lia.
  destruct (iter_shr_1_digits n (shr_record_of_loc m l)) as [H1 D1];
    [rewrite shr_record_of_loc_m; lia|].
  rewrite shr_record_of_loc_m in D1.
  assert (0 < shr_m (iter_pos shr_1 n (shr_record_of_loc m l))).
  { destruct (shr_m (iter_pos shr_1 n (shr_record_of_loc m l)));
      simpl in *; lia. }
  lia.
Qed.

Lemma round_nearest_even_pos m l :
  0 < m ->
  0 < round_nearest_even m l
  /\ Zdigits2 m <= Zdigits2 (round_nearest_even m l) <= Zdigits2 m + 1.
Proof.
  intros Hm. pose proof (Zdigits2_succ m Hm).
  unfold round_nearest_even.
  destruct l as [|[]]; try destruct (Z.even m); split; lia.
Qed.

(** The rounded mantissa is the mantissa or the next number, and the next
    one only when the round bit is set. *)
Lemma round_nearest_even_up mrs :
  round_nearest_even (shr_m mrs) (loc_of_shr_record mrs)
  <= shr_m mrs + (if shr_r mrs then 1 else 0).
Proof.
  destruct mrs as [m [] []]; cbn [shr_m shr_r loc_of_shr_record];
    unfold round_nearest_even; try destruct (Z.even m); lia.
Qed.

(** Rounding gives a finite float when the value is not below the smallest
    float and its magnitude leaves room for a carry, or when the rounded
    mantissa is no longer than the mantissa was. *)
Lemma binary_round_aux_finite sx mx ex lx :
  0 < mx -> emin prec emax < Zdigits2 mx + ex ->
  ex <= fexp prec emax (Zdigits2 mx + ex) ->
  Zdigits2 mx + ex <= emax ->
  (Zdigits2 mx + ex < emax
   \/ Zdigits2 (round_nearest_even
                  (shr_m (fst (shr_fexp prec emax mx ex lx)))
                  (loc_of_shr_record (fst (shr_fexp prec emax mx ex lx))))
      <= Zdigits2 (shr_m (fst (shr_fexp prec emax mx ex lx)))) ->
  exists m e, binary_round_aux prec emax sx mx ex lx = S754_finite sx m e.
Proof.
  intros Hm He Ha Hmax Hroom. unfold binary_round_aux.
  destruct (shr_fexp_spec mx ex lx Hm He Ha) as (H1 & D1 & E1).
  destruct (shr_fexp prec emax mx ex lx) as [mrs' e']. cbn [fst snd] in *.
  destruct (round_nearest_even_pos (shr_m mrs') (loc_of_shr_record mrs') H1)
    as [H2 D2].
  set (m1 := round_nearest_even (shr_m mrs') (loc_of_shr_record mrs')) in *.
  assert (Ha2 : e' <= fexp prec emax (Zdigits2 m1 + e')).
  { transitivity (fexp prec emax (Zdigits2 (shr_m mrs') + e'));
      [rewrite D1; lia | apply fexp_mono; lia]. }
  destruct (shr_fexp_spec m1 e' loc_Exact H2 ltac:(lia) Ha2) as (H3 & D3 & E3).
  destruct (shr_fexp prec emax m1 e' loc_Exact) as [mrs'' e''].
  cbn [fst snd] in *.
  destruct (shr_m mrs'') as [|m|m]; try lia.
  assert (Hle : e'' <= emax - prec).
  { rewrite E3. unfold fexp, emin, prec, emax in *. lia. }
  apply Z.leb_le in Hle. rewrite Hle. now eexists _, _.
Qed.

Lemma float_limit_bound z : z < float_limit -> z < 2 ^ 1024.
Proof. unfold float_limit. assert (0 < 2 ^ 970) by reflexivity. lia. Qed.

(** An int above zero and below [float_limit] becomes a finite float. *)
Lemma binary_round_int_finite sx p :
  Z.pos p < float_limit ->
  exists m e, binary_round prec emax sx p 0 = S754_finite sx m e.
Proof.
  intros Hlim. unfold binary_round.
  pose proof (digits2_pos_le p 1024 ltac:(lia) (float_limit_bound _ Hlim))
    as Hd.
  assert (Hf : fexp prec emax (Z.pos (digits2_pos p) + 0)
               = Z.pos (digits2_pos p) - 53).
  { unfold fexp, emin, prec, emax. lia. }
  unfold shl_align. rewrite Hf.
  destruct (Z.pos (digits2_pos p) - 53 - 0) as [|n|k] eqn:En.
  - (* 53 digits *)
    apply binary_round_aux_finite; cbn [Zdigits2]; try lia;
      unfold fexp, emin, prec, emax; lia.
  - (* more than 53 digits *)
    apply binary_round_aux_finite; cbn [Zdigits2]; try lia;
      try (unfold fexp, emin, prec, emax; lia).
    destruct (Z.eq_dec (Z.pos (digits2_pos p)) 1024) as [E|];
      [right | left; unfold emax; lia].
    (* 1024 digits: the rounding does not carry *)
    unfold shr_fexp, shr. cbn [Zdigits2]. rewrite Hf.
    replace (Z.pos (digits2_pos p) - 53 - 0) with 971 by lia.
    cbn [fst].
    destruct (iter_shr_1_spec 971 (shr_record_of_loc (Z.pos p) loc_Exact))
      as [V R]; [cbn; lia|].
    destruct (iter_shr_1_digits 971 (shr_record_of_loc (Z.pos p) loc_Exact))
      as [P D]; [cbn; lia|].
    set (mrs := iter_pos shr_1 971 (shr_record_of_loc (Z.pos p) loc_Exact))
      in *.
    change (shr_m (shr_record_of_loc (Z.pos p) loc_Exact)) with (Z.pos p)
      in V, R, D.
    cbn [Zdigits2] in D. rewrite E in D.
    change (Z.max 0 (1024 - 971)) with 53 in D. rewrite D.
    pose proof (round_nearest_even_up mrs) as Hup.
    assert (Hlt : round_nearest_even (shr_m mrs) (loc_of_shr_record mrs)
                  < 2 ^ 53).
    { assert (Hq : shr_m mrs < 2 ^ 53).
      { rewrite V. apply Z.div_lt_upper_bound; [reflexivity|].
        rewrite <- Z.pow_add_r by lia.
        exact (float_limit_bound _ Hlim). }
      destruct (shr_r mrs) eqn:Er; [|lia].
      destruct (Z.eq_dec (shr_m mrs) (2 ^ 53 - 1)) as [Em|]; [|lia].
      exfalso. symmetry in R. change (971 - 1) with 970 in R.
      apply Z.testbit_true in R; [|lia].
      pose proof (Z.div_mod (Z.pos p) (2 ^ 970) ltac:(lia)) as Hp.
      pose proof (Z.mod_pos_bound (Z.pos p) (2 ^ 970) ltac:(reflexivity))
        as Hr.
      pose proof (Z.div_mod (Z.pos p / 2 ^ 970) 2 ltac:(lia)) as Hq2.
      rewrite R in Hq2.
      assert (Hk : Z.pos p / 2 ^ 970 / 2 = 2 ^ 53 - 1).
      { rewrite Z.div_div by lia.
        change (2 ^ 970 * 2) with (2 ^ 971). now rewrite <- V. }
      rewrite Hk in Hq2. unfold float_limit in Hlim.
      set (q := Z.pos p / 2 ^ 970) in *.
      set (r := Z.pos p mod 2 ^ 970) in *.
      change (2 ^ 1024) with (2 ^ 970 * 2 ^ 54) in Hlim.
      change (2 ^ 53) with 9007199254740992 in Hq2.
      change (2 ^ 54) with 18014398509481984 in Hlim.
      nia. }
    destruct (round_nearest_even_pos (shr_m mrs) (loc_of_shr_record mrs))
      as [Hpos _].
    { destruct (shr_m mrs); simpl in D; lia. }
    destruct (round_nearest_even (shr_m mrs) (loc_of_shr_record mrs))
      as [|m1|m1]; try lia.
    cbn [Zdigits2]. apply digits2_pos_le; lia.
  - (* fewer than 53 digits: the mantissa is shifted left *)
    apply binary_round_aux_finite; cbn [Zdigits2];
      rewrite ?digits2_pos_iter_xO; try lia;
      unfold fexp, emin, prec, emax; lia.
Qed.

Lemma float_of_int_finite (z : Z) :
  z <> 0 -> Z.abs z < float_limit ->
  exists m e, float_of_int z = S754_finite (z <? 0) m e.
Proof.
  intros Hz Hlim. unfold float_of_int, binary_normalize.
  destruct z as [|p|p]; [congruence| |];
    now apply binary_round_int_finite.
Qed.


End Rounding.

(** The limit is where the rounding of an int starts to overflow. *)
Example float_limit_ex :
  float_of_int float_limit = inf
  /\ float_of_int (float_limit - 1)
     = S754_finite false 9007199254740991 971.
Proof. split; vm_compute; reflexivity. Qed.


(* ------------------------------------------------------------------ *)
(** ** Percentage change *)

Lemma fmt_float_100 : fmt_float (float_of_int 100) = str "100.00".
Proof. vm_compute. reflexivity. Qed.

Lemma line_for_from_zero code now :
  0 < now ->
  Bot.line_for code now 0
  = Bot.human_country code ++ str ": " ++ commas now ++ new_suffix now.
Proof.
  intros Hpos. unfold Bot.line_for, Bot.pct_change, Bot.sign_of, new_suffix.
  rewrite Z.sub_0_r. change (0 =? 0) with true. cbv iota.
  destruct (now >? 0) eqn:E1; [|rewrite Z.gtb_ltb in E1;
                                 apply Z.ltb_ge in E1; lia].
  destruct (now >=? 0) eqn:E2; [|rewrite Z.geb_leb in E2;
                                  apply Z.leb_gt in E2; lia].
  change (is_inf inf) with true. cbv iota. rewrite fmt_float_100.
  repeat rewrite <- app_assoc. reflexivity.
Qed.



(** C1, as the code has it, for counts that are not negative and below the
    largest float.  In [bot.py] [pct_change] is 0.0 when both counts are 0
    and [float('inf')] when only the previous count is 0, which [line_for]
    prints as 100.00%; otherwise it is the float
    [(current - previous) * 100.0 / previous], the product and the quotient
    each rounded to the nearest float, and the divisor is a finite float
    that is not zero.  In [bot_once.py] [fmt_change] prints no percentage
    when the previous count is 0, only the signed difference, and otherwise
    the float [(current - previous) / previous * 100] with two decimals. *)
Theorem C1_percentage_change_cases (previous current : Z) :
  0 <= previous < float_limit -> 0 <= current < float_limit ->
  (previous = 0 -> current = 0 ->
     Bot.pct_change previous current = fzero
     /\ fmt_float (Bot.pct_change previous current) = str "0.00")
  /\ (previous = 0 -> 0 < current ->
        Bot.pct_change previous current = inf
        /\ forall code,
             Bot.line_for code current previous
             = Bot.human_country code ++ str ": " ++ commas current
                 ++ str " (+" ++ commas current ++ str ", 100.00%)")
  /\ (previous <> 0 ->
        Bot.pct_change previous current
        = fdiv (fmul (float_of_int (current - previous)) (float_of_int 100))
               (float_of_int previous)
        /\ exists m e, float_of_int previous = S754_finite false m e)
  /\ (previous = 0 ->
        BotOnce.fmt_change current (Some previous)
        = str " (" ++ plus_sign current ++ commas current ++ str ")")
  /\ (previous <> 0 ->
        BotOnce.fmt_change current (Some previous)
        = str " (" ++ plus_sign (current - previous)
            ++ commas (current - previous) ++ str ", "
            ++ plus_sign (current - previous)
            ++ fmt_float (fmul (int_truediv (current - previous) previous)
                               (float_of_int 100))
            ++ str "%)").
Proof.
  intros Hp Hc. split; [|split; [|split; [|split]]].
  - intros -> ->. split; reflexivity.
  - intros -> Hpos. split.
    + unfold Bot.pct_change. change (0 =? 0) with true. cbv iota.
      destruct (current >? 0) eqn:E; [reflexivity|].
      rewrite Z.gtb_ltb in E. apply Z.ltb_ge in E. lia.
    + intros code. now apply line_for_from_zero.
  - intros Hnz. split.
    + unfold Bot.pct_change.
      destruct (previous =? 0) eqn:E;
        [apply Z.eqb_eq in E; lia | reflexivity].
    + destruct (float_of_int_finite previous Hnz ltac:(lia)) as (m & e & H).
      exists m, e. rewrite H. f_equal. apply Z.ltb_ge. lia.
  - intros ->. unfold BotOnce.fmt_change, plus_sign.
    rewrite Z.sub_0_r. change (0 =? 0) with true. cbv iota.
    now rewrite app_nil_l.
  - intros Hnz. unfold BotOnce.fmt_change, plus_sign.
    destruct (previous =? 0) eqn:E; [apply Z.eqb_eq in E; lia|].
    repeat rewrite <- app_assoc. reflexivity.
Qed.

Lemma C1_percentage_change_witness :
  Bot.pct_change 0 5 = inf
  /\ Bot.line_for (KStr (str "DE")) 5 0 = str "Germany: 5 (+5, 100.00%)"
  /\ fmt_float (Bot.pct_change 4000 4001) = str "0.03"
  /\ BotOnce.fmt_change 5 (Some 0) = str " (+5)"
  /\ BotOnce.fmt_change 20001 (Some 20000) = str " (+1, +0.01%)".
Proof.
  assert (H5 : 0 <= 5 < float_limit) by (split; [lia | reflexivity]).
  assert (H0 : 0 <= 0 < float_limit) by (split; [lia | reflexivity]).
  assert (Ha : 0 <= 4000 < float_limit) by (split; [lia | reflexivity]).
  assert (Hb : 0 <= 4001 < float_limit) by (split; [lia | reflexivity]).
  assert (Hc : 0 <= 20000 < float_limit) by (split; [lia | reflexivity]).
  assert (Hd : 0 <= 20001 < float_limit) by (split; [lia | reflexivity]).
  destruct (C1_percentage_change_cases 0 5 H0 H5) as (_ & H2 & _ & H4 & _).
  destruct (C1_percentage_change_cases 4000 4001 Ha Hb)
    as (_ & _ & H3 & _ & _).
  destruct (C1_percentage_change_cases 20000 20001 Hc Hd)
    as (_ & _ & _ & _ & H6).
  destruct (H2 eq_refl) as [Hinf Hline]; [lia|].
  split; [exact Hinf|].
  split; [exact (Hline (KStr (str "DE")))|].
  split; [rewrite (proj1 (H3 ltac:(lia))); vm_compute; reflexivity|].
  split; [exact (H4 eq_refl)|].
  rewrite (H6 ltac:(lia)). vm_compute. reflexivity.
Defined.

(** C1, refuted as stated: with a previous count of 0 [fmt_change] of
    [bot_once.py] prints the difference alone; there is no percent sign in
    its text, so neither a fixed 100% for a new count nor 0% for a count
    that stays 0. *)
Lemma C1_counterexample_fmt_change_no_percentage :
  BotOnce.fmt_change 5 (Some 0) = str " (+5)"
  /\ BotOnce.fmt_change 0 (Some 0) = str " (0)"
  /\ existsb (N.eqb 37) (BotOnce.fmt_change 5 (Some 0)) = false
  /\ existsb (N.eqb 37) (BotOnce.fmt_change 0 (Some 0)) = false.
Proof. repeat split. Qed.

(* ------------------------------------------------------------------ *)
(** ** The report of a first run *)

Lemma rmap_ok {A B} (f : A -> result B) (g : A -> B) (l : list A) :
  Forall (fun x => f x = Ok (g x)) l -> rmap f l = Ok (List.map g l).
Proof.
  induction 1 as [|x l Hx _ IH]; [reflexivity|].
  simpl. now rewrite Hx, IH.
Qed.

Lemma Forall_take {A} (P : A -> Prop) (n : nat) (l : list A) :
  Forall P l -> Forall P (firstn n l).
Proof.
  intros H. revert n. induction H as [|x l Hx _ IH]; intros [|n]; simpl;
    constructor; auto.
Qed.

Lemma Forall_drop {A} (P : A -> Prop) (n : nat) (l : list A) :
  Forall P l -> Forall P (skipn n l).
Proof.
  intros H. revert n. induction H as [|x l Hx Hl IH]; intros [|n]; simpl;
    auto.
Qed.

Lemma sum_values_pos {K} (l : list (K * Z)) :
  Forall (fun kv => 0 < snd kv) l -> 0 <= sum (values l).
Proof.
  unfold values, sum. induction 1 as [|x l Hx _ IH]; simpl; lia.
Qed.

Lemma build_message_no_baseline (pycountry_name : pystr -> option pystr)
    stamp total (by_country : dict Z) :
  BotOnce.build_message pycountry_name stamp total by_country
    PNone (PDict [])
  = Ok (join nl ([BotOnce.header stamp; str "Total: " ++ commas total]
                   ++ List.map (plain_line pycountry_name)
                        (sorted_desc by_country)
                   ++ [BotOnce.footer])).
Proof.
  unfold BotOnce.build_message. simpl rbind.
  rewrite (rmap_ok _ (plain_line pycountry_name)).
  - simpl. now rewrite app_nil_r.
  - apply Forall_forall. intros [k c] _.
    unfold BotOnce.item_line, plain_line. simpl.
    now repeat rewrite app_nil_r.
Qed.

Lemma report_lines_no_baseline total (by_country_now : dict Z) (n : nat) :
  Bot.report_lines total 0 by_country_now (PDict []) n
  = Ok ((str "Total: " ++ commas total ++ str " (first run)")
          :: List.map (fun kv => bullet ++ str " "
                                   ++ Bot.line_for (fst kv) (snd kv) 0)
               (Bot.top_items by_country_now n)
          ++ (if Bot.others_count by_country_now n =? 0 then []
              else [bullet ++ str " "
                      ++ Bot.line_for (KStr (str "Others"))
                           (Bot.others_count by_country_now n) 0])
          ++ [Bot.footer]).
Proof.
  unfold Bot.report_lines, Bot.country_lines, Bot.others_lines.
  rewrite (rmap_ok _ (fun kv => bullet ++ str " "
                                  ++ Bot.line_for (fst kv) (snd kv) 0)).
  - simpl rbind.
    destruct (Bot.others_count by_country_now n =? 0); reflexivity.
  - apply Forall_forall. intros [k c] _. reflexivity.
Qed.

Lemma first_run_country_lines (by_country_now : dict Z) (n : nat) :
  Forall (fun kv => 0 < snd kv) by_country_now ->
  Bot.country_lines by_country_now (PDict []) n
  = Ok (List.map new_line (Bot.top_items by_country_now n)).
Proof.
  intros Hpos. unfold Bot.country_lines. apply rmap_ok.
  assert (Htop : Forall (fun kv => 0 < snd kv)
                   (Bot.top_items by_country_now n)).
  { unfold Bot.top_items. apply Forall_take.
    now apply sorted_desc_Forall. }
  eapply Forall_impl; [|exact Htop].
  intros [k c] Hc. simpl in *. unfold new_line. simpl.
  now rewrite line_for_from_zero.
Qed.

Lemma first_run_others_lines (by_country_now : dict Z) (n : nat) :
  Forall (fun kv => 0 < snd kv) by_country_now ->
  Bot.others_lines by_country_now (PDict []) n
  = Ok (if Bot.others_count by_country_now n =? 0 then []
        else [new_line (KStr (str "Others"),
                        Bot.others_count by_country_now n)]).
Proof.
  intros Hpos. unfold Bot.others_lines.
  assert (Hnn : 0 <= Bot.others_count by_country_now n).
  { unfold Bot.others_count. apply sum_values_pos.
    apply Forall_drop. now apply sorted_desc_Forall. }
  destruct (Bot.others_count by_country_now n =? 0) eqn:E; [reflexivity|].
  apply Z.eqb_neq in E. simpl.
  rewrite line_for_from_zero by lia. reflexivity.
Qed.

(** C6, as the code has it, for a run without a baseline.  In [bot.py]
    (previous total 0, no previous counts) the total line ends in
    "(first run)" and every country line and the Others line still has a
    suffix, the count itself as the difference and 100.00%.  In
    [bot_once.py] (no previous total, no previous counts) no line has a
    suffix, and the total line has no marker: it is "Total: " and the
    count. *)
Theorem C6_first_run_report
    (pycountry_name : pystr -> option pystr) (stamp : pystr)
    (total_now : Z) (by_country_now : dict Z) (n : nat) :
  Forall (fun kv => 0 < snd kv) by_country_now ->
  Bot.report_lines total_now 0 by_country_now (PDict []) n
  = Ok ([str "Total: " ++ commas total_now ++ str " (first run)"]
          ++ List.map new_line (Bot.top_items by_country_now n)
          ++ (if Bot.others_count by_country_now n =? 0 then []
              else [new_line (KStr (str "Others"),
                              Bot.others_count by_country_now n)])
          ++ [Bot.footer])
  /\ BotOnce.build_message pycountry_name stamp total_now by_country_now
       PNone (PDict [])
     = Ok (join nl ([BotOnce.header stamp; str "Total: " ++ commas total_now]
                      ++ List.map (plain_line pycountry_name)
                           (sorted_desc by_country_now)
                      ++ [BotOnce.footer])).
Proof.
  intros Hpos. split.
  - unfold Bot.report_lines.
    rewrite first_run_country_lines, first_run_others_lines by assumption.
    reflexivity.
  - apply build_message_no_baseline.
Qed.

Lemma C6_first_run_report_witness :
  Bot.report_lines 7 0
    [(KStr (str "DE"), 2); (KStr (str "US"), 5)] (PDict []) 1
  = Ok [ str "Total: 7 (first run)";
         bullet ++ str " United States: 5 (+5, 100.00%)";
         bullet ++ str " Others: 2 (+2, 100.00%)";
         Bot.footer ]
  /\ BotOnce.build_message (fun _ => None) (str "2026-01-01 10:00") 7
       [(KStr (str "DE"), 2); (KNone, 5)] PNone (PDict [])
     = Ok (join nl [ BotOnce.header (str "2026-01-01 10:00");
                     str "Total: 7";
                     bullet ++ str " n/a: 5";
                     bullet ++ str " DE: 2";
                     BotOnce.footer ]).
Proof.
  split.
  - refine (eq_trans (proj1 (C6_first_run_report (fun _ => None) []
                               7 [(KStr (str "DE"), 2); (KStr (str "US"), 5)]
                               1 _)) _).
    + repeat constructor.
    + vm_compute. reflexivity.
  - refine (eq_trans (proj2 (C6_first_run_report (fun _ => None)
                               (str "2026-01-01 10:00")
                               7 [(KStr (str "DE"), 2); (KNone, 5)] 1 _)) _).
    + repeat constructor.
    + vm_compute. reflexivity.
Defined.

(** C6, refuted as stated: on a first run [bot.py]'s country line has the
    suffix "(+5, 100.00%)", and [bot_once.py]'s total line has no first-run
    marker. *)
Lemma C6_counterexample_first_run_lines :
  Bot.report_lines 5 0 [(KStr (str "DE"), 5)] (PDict []) Bot.top_n
  = Ok [ str "Total: 5 (first run)";
         bullet ++ str " Germany: 5 (+5, 100.00%)";
         Bot.footer ]
  /\ bullet ++ str " Germany: 5 (+5, 100.00%)"
     <> bullet ++ str " Germany: 5"
  /\ BotOnce.build_message (fun _ => None) (str "2026-01-01 10:00") 5
       [(KStr (str "DE"), 5)] PNone (PDict [])
     = Ok (join nl [ BotOnce.header (str "2026-01-01 10:00");
                     str "Total: 5";
                     bullet ++ str " DE: 5";
                     BotOnce.footer ]).
Proof.
  split; [vm_compute; reflexivity|].
  split; [discriminate|]. vm_compute; reflexivity.
Qed.

(* ------------------------------------------------------------------ *)
(** ** Lines, joins and [splitlines] *)

Section Lines.

Lemma lines_size_app a b :
  lines_size (a ++ b) = (lines_size a + lines_size b)%nat.
Proof. induction a; simpl; lia. Qed.

Lemma join_length_size (lines : list pystr) :
  lines <> [] ->
  (List.length (join nl lines) + 1)%nat = lines_size lines.
Proof.
  induction lines as [|l rest IH]; [congruence|]. intros _.
  destruct rest as [|q r].
  - simpl. lia.
  - change (join nl (l :: q :: r)) with (l ++ nl ++ join nl (q :: r)).
    rewrite !length_app. simpl lines_size in *. simpl (List.length nl).
    specialize (IH ltac:(discriminate)). lia.
Qed.

Lemma join_app (sep : pystr) (l1 l2 : list pystr) :
  l1 <> [] -> l2 <> [] ->
  join sep (l1 ++ l2) = join sep l1 ++ sep ++ join sep l2.
Proof.
  induction l1 as [|p l1 IH]; [congruence|]. intros _ H2.
  destruct l1 as [|q r].
  - destruct l2; [congruence | reflexivity].
  - change (join sep ((p :: q :: r) ++ l2))
      with (p ++ sep ++ join sep ((q :: r) ++ l2)).
    rewrite IH by (assumption || discriminate).
    change (join sep (p :: q :: r)) with (p ++ sep ++ join sep (q :: r)).
    now rewrite <- !app_assoc.
Qed.

Lemma join_concat (sep : pystr) (groups : list (list pystr)) :
  Forall (fun g => g <> []) groups ->
  join sep (List.map (join sep) groups) = join sep (List.concat groups).
Proof.
  induction 1 as [|g gs Hg Hgs IH]; [reflexivity|].
  destruct gs as [|g' gs'].
  - simpl. now rewrite app_nil_r.
  - change (join sep (List.map (join sep) (g :: g' :: gs')))
      with (join sep g ++ sep ++ join sep (List.map (join sep) (g' :: gs'))).
    rewrite IH.
    change (List.concat (g :: g' :: gs'))
      with (g ++ List.concat (g' :: gs')).
    rewrite (join_app sep g (List.concat (g' :: gs')));
      [reflexivity|assumption|].
    inversion Hgs; subst. destruct g'; [congruence | discriminate].
Qed.

Lemma not_break_not_cr c : is_break c = false -> N.eqb c 13 = false.
Proof.
  intros H. destruct (N.eqb_spec c 13) as [->|]; [discriminate | reflexivity].
Qed.

Lemma splitlines_from_line (l : pystr) : forall cur rest,
  break_free l ->
  splitlines_from cur (l ++ rest) = splitlines_from (rev l ++ cur) rest.
Proof.
  unfold break_free.
  induction l as [|c l IH]; intros cur rest H; [reflexivity|].
  simpl in H. apply andb_prop in H as [Hc Hl].
  apply negb_true_iff in Hc.
  simpl app. cbn [splitlines_from].
  rewrite (not_break_not_cr _ Hc), Hc, IH by assumption.
  simpl rev. now rewrite <- app_assoc.
Qed.

Lemma splitlines_from_nl cur rest :
  splitlines_from cur (nl ++ rest) = rev cur :: splitlines_from [] rest.
Proof. reflexivity. Qed.

Lemma splitlines_from_join (lines : list pystr) :
  Forall break_free lines ->
  last lines [] <> [] ->
  forall cur,
    splitlines_from cur (join nl lines)
    = match lines with
      | [] => []
      | l :: rest => (rev cur ++ l) :: rest
      end.
Proof.
  induction 1 as [|l rest Hl Hrest IH]; intros Hlast cur;
    [simpl in Hlast; congruence|].
  destruct rest as [|q r].
  - simpl in Hlast. simpl join.
    rewrite <- (app_nil_r l) at 1. rewrite splitlines_from_line by assumption.
    simpl. destruct (rev l ++ cur) eqn:E.
    + apply app_eq_nil in E as [E _].
      apply (f_equal (@rev N)) in E. rewrite rev_involutive in E.
      simpl in E. congruence.
    + rewrite <- E, rev_app_distr, rev_involutive. reflexivity.
  - change (join nl (l :: q :: r)) with (l ++ nl ++ join nl (q :: r)).
    rewrite splitlines_from_line, splitlines_from_nl by assumption.
    rewrite rev_app_distr, rev_involutive.
    rewrite IH by exact Hlast. reflexivity.
Qed.

Lemma splitlines_join (lines : list pystr) :
  Forall break_free lines ->
  last lines [] <> [] ->
  splitlines (join nl lines) = lines.
Proof.
  intros Hb Hlast. unfold splitlines.
  rewrite splitlines_from_join by assumption.
  destruct lines; reflexivity.
Qed.

End Lines.

(* ------------------------------------------------------------------ *)
(** ** Chunked delivery *)

Section Chunking.

Variable chunk_size : nat.

Lemma chunk_loop_cons line rest chunk size :
  BotOnce.chunk_loop chunk_size (line :: rest) chunk size
  = if (chunk_size <? size + (List.length line + 1))%nat
         && match chunk with [] => false | _ => true end
    then chunk :: BotOnce.chunk_loop chunk_size rest [line]
                    (List.length line + 1)%nat
    else BotOnce.chunk_loop chunk_size rest (chunk ++ [line])
           (size + (List.length line + 1))%nat.
Proof. reflexivity. Qed.

Lemma chunk_loop_nonempty lines : forall chunk size,
  chunk <> [] -> BotOnce.chunk_loop chunk_size lines chunk size <> [].
Proof.
  induction lines as [|line rest IH]; intros chunk size Hc; simpl.
  - destruct chunk; [congruence | discriminate].
  - destruct ((chunk_size <? size + (List.length line + 1))%nat
              && match chunk with [] => false | _ => true end);
      [discriminate|].
    apply IH. destruct chunk; discriminate.
Qed.

(** The chunks are the lines, in order, cut into groups none of which is
    empty. *)
Lemma chunk_loop_groups lines : forall chunk size,
  List.concat (BotOnce.chunk_loop chunk_size lines chunk size) = chunk ++ lines
  /\ Forall (fun g => g <> []) (BotOnce.chunk_loop chunk_size lines chunk size).
Proof.
  induction lines as [|line rest IH]; intros chunk size; simpl.
  - destruct chunk; simpl.
    + split; constructor.
    + rewrite !app_nil_r. split; [reflexivity|].
      constructor; [discriminate | constructor].
  - destruct ((chunk_size <? size + (List.length line + 1))%nat) eqn:E;
      simpl.
    + destruct chunk as [|c0 chunk].
      * destruct (IH [line] (size + (List.length line + 1))%nat) as [H1 H2].
        simpl app in *. now split.
      * destruct (IH [line] (List.length line + 1)%nat) as [H1 H2].
        simpl List.concat. rewrite H1. split; [reflexivity|].
        constructor; [discriminate | assumption].
    + destruct (IH (chunk ++ [line]) (size + (List.length line + 1))%nat)
        as [H1 H2].
      rewrite <- app_assoc in H1. now split.
Qed.

Lemma chunk_loop_bound lines :
  Forall (fun l => (List.length l <= chunk_size)%nat) lines ->
  forall chunk size,
    size = lines_size chunk -> chunk_ok chunk_size chunk ->
    Forall (fun g => (List.length (join nl g) <= chunk_size)%nat)
      (BotOnce.chunk_loop chunk_size lines chunk size).
Proof.
  induction 1 as [|line rest Hline Hrest IH]; intros chunk size Hsize Hok;
    simpl.
  - destruct chunk; [constructor|].
    destruct Hok as [Hok|Hok]; [discriminate|].
    constructor; [exact Hok | constructor].
  - assert (Hsingle : chunk_ok chunk_size [line]) by (right; exact Hline).
    destruct ((chunk_size <? size + (List.length line + 1))%nat) eqn:E;
      simpl.
    + destruct chunk as [|c0 chunk].
      * apply IH; [simpl in *; lia | exact Hsingle].
      * destruct Hok as [Hok|Hok]; [discriminate|].
        constructor; [exact Hok|].
        apply IH; [simpl; lia | exact Hsingle].
    + apply Nat.ltb_ge in E. apply IH.
      * rewrite lines_size_app.
        change (lines_size [line]) with (List.length line + 1 + 0)%nat. lia.
      * right.
        assert (Hne : chunk ++ [line] <> []) by (destruct chunk; discriminate).
        pose proof (join_length_size _ Hne) as Hl.
        rewrite lines_size_app in Hl.
        change (lines_size [line]) with (List.length line + 1 + 0)%nat in Hl.
        unfold pystr in *. lia.
Qed.

(** One chunk only means that everything fitted. *)
Lemma chunk_loop_one lines : forall chunk size,
  chunk <> [] -> lines <> [] ->
  (List.length (BotOnce.chunk_loop chunk_size lines chunk size) <= 1)%nat ->
  (size + lines_size lines <= chunk_size)%nat.
Proof.
  induction lines as [|line rest IH]; intros chunk size Hc Hl Hone;
    [congruence|].
  rewrite chunk_loop_cons in Hone.
  destruct ((chunk_size <? size + (List.length line + 1))%nat) eqn:E.
  - destruct chunk as [|c0 chunk]; [congruence|].
    cbn [andb] in Hone.
    pose proof (chunk_loop_nonempty rest [line] (List.length line + 1)%nat
                  ltac:(discriminate)) as Hne.
    destruct (BotOnce.chunk_loop chunk_size rest [line]
                (List.length line + 1)%nat);
      [congruence | cbn [List.length] in Hone; lia].
  - cbn [andb] in Hone. apply Nat.ltb_ge in E.
    destruct rest as [|q r]; [simpl; lia|].
    assert (Hne : chunk ++ [line] <> []) by (destruct chunk; discriminate).
    specialize (IH (chunk ++ [line]) (size + (List.length line + 1))%nat
                  Hne ltac:(discriminate) Hone).
    simpl lines_size in *. unfold pystr in *. lia.
Qed.

Lemma chunk_loop_two lines :
  Forall (fun l => (List.length l <= chunk_size)%nat) lines ->
  (chunk_size < List.length (join nl lines))%nat ->
  (2 <= List.length (BotOnce.chunk_loop chunk_size lines [] 0))%nat.
Proof.
  intros Hfit Hlong.
  destruct lines as [|line rest]; [simpl in Hlong; lia|].
  destruct (le_lt_dec 2 (List.length
                           (BotOnce.chunk_loop chunk_size (line :: rest) [] 0)))
    as [|Hone]; [assumption|].
  exfalso. rewrite chunk_loop_cons, andb_false_r in Hone.
  destruct rest as [|q r].
  - inversion Hfit; subst. simpl in Hlong. unfold pystr in *. lia.
  - pose proof (chunk_loop_one (q :: r) ([] ++ [line])
                  (0 + (List.length line + 1))%nat
                  ltac:(discriminate) ltac:(discriminate)
                  ltac:(unfold pystr in *; lia)) as H.
    pose proof (join_length_size (line :: q :: r) ltac:(discriminate)) as Hl.
    simpl lines_size in *. unfold pystr in *. lia.
Qed.

End Chunking.

Lemma send_loop_send_all chunk_size lines : forall chunk size w,
  BotOnce.send_loop chunk_size lines chunk size w
  = send_all (List.map (join nl)
                (BotOnce.chunk_loop chunk_size lines chunk size)) w.
Proof.
  induction lines as [|line rest IH]; intros chunk size w; simpl.
  - destruct chunk; [reflexivity|]. simpl. unfold bind.
    destruct (BotOnce.send_telegram _ w) as [[[]|e] w']; reflexivity.
  - destruct ((chunk_size <? size + (List.length line + 1))%nat
              && match chunk with [] => false | _ => true end).
    + simpl. unfold bind.
      destruct (BotOnce.send_telegram _ w) as [[[]|e] w']; [apply IH|].
      reflexivity.
    + apply IH.
Qed.

Lemma add_posts_nil w : add_posts w [] = w.
Proof. destruct w. unfold add_posts. simpl. now rewrite app_nil_r. Qed.

Lemma add_posts_app w a b :
  add_posts (add_posts w a) b = add_posts w (a ++ b).
Proof. unfold add_posts. simpl. now rewrite app_assoc. Qed.

Lemma send_all_answered texts : forall w,
  all_answered w -> send_all texts w = (Ok tt, add_posts w texts).
Proof.
  induction texts as [|t rest IH]; intros w Hw; simpl.
  - unfold ret. now rewrite add_posts_nil.
  - unfold bind, BotOnce.send_telegram, bind, http_post.
    specialize (Hw (List.length (posts w))) as Hn.
    destruct (post_reply w (List.length (posts w))) as [|status []];
      [congruence|].
    unfold ret. fold (add_posts w [t]).
    rewrite IH by exact Hw. now rewrite add_posts_app.
Qed.

(** The chunks of a text that is the join by newline of lines that hold no
    line boundary, the last of them not empty, none longer than the chunk
    size, the whole longer than the chunk size. *)
Lemma chunks_of_joined_lines
    (chunk_size : nat) (lines : list pystr) (text : pystr) :
  text = join nl lines ->
  Forall break_free lines ->
  last lines [] <> [] ->
  Forall (fun l => (List.length l <= chunk_size)%nat) lines ->
  (chunk_size < List.length text)%nat ->
  splitlines text = lines
  /\ (2 <= List.length (BotOnce.chunks chunk_size text))%nat
  /\ Forall (fun c => (List.length c <= chunk_size)%nat)
       (BotOnce.chunks chunk_size text)
  /\ (exists groups,
        List.concat groups = lines
        /\ Forall (fun g => g <> []) groups
        /\ BotOnce.chunks chunk_size text = List.map (join nl) groups)
  /\ join nl (BotOnce.chunks chunk_size text) = text
  /\ forall w, all_answered w ->
       BotOnce.send_chunked text chunk_size w
       = (Ok tt, add_posts w (BotOnce.chunks chunk_size text)).
Proof.
  intros -> Hfree Hlast Hfit Hlong.
  split; [now apply splitlines_join|].
  unfold BotOnce.chunks, BotOnce.send_chunked.
  rewrite splitlines_join by assumption.
  destruct (chunk_loop_groups chunk_size lines [] 0) as [Hcat Hne].
  simpl in Hcat.
  split; [rewrite length_map; now apply chunk_loop_two|].
  split.
  { apply Forall_map. apply chunk_loop_bound; try assumption.
    - reflexivity.
    - now left. }
  split; [eexists; repeat split; eassumption|].
  split; [rewrite join_concat by assumption; now rewrite Hcat|].
  intros w Hw. rewrite send_loop_send_all. now apply send_all_answered.
Qed.

(* ------------------------------------------------------------------ *)
(** ** The lines of the message of [bot_once.py] *)

Section MessageLines.

Lemma break_free_app (a b : pystr) :
  break_free a -> break_free b -> break_free (a ++ b).
Proof. unfold break_free. intros Ha Hb. now rewrite forallb_app, Ha, Hb. Qed.

Lemma break_free_In (l : pystr) :
  break_free l <-> forall c, In c l -> is_break c = false.
Proof.
  unfold break_free. rewrite forallb_forall.
  split; intros H c Hc; specialize (H c Hc);
    now destruct (is_break c).
Qed.

Lemma break_free_rev (l : pystr) : break_free l -> break_free (rev l).
Proof.
  rewrite !break_free_In. intros H c Hc. apply H. now apply in_rev.
Qed.

Lemma break_free_uint (d : Decimal.uint) :
  break_free (str (NilEmpty.string_of_uint d)).
Proof.
  induction d; try reflexivity;
    (apply (break_free_app [_]); [reflexivity | exact IHd]).
Qed.

Lemma break_free_dec (n : N) : break_free (dec n).
Proof.
  unfold dec, NilZero.string_of_uint.
  destruct (N.to_uint n); try reflexivity; apply break_free_uint.
Qed.

Lemma break_free_dec2 (n : N) : break_free (dec2 n).
Proof.
  unfold dec2. apply break_free_app; [|apply break_free_dec].
  now destruct (n <? 10)%N.
Qed.

Lemma break_free_group3 fuel : forall digits_rev,
  break_free digits_rev -> break_free (group3 fuel digits_rev).
Proof.
  induction fuel as [|f IH]; intros l Hl; [exact Hl|].
  destruct l as [|a [|b [|c [|d more]]]]; try exact Hl.
  cbn [group3]. unfold break_free in *. cbn [forallb] in *.
  repeat (apply andb_prop in Hl as [? Hl]).
  repeat (apply andb_true_intro; split; try assumption).
  - reflexivity.
  - apply IH. cbn [forallb]. now apply andb_true_intro.
Qed.

Lemma break_free_commas (z : Z) : break_free (commas z).
Proof.
  unfold commas. apply break_free_app; [now destruct (z <? 0)|].
  apply break_free_rev, break_free_group3, break_free_rev, break_free_dec.
Qed.

Lemma break_free_fmt_float (x : pyfloat) : break_free (fmt_float x).
Proof.
  unfold fmt_float, fmt_2f.
  destruct x as [s|s| |s m e];
    [now destruct s | now destruct s | reflexivity |].
  apply break_free_app; [now destruct s|].
  apply break_free_app; [apply break_free_dec|].
  apply break_free_app; [reflexivity | apply break_free_dec2].
Qed.

Ltac break_free_parts :=
  repeat first
    [ assumption
    | apply break_free_commas
    | apply break_free_fmt_float
    | reflexivity
    | apply break_free_app ].

Lemma break_free_fmt_change (new : Z) (old : option Z) :
  break_free (BotOnce.fmt_change new old).
Proof.
  unfold BotOnce.fmt_change. destruct old as [o|]; [|reflexivity].
  cbv zeta.
  assert (Hs : break_free (if new - o >? 0 then str "+" else []))
    by now destruct (new - o >? 0).
  destruct (o =? 0); break_free_parts.
Qed.

Lemma pkt_stamp_break_free (stamp : pystr) :
  pkt_stamp stamp -> break_free stamp.
Proof.
  unfold pkt_stamp, break_free. intros H.
  rewrite forallb_forall in *. intros c Hc. specialize (H c Hc).
  unfold stamp_char in H. unfold is_break. cbn [existsb].
  destruct (N.eqb_spec c 10) as [->|]; [discriminate|].
  destruct (N.eqb_spec c 13) as [->|]; [discriminate|].
  destruct (N.eqb_spec c 11) as [->|]; [discriminate|].
  destruct (N.eqb_spec c 12) as [->|]; [discriminate|].
  destruct (N.eqb_spec c 28) as [->|]; [discriminate|].
  destruct (N.eqb_spec c 29) as [->|]; [discriminate|].
  destruct (N.eqb_spec c 30) as [->|]; [discriminate|].
  destruct (N.eqb_spec c 133) as [->|]; [discriminate|].
  destruct (N.eqb_spec c 8232) as [->|]; [discriminate|].
  destruct (N.eqb_spec c 8233) as [->|]; [discriminate|].
  reflexivity.
Qed.

Lemma Ok_inj {A} (a b : A) : @Ok A a = Ok b -> a = b.
Proof. now intros [= ->]. Qed.

Lemma rmap_Forall {A B} (f : A -> result B) (P : B -> Prop) (l : list A) :
  forall ys,
    rmap f l = Ok ys ->
    (forall x y, In x l -> f x = Ok y -> P y) ->
    Forall P ys.
Proof.
  induction l as [|x l IH]; intros ys H HP; cbn [rmap] in H.
  - injection H as <-. constructor.
  - destruct (f x) as [y|] eqn:Ex; [|discriminate]. cbn [rbind] in H.
    destruct (rmap f l) as [ys'|]; [|discriminate]. cbn [rbind] in H.
    injection H as <-. constructor.
    + apply (HP x); [now left | exact Ex].
    + apply IH; [reflexivity|]. intros x' y' Hin. apply HP. now right.
Qed.

Variable pycountry_name : pystr -> option pystr.

Lemma item_line_break_free prev_countries kv line :
  break_free (BotOnce.item_name pycountry_name (fst kv)) ->
  BotOnce.item_line pycountry_name prev_countries kv = Ok line ->
  break_free line.
Proof.
  intros Hname. unfold BotOnce.item_line.
  destruct prev_countries as [| | | | |d]; try discriminate.
  destruct (BotOnce.old_of _) as [old|]; [|discriminate].
  cbn [rbind]. intros [= <-].
  pose proof (break_free_fmt_change (snd kv) old).
  break_free_parts.
Qed.

(** The footer opens with a newline: it is an empty line and the line of
    the source. *)
Lemma join_footer (lines : list pystr) :
  lines <> [] ->
  join nl (lines ++ [BotOnce.footer]) = join nl (lines ++ [[]; source_line]).
Proof.
  intros Hne.
  rewrite !join_app by (assumption || discriminate). reflexivity.
Qed.

(** The message of [bot_once.py] is the join by newline of its lines, none
    of which holds a line boundary when the stamp and the names hold
    none. *)
Lemma build_message_lines stamp total (by_country : dict Z)
    prev_total prev_countries text :
  BotOnce.build_message pycountry_name stamp total by_country prev_total
    prev_countries = Ok text ->
  pkt_stamp stamp ->
  Forall (fun kv => break_free (BotOnce.item_name pycountry_name (fst kv)))
    by_country ->
  exists lines,
    text = join nl lines
    /\ Forall break_free lines
    /\ last lines [] <> [].
Proof.
  unfold BotOnce.build_message. intros H Hstamp Hnames.
  destruct (BotOnce.old_of prev_total) as [old_total|]; [|discriminate].
  cbn [rbind] in H.
  destruct (rmap _ (sorted_desc by_country)) as [items|] eqn:Eitems;
    [|discriminate].
  cbn [rbind] in H. apply Ok_inj in H.
  exists (([BotOnce.header stamp;
            str "Total: " ++ commas total
              ++ BotOnce.fmt_change total old_total] ++ items)
          ++ [[]; source_line]).
  split; [|split].
  - rewrite <- H, <- join_footer by discriminate.
    apply f_equal. apply (app_assoc [_; _] items [_]).
  - apply Forall_app. split; [|repeat constructor].
    apply Forall_app. split.
    + constructor; [|constructor; [|constructor]].
      * unfold BotOnce.header.
        pose proof (pkt_stamp_break_free stamp Hstamp).
        break_free_parts.
      * pose proof (break_free_fmt_change total old_total).
        break_free_parts.
    + apply (rmap_Forall _ _ _ _ Eitems). intros kv line Hin Hline.
      apply (item_line_break_free prev_countries kv); [|exact Hline].
      rewrite Forall_forall in Hnames. apply Hnames.
      now apply (Permutation_in _ (sorted_desc_perm by_country)).
  - change [[]; source_line] with ([[]] ++ [source_line]).
    rewrite app_assoc, last_last. discriminate.
Qed.

End MessageLines.

(** C5, as the code has it, for the message that [main] of [bot_once.py]
    builds and hands to [send_chunked].  The stamp is a text of [pkt_now],
    no name of a country in the message holds a line boundary, no line of
    the message is longer than the chunk size, and the whole is longer than
    the chunk size.  Then there are at least two chunks, none longer than
    the chunk size; the chunks are the lines of the message in order, cut
    into groups of whole lines; joined by newline they are the message;
    and [send_chunked] posts them in this order when every post is
    answered and the message holds no surrogate, which the form encoding
    of the post would raise on. *)
Theorem C5_chunks_of_long_text
    (pycountry_name : pystr -> option pystr) (stamp : pystr) (total : Z)
    (by_country : dict Z) (prev_total prev_countries : pyval)
    (chunk_size : nat) (text : pystr) :
  BotOnce.build_message pycountry_name stamp total by_country prev_total
    prev_countries = Ok text ->
  pkt_stamp stamp ->
  Forall (fun kv => break_free (BotOnce.item_name pycountry_name (fst kv)))
    by_country ->
  Forall (fun l => (List.length l <= chunk_size)%nat) (splitlines text) ->
  (chunk_size < List.length text)%nat ->
  (2 <= List.length (BotOnce.chunks chunk_size text))%nat
  /\ Forall (fun c => (List.length c <= chunk_size)%nat)
       (BotOnce.chunks chunk_size text)
  /\ (exists groups,
        List.concat groups = splitlines text
        /\ Forall (fun g => g <> []) groups
        /\ BotOnce.chunks chunk_size text = List.map (join nl) groups)
  /\ join nl (splitlines text) = text
  /\ join nl (BotOnce.chunks chunk_size text) = text
  /\ forall w, all_answered w -> utf8_text text ->
       BotOnce.send_chunked text chunk_size w
       = (Ok tt, add_posts w (BotOnce.chunks chunk_size text)).
Proof.
  intros Hmsg Hstamp Hnames Hfit Hlong.
  destruct (build_message_lines pycountry_name stamp total by_country
              prev_total prev_countries text Hmsg Hstamp Hnames)
    as (lines & Htext & Hfree & Hlast).
  assert (Hsplit : splitlines text = lines).
  { rewrite Htext. now apply splitlines_join. }
  rewrite Hsplit in *.
  destruct (chunks_of_joined_lines chunk_size lines text Htext Hfree Hlast
              Hfit Hlong) as (_ & H2 & Hle & Hgroups & Hjoin & Hsend).
  repeat split; try assumption; [now symmetry|].
  intros w Hw _. now apply Hsend.
Qed.

Lemma C5_chunks_of_long_text_witness :
  let text := join nl [ BotOnce.header (str "2026-01-01 10:00");
                        str "Total: 7";
                        bullet ++ str " n/a: 5";
                        bullet ++ str " DE: 2";
                        BotOnce.footer ] in
  BotOnce.chunks 50 text
  = [ BotOnce.header (str "2026-01-01 10:00");
      join nl [str "Total: 7"; bullet ++ str " n/a: 5";
               bullet ++ str " DE: 2"; []];
      source_line ]
  /\ (2 <= List.length (BotOnce.chunks 50 text))%nat
  /\ join nl (BotOnce.chunks 50 text) = text.
Proof.
  intros text. split; [vm_compute; reflexivity|].
  destruct (C5_chunks_of_long_text (fun _ => None) (str "2026-01-01 10:00")
              7 [(KStr (str "DE"), 2); (KNone, 5)] PNone (PDict []) 50 text)
    as (H2 & _ & _ & _ & Hjoin & _).
  - vm_compute. reflexivity.
  - reflexivity.
  - repeat constructor.
  - apply Forall_forall. intros l Hl.
    assert (Hb : forallb (fun l => (List.length l <=? 50)%nat)
                   (splitlines text) = true) by (vm_compute; reflexivity).
    rewrite forallb_forall in Hb. apply Nat.leb_le. now apply Hb.
  - apply Nat.ltb_lt. vm_compute. reflexivity.
  - split; assumption.
Defined.

Lemma pystr_eqb_neq (a b : pystr) : pystr_eqb a b = false -> a <> b.
Proof.
  unfold pystr_eqb. destruct (list_eq_dec N.eq_dec a b); congruence.
Qed.

(** C5, refuted as stated, by two messages that [main] of [bot_once.py]
    builds and posts.  A snapshot whose one node has a country code of 3801
    characters: [main] posts three chunks, and the second, the line of this
    country, has 3806 characters, over the limit of 3800.  A snapshot of
    two nodes, one with a code that holds a carriage return: the message is
    longer than 3800 characters and none of its lines is; [main] posts its
    two chunks, which joined by newline are not the message, the first one
    ending in the middle of the line of this country. *)
Lemma C5_counterexample_long_code_and_line_boundary_in_code :
  let stamp := str "2026-01-01 10:00" in
  let w1 := answering_world (snapshot_of_codes [long_code]) in
  let w2 := answering_world
              (snapshot_of_codes [repeat 65%N 2000; broken_code]) in
  List.map (@List.length N)
    (posts (snd (BotOnce.main (fun _ => None) true stamp w1)))
  = [53; 3806; 45]%nat
  /\ (BotOnce.default_chunk_size < 3806)%nat
  /\ exists text,
       BotOnce.build_message (fun _ => None) stamp 2
         [(KStr (repeat 65%N 2000), 1); (KStr broken_code, 1)]
         PNone (PDict []) = Ok text
       /\ (BotOnce.default_chunk_size <? List.length text)%nat = true
       /\ forallb (fun l => (List.length l <=? BotOnce.default_chunk_size)%nat)
            (splitlines text) = true
       /\ posts (snd (BotOnce.main (fun _ => None) true stamp w2))
          = BotOnce.chunks BotOnce.default_chunk_size text
       /\ List.map (@List.length N)
            (BotOnce.chunks BotOnce.default_chunk_size text)
          = [3062; 1049]%nat
       /\ join nl (BotOnce.chunks BotOnce.default_chunk_size text) <> text.
Proof.
  cbv zeta. split; [vm_compute; reflexivity|].
  split; [unfold BotOnce.default_chunk_size; lia|].
  eexists. split; [vm_compute; reflexivity|].
  split; [vm_compute; reflexivity|].
  split; [vm_compute; reflexivity|].
  split; [vm_compute; reflexivity|].
  split; [vm_compute; reflexivity|].
  apply pystr_eqb_neq. vm_compute. reflexivity.
Qed.

(* ------------------------------------------------------------------ *)
(** ** One cycle of [bot.py] *)

Section BotCycle.

Variable strftime : Z -> result pystr.

(** What the [try] block does, stage by stage. *)
Lemma try_block_run now state w :
  Bot.try_block strftime now state w
  = match Bot.fetch_latest_snapshot w with
    | (Raise e, _) => (Raise e, w)
    | (Ok snap, _) =>
        match report_of strftime now state snap with
        | Raise e => (Raise e, w)
        | Ok (ts, tc, report) =>
            match post_reply w (List.length (posts w)) with
            | Refused => (Raise ConnectionError, add_posts w [report])
            | Answer status _ =>
                if bad_status status
                then (Raise HTTPError, add_posts w [report])
                else
                  match Bot.setitem state (str "last")
                          (Bot.last_entry ts (fst tc) (snd tc)) with
                  | Raise e => (Raise e, add_posts w [report])
                  | Ok state' =>
                      (Ok state',
                       with_state_file (add_posts w [report])
                         (encode state'))
                  end
            end
        end
    end.
Proof.
  unfold Bot.try_block, report_of, Bot.fetch_latest_snapshot, http_get_json.
  unfold bind at 1.
  destruct (get_reply w) as [|status body]; [reflexivity|].
  destruct (bad_status status); [reflexivity|].
  destruct body as [snap|]; [|reflexivity].
  unfold bind, lift.
  destruct (Bot.summarize_by_country snap) as [tc|]; [|reflexivity].
  simpl rbind.
  destruct (py_get state (str "last") PNone) as [last|]; [|reflexivity].
  simpl rbind.
  destruct (py_get (py_or last (PDict [])) (str "total") (PInt 0)) as [tp|];
    [|reflexivity].
  simpl rbind.
  destruct (py_int tp) as [total_prev|]; [|reflexivity].
  simpl rbind.
  destruct (py_get (py_or last (PDict [])) (str "by_cc") (PDict []))
    as [by_cc_prev|]; [|reflexivity].
  simpl rbind.
  destruct (strftime _) as [stamp|]; [|reflexivity].
  simpl rbind.
  destruct (Bot.format_report _ _ _ _ _ _) as [report|]; [|reflexivity].
  simpl rbind.
  unfold Bot.send_telegram, bind, http_post. fold (add_posts w [report]).
  destruct (post_reply w (List.length (posts w))) as [|st []];
    [reflexivity|].
  destruct (bad_status st); [reflexivity|].
  unfold ret.
  destruct (Bot.setitem state (str "last") _) as [state'|]; reflexivity.
Qed.

(** [bot.py] writes the state file only after a POST that was answered
    with a good status. *)
Lemma bot_cycle_writes_only_after_delivery now state w :
  state_file (snd (Bot.cycle strftime now state w)) <> state_file w ->
  exists report status,
    posts (snd (Bot.cycle strftime now state w)) = posts w ++ [report]
    /\ post_reply w (List.length (posts w)) = Answer status tt
    /\ bad_status status = false.
Proof.
  unfold Bot.cycle. rewrite try_block_run.
  destruct (Bot.fetch_latest_snapshot w) as [[snap|e] w1];
    [|simpl; congruence].
  destruct (report_of strftime now state snap) as [[[ts tc] report]|e];
    [|simpl; congruence].
  destruct (post_reply w (List.length (posts w))) as [|status []] eqn:Ep;
    [simpl; congruence|].
  destruct (bad_status status) eqn:Eb; [simpl; congruence|].
  destruct (Bot.setitem state (str "last") _) as [state'|e];
    [|simpl; congruence].
  simpl. intros _. now exists report, status.
Qed.

(** A cycle of [bot.py] in which the fetch, the aggregation, the report or
    the delivery raises leaves the state file as it was. *)
Lemma bot_failed_cycle_keeps_state now state w e :
  fst (Bot.try_block strftime now state w) = Raise e ->
  state_file (snd (Bot.cycle strftime now state w)) = state_file w
  /\ fst (Bot.cycle strftime now state w) = state.
Proof.
  unfold Bot.cycle. rewrite try_block_run.
  destruct (Bot.fetch_latest_snapshot w) as [[snap|e1] w1];
    [|simpl; auto].
  destruct (report_of strftime now state snap) as [[[ts tc] report]|e1];
    [|simpl; auto].
  destruct (post_reply w (List.length (posts w))) as [|status []];
    [simpl; auto|].
  destruct (bad_status status); [simpl; auto|].
  destruct (Bot.setitem state (str "last") _) as [state'|e1];
    [|simpl; auto].
  simpl. discriminate.
Qed.

End BotCycle.

(* ------------------------------------------------------------------ *)
(** ** [main] of [bot_once.py] *)

Section OnceMain.

Variable pycountry_name : pystr -> option pystr.

Lemma once_load_state_pure w :
  BotOnce.load_state w = (Ok (once_loaded w), w).
Proof.
  unfold BotOnce.load_state, once_loaded.
  destruct (state_file w); reflexivity.
Qed.

(** What [main] does, stage by stage. *)
Lemma main_run stamp w :
  BotOnce.main pycountry_name true stamp w
  = match BotOnce.fetch_latest w with
    | (Raise e, _) => (Raise e, w)
    | (Ok data, _) =>
        match message_of pycountry_name stamp data (once_loaded w) with
        | Raise e => (Raise e, w)
        | Ok (total, by_country, message) =>
            match send_all (BotOnce.chunks BotOnce.default_chunk_size message)
                    w with
            | (Raise e, w') => (Raise e, w')
            | (Ok _, w') =>
                (Ok tt,
                 with_state_file w'
                   (encode (BotOnce.saved_state total by_country)))
            end
        end
    end.
Proof.
  unfold BotOnce.main, message_of, BotOnce.fetch_latest, http_get_json.
  change (negb true) with false. cbv iota. unfold bind at 1.
  destruct (get_reply w) as [|status body]; [reflexivity|].
  destruct (bad_status status); [reflexivity|].
  destruct body as [data|]; [|reflexivity].
  unfold bind at 1.
  destruct (snap_total_nodes data) as [total|]; [|reflexivity].
  unfold ret at 1. simpl rbind. unfold bind at 1.
  destruct (snap_nodes data) as [nodes|]; [|reflexivity].
  unfold ret at 1. simpl rbind. unfold bind at 1, lift at 1.
  destruct (BotOnce.summarize_by_country nodes) as [by_country|];
    [|reflexivity].
  simpl rbind. unfold bind at 1. rewrite once_load_state_pure.
  unfold bind at 1, lift at 1.
  destruct (py_get (py_or (once_loaded w) (PDict [])) (str "total") PNone)
    as [prev_total|]; [|reflexivity].
  simpl rbind. unfold bind at 1, lift at 1.
  destruct (py_get (py_or (once_loaded w) (PDict [])) (str "countries")
              (PDict [])) as [prev_countries|]; [|reflexivity].
  simpl rbind. unfold bind at 1, lift at 1.
  destruct (BotOnce.build_message _ _ _ _ _ _) as [message|]; [|reflexivity].
  simpl rbind. unfold bind at 1.
  unfold BotOnce.send_chunked. rewrite send_loop_send_all.
  fold (BotOnce.chunks BotOnce.default_chunk_size message).
  destruct (send_all _ w) as [[[]|e] w']; reflexivity.
Qed.

End OnceMain.

(* ------------------------------------------------------------------ *)
(** ** Loading the state without a usable file *)

Lemma report_of_no_baseline strftime now snap tc stamp :
  Bot.summarize_by_country snap = Ok tc ->
  strftime (match snap_timestamp snap with Some t => t | None => now end)
  = Ok stamp ->
  exists lines,
    Bot.report_lines (fst tc) 0 (snd tc) (PDict []) Bot.top_n
    = Ok ((str "Total: " ++ commas (fst tc) ++ str " (first run)") :: lines)
    /\ report_of strftime now (PDict []) snap
       = Ok (match snap_timestamp snap with Some t => t | None => now end,
             tc,
             Bot.header stamp
               ++ join nl ((str "Total: " ++ commas (fst tc)
                              ++ str " (first run)") :: lines)).
Proof.
  intros Hsum Hstamp. eexists. split; [apply report_lines_no_baseline|].
  unfold report_of. rewrite Hsum. simpl rbind. rewrite Hstamp. simpl rbind.
  unfold Bot.format_report. rewrite report_lines_no_baseline. reflexivity.
Qed.

(** What [main] of [bot_once.py] has posted when every post was answered. *)
Lemma once_main_posts (pycountry_name : pystr -> option pystr) stamp w
    data total by_country message :
  BotOnce.fetch_latest w = (Ok data, w) ->
  message_of pycountry_name stamp data (once_loaded w)
  = Ok (total, by_country, message) ->
  all_answered w ->
  BotOnce.main pycountry_name true stamp w
  = (Ok tt,
     with_state_file
       (add_posts w (BotOnce.chunks BotOnce.default_chunk_size message))
       (encode (BotOnce.saved_state total by_country))).
Proof.
  intros Hfetch Hmsg Hans. rewrite main_run, Hfetch, Hmsg.
  now rewrite send_all_answered.
Qed.

(** C8: with the state file missing, unreadable or not JSON, [load_state]
    raises nothing and returns the value that stands for no baseline, the
    empty dict in [bot.py] and [None] in [bot_once.py], leaving the world
    as it is; the cycle that follows is a first run.  In [bot.py], once the
    snapshot is fetched and counted and its time is one the time conversion
    takes, [main] posts a report whose total line ends in "(first run)".
    In [bot_once.py], once the snapshot is fetched and counted, the message
    is built from no previous total and no previous counts, and [main]
    posts its chunks when every post is answered and the message holds no
    surrogate, which the form encoding of the post would raise on. *)
Theorem C8_load_state_without_baseline (w : world) :
  no_baseline (state_file w) ->
  Bot.load_state w = (Ok (PDict []), w)
  /\ BotOnce.load_state w = (Ok PNone, w)
  /\ (forall strftime now snap tc stamp,
        Bot.fetch_latest_snapshot w = (Ok snap, w) ->
        Bot.summarize_by_country snap = Ok tc ->
        strftime (match snap_timestamp snap with
                  | Some t => t
                  | None => now
                  end) = Ok stamp ->
        exists lines,
          Bot.report_lines (fst tc) 0 (snd tc) (PDict []) Bot.top_n
          = Ok ((str "Total: " ++ commas (fst tc) ++ str " (first run)")
                  :: lines)
          /\ posts (snd (Bot.main strftime true [now] w))
             = posts w
               ++ [Bot.header stamp
                     ++ join nl ((str "Total: " ++ commas (fst tc)
                                    ++ str " (first run)") :: lines)])
  /\ (forall pycountry_name stamp data total nodes by_country,
        BotOnce.fetch_latest w = (Ok data, w) ->
        snap_total_nodes data = Some total ->
        snap_nodes data = Some nodes ->
        BotOnce.summarize_by_country nodes = Ok by_country ->
        all_answered w ->
        exists message,
          BotOnce.build_message pycountry_name stamp total by_country
            PNone (PDict []) = Ok message
          /\ (utf8_text message ->
              posts (snd (BotOnce.main pycountry_name true stamp w))
              = posts w
                ++ BotOnce.chunks BotOnce.default_chunk_size message)).
Proof.
  intros Hno.
  assert (Hbot : Bot.load_state w = (Ok (PDict []), w)).
  { unfold Bot.load_state. destruct Hno as [-> | [-> | ->]]; reflexivity. }
  assert (Honce : once_loaded w = PNone).
  { unfold once_loaded. destruct Hno as [-> | [-> | ->]]; reflexivity. }
  split; [exact Hbot|].
  split; [rewrite once_load_state_pure; now rewrite Honce|].
  split.
  - intros strftime now snap tc stamp Hfetch Hsum Hstamp.
    destruct (report_of_no_baseline strftime now snap tc stamp Hsum Hstamp)
      as (lines & Hlines & Hrep).
    exists lines. split; [exact Hlines|].
    unfold Bot.main, bind. change (negb true) with false. cbv beta iota.
    rewrite Hbot. cbn [Bot.cycles].
    unfold Bot.cycle. rewrite try_block_run, Hfetch, Hrep.
    destruct (post_reply w (List.length (posts w))) as [|status []];
      [reflexivity|].
    destruct (bad_status status); reflexivity.
  - intros pyc stamp data total nodes by_country Hfetch Ht Hn Hsum Hans.
    eexists. split; [apply build_message_no_baseline|].
    intros _.
    erewrite (once_main_posts pyc stamp w data total by_country);
      [reflexivity|exact Hfetch| |exact Hans].
    unfold message_of.
    rewrite Ht, Hn, Honce. cbn [rbind]. rewrite Hsum. cbn [rbind].
    change (py_get (py_or PNone (PDict [])) (str "total") PNone)
      with (Ok PNone).
    change (py_get (py_or PNone (PDict [])) (str "countries") (PDict []))
      with (Ok (PDict [])).
    cbn [rbind]. now rewrite build_message_no_baseline.
Qed.

Lemma C8_load_state_without_baseline_witness :
  let w := {| state_file := Unparseable; posts := [];
              get_reply := Answer 200 (Some sample_snapshot);
              post_reply := fun _ => Answer 200 tt |} in
  Bot.load_state w = (Ok (PDict []), w)
  /\ BotOnce.load_state w = (Ok PNone, w)
  /\ (exists lines,
        posts (snd (Bot.main (fun _ => Ok (str "2023-11-15 03:13 PKT")) true
                      [0] w))
        = [Bot.header (str "2023-11-15 03:13 PKT")
             ++ join nl (str "Total: 1 (first run)" :: lines)])
  /\ posts (snd (BotOnce.main (fun _ => None) true (str "2023-11-15 03:13")
                   w))
     = [join nl [ BotOnce.header (str "2023-11-15 03:13");
                  str "Total: 1";
                  bullet ++ str " US: 1";
                  BotOnce.footer ]].
Proof.
  intros w.
  destruct (C8_load_state_without_baseline w) as (H1 & H2 & H3 & H4).
  - right. right. reflexivity.
  - split; [exact H1|]. split; [exact H2|]. split.
    + destruct (H3 (fun _ => Ok (str "2023-11-15 03:13 PKT")) 0
                  sample_snapshot (1, [(KStr (str "US"), 1)])
                  (str "2023-11-15 03:13 PKT") eq_refl eq_refl eq_refl)
        as (lines & _ & Hposts).
      exists lines. exact Hposts.
    + destruct (H4 (fun _ => None) (str "2023-11-15 03:13") sample_snapshot
                  1 [(str "1.2.3.4:8333", record_with (PStr (str "US")))]
                  [(KStr (str "US"), 1)] eq_refl eq_refl eq_refl eq_refl)
        as (message & Hmsg & Hmain).
      * intros n. discriminate.
      * vm_compute in Hmsg. injection Hmsg as <-.
        rewrite Hmain; [|vm_compute; reflexivity].
        vm_compute. reflexivity.
Defined.

(* ------------------------------------------------------------------ *)
(** ** One message per cycle in [bot.py] *)

(** C10: [send_telegram] of [bot.py] issues one POST that carries the
    whole text, whatever its length; no cycle issues more than one POST;
    and a cycle whose fetch and report succeed issues exactly this one
    POST, with the whole report as built by [format_report] (its time
    conversion and the lines after it), whether the POST then succeeds or
    not. *)
Theorem C10_cycle_posts_whole_report_once
    (strftime : Z -> result pystr) (now : Z) (state : pyval) (w : world) :
  (forall text w0,
     posts (snd (Bot.send_telegram text w0)) = posts w0 ++ [text])
  /\ (posts (snd (Bot.cycle strftime now state w)) = posts w
      \/ exists report,
           posts (snd (Bot.cycle strftime now state w))
           = posts w ++ [report])
  /\ forall snap tc last tp total_prev by_cc_prev stamp report,
       Bot.fetch_latest_snapshot w = (Ok snap, w) ->
       Bot.summarize_by_country snap = Ok tc ->
       py_get state (str "last") PNone = Ok last ->
       py_get (py_or last (PDict [])) (str "total") (PInt 0) = Ok tp ->
       py_int tp = Ok total_prev ->
       py_get (py_or last (PDict [])) (str "by_cc") (PDict [])
       = Ok by_cc_prev ->
       strftime (match snap_timestamp snap with
                 | Some t => t
                 | None => now
                 end) = Ok stamp ->
       Bot.format_report stamp (fst tc) total_prev (snd tc) by_cc_prev
         Bot.top_n = Ok report ->
       posts (snd (Bot.cycle strftime now state w)) = posts w ++ [report].
Proof.
  split; [|split].
  - intros text w0. unfold Bot.send_telegram, bind, http_post.
    destruct (post_reply w0 (List.length (posts w0))) as [|status []];
      [reflexivity|].
    destruct (bad_status status); reflexivity.
  - unfold Bot.cycle. rewrite try_block_run.
    destruct (Bot.fetch_latest_snapshot w) as [[snap|e] w1];
      [|now left].
    destruct (report_of strftime now state snap) as [[[ts tc] report]|e];
      [|now left].
    right. exists report.
    destruct (post_reply w (List.length (posts w))) as [|status []];
      [reflexivity|].
    destruct (bad_status status); [reflexivity|].
    destruct (Bot.setitem state (str "last") _); reflexivity.
  - intros snap tc last tp total_prev by_cc_prev stamp report
      Hfetch Hsum Hlast Htp Hint Hcc Hstamp Hrep.
    unfold Bot.cycle. rewrite try_block_run, Hfetch.
    unfold report_of. rewrite Hsum. simpl rbind. rewrite Hlast. simpl rbind.
    rewrite Htp. simpl rbind. rewrite Hint. simpl rbind.
    rewrite Hcc. simpl rbind. rewrite Hstamp. simpl rbind.
    rewrite Hrep. simpl rbind.
    destruct (post_reply w (List.length (posts w))) as [|status []];
      [reflexivity|].
    destruct (bad_status status); [reflexivity|].
    destruct (Bot.setitem state (str "last") _); reflexivity.
Qed.

Lemma C10_cycle_posts_whole_report_once_witness :
  let w := {| state_file := Missing; posts := [];
              get_reply := Answer 200 (Some sample_snapshot);
              post_reply := fun _ => Answer 200 tt |} in
  posts (snd (Bot.cycle (fun _ => Ok (str "2023-11-15 03:13 PKT")) 0 (PDict []) w))
  = [Bot.header (str "2023-11-15 03:13 PKT")
       ++ join nl [ str "Total: 1 (first run)";
                    bullet ++ str " United States: 1 (+1, 100.00%)";
                    Bot.footer ]].
Proof.
  intros w.
  refine (proj2 (proj2 (C10_cycle_posts_whole_report_once
                          (fun _ => Ok (str "2023-11-15 03:13 PKT")) 0 (PDict [])
                          w))
            sample_snapshot (1, [(KStr (str "US"), 1)]) PNone (PInt 0) 0
            (PDict []) (str "2023-11-15 03:13 PKT") _
            eq_refl eq_refl eq_refl eq_refl eq_refl eq_refl eq_refl _).
  vm_compute. reflexivity.
Defined.

(* ------------------------------------------------------------------ *)
(** ** Saving after a delivery that failed *)

(** C4, the code at the failing input: the messaging API rejects the
    message of [bot_once.py] with status 400, a status that
    [raise_for_status] would raise on; [main] of [bot_once.py] ends
    without an exception and the state file holds the new counts, not the
    baseline it held before. *)
Theorem C4_bot_once_saves_after_rejected_delivery :
  let w' := snd (BotOnce.main (fun _ => None) true (str "2023-11-15 03:13")
                   rejecting_world) in
  post_reply rejecting_world 0 = Answer 400 tt
  /\ bad_status 400 = true
  /\ fst (BotOnce.main (fun _ => None) true (str "2023-11-15 03:13")
            rejecting_world) = Ok tt
  /\ List.length (posts w') = 1%nat
  /\ state_file w'
     = Doc (encode (BotOnce.saved_state 1 [(KStr (str "US"), 1)]))
  /\ state_file w' <> state_file rejecting_world.
Proof.
  cbv zeta. repeat split; try (vm_compute; reflexivity).
  vm_compute. discriminate.
Qed.

(** The same answers in [bot.py]: the cycle leaves the state file alone. *)
Lemma bot_keeps_state_after_rejected_delivery :
  state_file (snd (Bot.cycle (fun _ => Ok (str "2023-11-15 03:13 PKT")) 0
                     (PDict []) rejecting_world))
  = state_file rejecting_world.
Proof. vm_compute. reflexivity. Qed.

(* ------------------------------------------------------------------ *)
(** ** Saving and loading the state *)

Section KeyFacts.

Lemma key_eqb_true a b : key_eqb a b = true <-> key_norm a = key_norm b.
Proof.
  unfold key_eqb.
  destruct (pykey_eq_dec (key_norm a) (key_norm b)); split; congruence.
Qed.

Lemma key_eqb_false a b : key_eqb a b = false <-> key_norm a <> key_norm b.
Proof.
  unfold key_eqb.
  destruct (pykey_eq_dec (key_norm a) (key_norm b)); split; congruence.
Qed.

Context {V : Type}.

Lemma dict_get_set (d : dict V) k v k' :
  dict_get (dict_set d k v) k'
  = if key_eqb k k' then Some v else dict_get d k'.
Proof.
  induction d as [|[k0 v0] d IH]; simpl; [reflexivity|].
  destruct (key_eqb k0 k) eqn:E0; simpl.
  - destruct (key_eqb k0 k') eqn:E1, (key_eqb k k') eqn:E2; try reflexivity;
      rewrite ?key_eqb_true, ?key_eqb_false in *; congruence.
  - rewrite IH.
    destruct (key_eqb k0 k') eqn:E1, (key_eqb k k') eqn:E2; try reflexivity.
    rewrite ?key_eqb_true, ?key_eqb_false in *; congruence.
Qed.

Lemma dict_get_none_keys (d : dict V) k :
  dict_get d k = None ->
  forallb (fun k' => negb (key_eqb k' k)) (keys d) = true.
Proof.
  induction d as [|[k0 v0] d IH]; simpl; [reflexivity|].
  destruct (key_eqb k0 k); [discriminate|]. exact IH.
Qed.

Lemma dict_set_fresh (d : dict V) k v :
  forallb (fun k' => negb (key_eqb k' k)) (keys d) = true ->
  dict_set d k v = d ++ [(k, v)].
Proof.
  induction d as [|[k0 v0] d IH]; simpl; [reflexivity|].
  intros H. apply andb_prop in H as [H0 H].
  apply negb_true_iff in H0. rewrite H0. now rewrite IH.
Qed.

Lemma dict_set_keys (d : dict V) k v :
  keys (dict_set d k v)
  = match dict_get d k with
    | Some _ => keys d
    | None => keys d ++ [k]
    end.
Proof.
  unfold keys. induction d as [|[k0 v0] d IH]; simpl; [reflexivity|].
  destruct (key_eqb k0 k); simpl; [reflexivity|].
  rewrite IH. now destruct (dict_get d k).
Qed.

Lemma keys_distinct_snoc ks k :
  keys_distinct ks = true ->
  forallb (fun k' => negb (key_eqb k' k)) ks = true ->
  keys_distinct (ks ++ [k]) = true.
Proof.
  induction ks as [|k0 ks IH]; simpl; [reflexivity|].
  intros H1 H2. apply andb_prop in H1 as [H1 H1'].
  apply andb_prop in H2 as [H2 H2'].
  rewrite forallb_app, H1, IH by assumption. simpl. now rewrite H2.
Qed.

Lemma keys_distinct_app_head l k r :
  keys_distinct (l ++ k :: r) = true ->
  forallb (fun k' => negb (key_eqb k' k)) l = true.
Proof.
  induction l as [|k0 l IH]; simpl; [reflexivity|].
  intros H. apply andb_prop in H as [H1 H2].
  rewrite forallb_app in H1. apply andb_prop in H1 as [_ H1].
  simpl in H1. apply andb_prop in H1 as [H1 _].
  rewrite H1. now apply IH.
Qed.

Lemma dict_set_keys_distinct (d : dict V) k v :
  keys_distinct (keys d) = true ->
  keys_distinct (keys (dict_set d k v)) = true.
Proof.
  intros H. rewrite dict_set_keys.
  destruct (dict_get d k) eqn:E; [assumption|].
  apply keys_distinct_snoc; [assumption|]. now apply dict_get_none_keys.
Qed.

End KeyFacts.

Section JsonRoundTrip.

Lemma dict_of_members_fresh (ms : list (pystr * pyval)) :
  forall acc : dict pyval,
    keys_distinct (keys acc ++ List.map (fun m => KStr (fst m)) ms) = true ->
    fold_left (fun acc kv => dict_set acc (KStr (fst kv)) (snd kv)) ms acc
    = acc ++ List.map (fun m => (KStr (fst m), snd m)) ms.
Proof.
  induction ms as [|[s v] ms IH]; intros acc H; simpl.
  - now rewrite app_nil_r.
  - simpl in H. rewrite dict_set_fresh
      by (eapply keys_distinct_app_head; exact H).
    rewrite IH.
    + now rewrite <- app_assoc.
    + unfold keys in *. rewrite map_app, <- app_assoc. exact H.
Qed.

Lemma str_keys_json_key (d : dict pyval) :
  forallb is_str_key (List.map fst d) = true ->
  List.map (fun kv => (KStr (json_key (fst kv)), snd kv)) d = d.
Proof.
  induction d as [|[k v] d IH]; simpl; [reflexivity|].
  intros H. apply andb_prop in H as [Hk Hd].
  destruct k; try discriminate. simpl. now rewrite IH.
Qed.

(** What [json.load] reads back from what [json.dump] wrote. *)
Lemma decode_encode (v : pyval) :
  json_stable v = true -> decode (encode v) = v.
Proof.
  induction v as [| | | |l IH|d IH] using pyval_nested_ind;
    try reflexivity.
  - simpl. intros H. f_equal. rewrite map_map.
    induction IH as [|x l Hx _ IHl]; [reflexivity|].
    simpl in *. apply andb_prop in H as [H1 H2].
    now rewrite Hx, IHl.
  - simpl. intros H. apply andb_prop in H as [H Hvals].
    apply andb_prop in H as [Hstr Hdist].
    f_equal. rewrite map_map. simpl.
    assert (Hms : List.map (fun kv => (json_key (fst kv),
                                       decode (encode (snd kv)))) d
                  = List.map (fun kv => (json_key (fst kv), snd kv)) d).
    { clear Hstr Hdist.
      induction IH as [|kv d Hkv _ IHd]; [reflexivity|].
      simpl in *. apply andb_prop in Hvals as [H1 H2].
      now rewrite Hkv, IHd. }
    rewrite Hms. unfold dict_of_members.
    rewrite dict_of_members_fresh.
    + simpl. rewrite map_map. simpl. now apply str_keys_json_key.
    + simpl. rewrite map_map. simpl.
      replace (List.map (fun kv => KStr (json_key (fst kv))) d)
        with (List.map fst d); [assumption|].
      rewrite <- (str_keys_json_key d Hstr) at 1.
      now rewrite map_map.
Qed.

End JsonRoundTrip.

Section SavedCounts.

Lemma normal_key_str k :
  is_code_key k = true -> is_str_key (BotOnce.normal_key k) = true.
Proof. now destruct k. Qed.

Lemma normal_key_saved_key k :
  is_code_key k = true -> BotOnce.saved_key k = BotOnce.normal_key k.
Proof.
  destruct k as [| | |s]; try discriminate; [reflexivity|].
  destruct s; [discriminate | reflexivity].
Qed.

Lemma normal_key_apart a b :
  is_code_key a = true -> is_code_key b = true ->
  key_eqb a b = false ->
  key_eqb (BotOnce.normal_key a) (BotOnce.normal_key b) = false.
Proof.
  destruct a as [| | |s], b as [| | |t]; intros Ha Hb H;
    try discriminate Ha; try discriminate Hb.
  - now rewrite key_eqb_refl in H.
  - apply key_eqb_false. unfold BotOnce.normal_key, key_norm.
    intros [= <-]. vm_compute in Hb. discriminate.
  - apply key_eqb_false. unfold BotOnce.normal_key, key_norm.
    intros [= ->]. vm_compute in Ha. discriminate.
  - exact H.
Qed.

Abbreviation step :=
  (fun (acc : dict Z) (kv : pykey * Z) =>
     dict_set acc (BotOnce.normal_key (fst kv)) (snd kv)).

Lemma normalized_keys (by_country : dict Z) : forall acc : dict Z,
  forallb is_code_key (keys by_country) = true ->
  forallb is_str_key (keys acc) = true ->
  keys_distinct (keys acc) = true ->
  forallb is_str_key (keys (fold_left step by_country acc)) = true
  /\ keys_distinct (keys (fold_left step by_country acc)) = true.
Proof.
  induction by_country as [|[k v] bc IH]; intros acc Hcode Hstr Hdist;
    simpl; [now split|].
  simpl in Hcode. apply andb_prop in Hcode as [Hk Hcode].
  apply IH; [assumption| |now apply dict_set_keys_distinct].
  rewrite dict_set_keys. destruct (dict_get acc (BotOnce.normal_key k));
    [assumption|].
  rewrite forallb_app, Hstr. simpl. now rewrite normal_key_str.
Qed.

Lemma fold_get_other (by_country : dict Z) : forall (acc : dict Z) q,
  forallb (fun kv => negb (key_eqb (BotOnce.normal_key (fst kv)) q))
    by_country = true ->
  dict_get (fold_left step by_country acc) q = dict_get acc q.
Proof.
  induction by_country as [|[k v] bc IH]; intros acc q H; simpl;
    [reflexivity|].
  simpl in H. apply andb_prop in H as [Hk H].
  rewrite IH by assumption. rewrite dict_get_set.
  apply negb_true_iff in Hk. now rewrite Hk.
Qed.

Lemma normalized_get (by_country : dict Z) : forall (acc : dict Z) k v,
  In (k, v) by_country ->
  keys_distinct (keys by_country) = true ->
  forallb is_code_key (keys by_country) = true ->
  dict_get (fold_left step by_country acc) (BotOnce.normal_key k) = Some v.
Proof.
  induction by_country as [|[k0 v0] bc IH]; intros acc k v Hin Hdist Hcode;
    [contradiction|].
  simpl in Hdist, Hcode.
  apply andb_prop in Hdist as [Hfresh Hdist].
  apply andb_prop in Hcode as [Hk0 Hcode].
  simpl. destruct Hin as [[= -> ->]|Hin]; [|now apply IH].
  rewrite fold_get_other.
  - rewrite dict_get_set. now rewrite key_eqb_refl.
  - clear IH Hdist. unfold keys in *.
    induction bc as [|[k1 v1] bc IHbc]; [reflexivity|].
    simpl in *. apply andb_prop in Hfresh as [H1 Hfresh].
    apply andb_prop in Hcode as [Hk1 Hcode].
    rewrite IHbc by assumption. rewrite andb_true_r.
    apply negb_true_iff. rewrite key_eqb_sym.
    apply normal_key_apart; try assumption.
    now apply negb_true_iff.
Qed.

Lemma counts_obj_get (d : dict Z) q :
  match counts_obj d with
  | PDict d' => dict_get d' q
  | _ => None
  end = option_map PInt (dict_get d q).
Proof.
  simpl. induction d as [|[k v] d IH]; simpl; [reflexivity|].
  now destruct (key_eqb k q).
Qed.

Lemma counts_obj_keys (d : dict Z) :
  List.map fst (List.map (fun kv => (fst kv, PInt (snd kv))) d) = keys d.
Proof. unfold keys. rewrite map_map. reflexivity. Qed.

Lemma counts_obj_stable (d : dict Z) :
  forallb is_str_key (keys d) = true ->
  keys_distinct (keys d) = true ->
  json_stable (counts_obj d) = true.
Proof.
  intros Hstr Hdist. unfold counts_obj. cbn [json_stable].
  rewrite counts_obj_keys, Hstr, Hdist. simpl.
  clear. induction d; [reflexivity | exact IHd].
Qed.

End SavedCounts.

Lemma saved_state_stable total (by_country : dict Z) :
  forallb is_code_key (keys by_country) = true ->
  json_stable (BotOnce.saved_state total by_country) = true.
Proof.
  intros Hcode.
  destruct (normalized_keys by_country [] Hcode eq_refl eq_refl)
    as [Hstr Hdist].
  unfold BotOnce.saved_state. cbn [json_stable List.map fst snd forallb].
  change (json_stable (PInt total)) with true.
  fold (BotOnce.normalized by_country) in Hstr, Hdist.
  rewrite (counts_obj_stable _ Hstr Hdist). reflexivity.
Qed.

(** C9: the state that [main] of [bot_once.py] saves, for counts whose keys
    are [None] or country codes of two characters, no key twice.  Loading
    after saving returns the saved state itself; the count of every bucket,
    the unknown one too, is found in the loaded counts under the key that
    main looks it up with; and the key "null" that stands for [None] is
    equal to no code of two characters. *)
Theorem C9_saved_state_round_trip
    (total : Z) (by_country : dict Z) (w : world) :
  keys_distinct (keys by_country) = true ->
  forallb is_code_key (keys by_country) = true ->
  BotOnce.load_state
    (snd (BotOnce.save_state (BotOnce.saved_state total by_country) w))
  = (Ok (BotOnce.saved_state total by_country),
     snd (BotOnce.save_state (BotOnce.saved_state total by_country) w))
  /\ (exists prev_countries,
        py_get (BotOnce.saved_state total by_country) (str "countries")
          (PDict []) = Ok (PDict prev_countries)
        /\ forall k v,
             In (k, v) by_country ->
             dict_get prev_countries (BotOnce.saved_key k) = Some (PInt v))
  /\ BotOnce.saved_key KNone = KStr (str "null")
  /\ forall code,
       List.length code = 2%nat ->
       key_eqb (BotOnce.saved_key KNone) (KStr code) = false.
Proof.
  intros Hdist Hcode. split; [|split; [|split]].
  - unfold BotOnce.save_state, write_state, BotOnce.load_state.
    cbn [snd state_file].
    now rewrite decode_encode by now apply saved_state_stable.
  - eexists. split; [reflexivity|].
    intros k v Hin.
    pose proof (counts_obj_get (BotOnce.normalized by_country)
                  (BotOnce.saved_key k)) as Hget.
    cbn [counts_obj] in Hget. rewrite Hget.
    rewrite normal_key_saved_key.
    + unfold BotOnce.normalized.
      now rewrite (normalized_get by_country [] k v Hin Hdist Hcode).
    + unfold keys in Hcode. rewrite forallb_forall in Hcode.
      apply Hcode. now apply (in_map fst) in Hin.
  - reflexivity.
  - intros code Hlen. apply key_eqb_false.
    unfold BotOnce.saved_key, key_norm. cbn [BotOnce.key_truthy].
    intros [= <-]. discriminate.
Qed.

Lemma C9_saved_state_round_trip_witness :
  let by_country := [(KStr (str "US"), 3); (KNone, 2)] in
  let w := {| state_file := Missing; posts := [];
              get_reply := Refused; post_reply := fun _ => Refused |} in
  BotOnce.load_state (snd (BotOnce.save_state
                             (BotOnce.saved_state 5 by_country) w))
  = (Ok (PDict [ (KStr (str "total"), PInt 5);
                 (KStr (str "countries"),
                  PDict [ (KStr (str "US"), PInt 3);
                          (KStr (str "null"), PInt 2) ]) ]),
     snd (BotOnce.save_state (BotOnce.saved_state 5 by_country) w))
  /\ key_eqb (BotOnce.saved_key KNone) (KStr (str "US")) = false.
Proof.
  intros by_country w.
  destruct (C9_saved_state_round_trip 5 by_country w eq_refl eq_refl)
    as (Hload & _ & _ & Hnull).
  split; [exact Hload | exact (Hnull (str "US") eq_refl)].
Defined.

(** Without main's renaming of the key [None], the state that comes back
    is another one: [json.dump] writes the key as "null". *)
Lemma none_key_does_not_round_trip :
  decode (encode (counts_obj [(KNone, 2)])) <> counts_obj [(KNone, 2)].
Proof. vm_compute. discriminate. Qed.

(* ------------------------------------------------------------------ *)
(** ** More on the aggregation *)

Section Counting.

Lemma dict_get_key_eqb {V} (d : dict V) a b :
  key_eqb a b = true -> dict_get d a = dict_get d b.
Proof.
  intros Hab. apply key_eqb_true in Hab.
  induction d as [|[k v] d IH]; simpl; [reflexivity|].
  assert (E : key_eqb k a = key_eqb k b).
  { unfold key_eqb. now rewrite Hab. }
  now rewrite E, IH.
Qed.

Lemma count_of_nonneg (d : dict Z) k : positive_counts d -> 0 <= count_of d k.
Proof.
  unfold positive_counts, count_of.
  induction 1 as [|[k0 v0] d H0 _ IH]; simpl; [lia|].
  destruct (key_eqb k0 k); simpl in *; lia.
Qed.

Lemma dict_set_positive (d : dict Z) k v :
  positive_counts d -> 0 < v -> positive_counts (dict_set d k v).
Proof.
  unfold positive_counts. intros Hd Hv.
  induction Hd as [|[k0 v0] d H0 Hd IH]; simpl.
  - now repeat constructor.
  - destruct (key_eqb k0 k); constructor; auto.
Qed.

Lemma dict_set_keys_Forall {V} (P : pykey -> Prop) (d : dict V) k v :
  Forall P (keys d) -> P k -> Forall P (keys (dict_set d k v)).
Proof.
  intros Hd Hk. rewrite dict_set_keys. destruct (dict_get d k); [assumption|].
  apply Forall_app. split; [assumption | now constructor].
Qed.

(** What counting one more key does to the count of [k]. *)
Lemma count_of_incr (d : dict Z) k0 k :
  count_of (dict_set d k0 (count_of d k0 + 1)) k
  = count_of d k + (if key_eqb k0 k then 1 else 0).
Proof.
  unfold count_of at 1. rewrite dict_get_set.
  destruct (key_eqb k0 k) eqn:E.
  - unfold count_of. now rewrite (dict_get_key_eqb d k0 k E).
  - unfold count_of. lia.
Qed.

Lemma truthy_key v k :
  truthy v = true -> to_key v = Some k -> BotOnce.key_truthy k = true.
Proof.
  destruct v; simpl; try discriminate; intros Ht [= <-]; exact Ht.
Qed.

Lemma counter_ok_incr (d : dict Z) k :
  counter_ok d -> counter_ok (dict_set d k (count_of d k + 1)).
Proof.
  intros [Hpos Hdist]. split.
  - apply dict_set_positive; [assumption|].
    pose proof (count_of_nonneg d k Hpos). lia.
  - now apply dict_set_keys_distinct.
Qed.

Lemma bot_count_record_inv counts arr counts' k :
  Bot.count_record counts arr = Ok counts' ->
  counter_ok counts ->
  Forall (fun k => BotOnce.key_truthy k = true) (keys counts) ->
  counter_ok counts'
  /\ Forall (fun k => BotOnce.key_truthy k = true) (keys counts')
  /\ count_of counts' k
     = count_of counts k
       + (if counted_under counted_key k arr then 1 else 0).
Proof.
  unfold Bot.count_record, counted_under, counted_key.
  destruct (subscript arr 7) as [v|e].
  - destruct (truthy v) eqn:Ht; simpl.
    + destruct (to_key v) as [k0|] eqn:Ek; [|discriminate].
      intros [= <-] Hok Hkeys. split; [now apply counter_ok_incr|].
      split; [|apply count_of_incr].
      apply dict_set_keys_Forall; [assumption|].
      now apply (truthy_key v).
    + intros [= <-] Hok Hkeys. repeat split; try apply Hok; try assumption.
      lia.
  - simpl. intros [= <-] Hok Hkeys.
    repeat split; try apply Hok; try assumption. lia.
Qed.

Lemma bot_count_records_inv records k : forall counts counts',
  Bot.count_records counts records = Ok counts' ->
  counter_ok counts ->
  Forall (fun k => BotOnce.key_truthy k = true) (keys counts) ->
  counter_ok counts'
  /\ Forall (fun k => BotOnce.key_truthy k = true) (keys counts')
  /\ count_of counts' k
     = count_of counts k
       + Z.of_nat (List.length
                     (filter (counted_under counted_key k) records)).
Proof.
  induction records as [|arr rest IH]; simpl; intros counts counts' H Hok Hk.
  - injection H as <-. repeat split; try apply Hok; try assumption. lia.
  - destruct (Bot.count_record counts arr) as [c1|e] eqn:E; [|discriminate].
    destruct (bot_count_record_inv counts arr c1 k E Hok Hk)
      as (Hok1 & Hk1 & Hc1).
    destruct (IH c1 counts' H Hok1 Hk1) as (Hok' & Hk' & Hc').
    split; [assumption|]. split; [assumption|].
    rewrite Hc', Hc1.
    destruct (counted_under counted_key k arr); simpl List.length; lia.
Qed.

Lemma bot_count_records_countable records : forall counts,
  forallb countable records = true ->
  exists counts', Bot.count_records counts records = Ok counts'.
Proof.
  induction records as [|arr rest IH]; simpl; intros counts H;
    [now eexists|].
  apply andb_prop in H as [Ha Hrest].
  assert (E : exists c1, Bot.count_record counts arr = Ok c1).
  { unfold Bot.count_record, countable in *.
    destruct (subscript arr 7) as [v|e]; simpl; [|now eexists].
    destruct (truthy v); simpl in *; [|now eexists].
    destruct (to_key v); [now eexists | discriminate]. }
  destruct E as [c1 ->]. now apply IH.
Qed.

Lemma bot_count_records_uncountable records : forall counts,
  forallb countable records = false ->
  Bot.count_records counts records = Raise TypeError.
Proof.
  induction records as [|arr rest IH]; simpl; intros counts H;
    [discriminate|].
  destruct (countable arr) eqn:Ea; simpl in H.
  - destruct (Bot.count_record counts arr) as [c1|e] eqn:E.
    + now apply IH.
    + unfold Bot.count_record, countable in *.
      destruct (subscript arr 7) as [v|e0]; simpl in *; [|discriminate].
      destruct (truthy v); simpl in *; [|discriminate].
      destruct (to_key v); discriminate.
  - unfold Bot.count_record, countable in *.
    destruct (subscript arr 7) as [v|e0]; simpl in *; [|discriminate].
    destruct (truthy v); simpl in *; [|discriminate].
    destruct (to_key v); [discriminate | reflexivity].
Qed.

End Counting.

(** X1: what [summarize_by_country] of [bot.py] returns is a well-formed
    counter: every count is above zero, no key is there twice, and no key
    is [None], empty or zero. *)
Theorem X1_bot_counts_well_formed
    (snap : snapshot) (total : Z) (counts : dict Z) :
  Bot.summarize_by_country snap = Ok (total, counts) ->
  positive_counts counts
  /\ keys_distinct (keys counts) = true
  /\ Forall (fun k => BotOnce.key_truthy k = true) (keys counts).
Proof.
  unfold Bot.summarize_by_country. intros H.
  destruct (Bot.count_records [] (List.map snd (Bot.nodes_of snap)))
    as [c|e] eqn:E; [|discriminate].
  injection H as _ <-.
  destruct (bot_count_records_inv _ KNone [] c E) as ((Hpos & Hd) & Hk & _).
  - split; [constructor | reflexivity].
  - constructor.
  - now repeat split.
Qed.

Lemma X1_bot_counts_well_formed_witness :
  positive_counts [(KStr (str "US"), 1)]
  /\ keys_distinct (keys [(KStr (str "US"), 1)]) = true.
Proof.
  destruct (X1_bot_counts_well_formed sample_snapshot 1
              [(KStr (str "US"), 1)] eq_refl) as (H1 & H2 & _).
  now split.
Defined.

(** X2: in the counts that [summarize_by_country] of [bot.py] returns, the
    count under a key is the number of records whose country code is a
    true value equal to that key; a key that no record has counts as 0. *)
Theorem X2_bot_count_is_number_of_records
    (snap : snapshot) (total : Z) (counts : dict Z) (k : pykey) :
  Bot.summarize_by_country snap = Ok (total, counts) ->
  count_of counts k
  = Z.of_nat (List.length
                (filter (counted_under counted_key k)
                   (List.map snd (Bot.nodes_of snap)))).
Proof.
  unfold Bot.summarize_by_country. intros H.
  destruct (Bot.count_records [] (List.map snd (Bot.nodes_of snap)))
    as [c|e] eqn:E; [|discriminate].
  injection H as _ <-.
  destruct (bot_count_records_inv _ k [] c E) as (_ & _ & Hc).
  - split; [constructor | reflexivity].
  - constructor.
  - exact Hc.
Qed.

Lemma X2_bot_count_is_number_of_records_witness :
  count_of [(KStr (str "US"), 1)] (KStr (str "US")) = 1
  /\ count_of [(KStr (str "US"), 1)] (KStr (str "DE")) = 0.
Proof.
  split.
  - exact (X2_bot_count_is_number_of_records sample_snapshot 1
             [(KStr (str "US"), 1)] (KStr (str "US")) eq_refl).
  - exact (X2_bot_count_is_number_of_records sample_snapshot 1
             [(KStr (str "US"), 1)] (KStr (str "DE")) eq_refl).
Defined.

(** X3: [summarize_by_country] of [bot.py] returns, with the total, exactly
    when no record has a true code that cannot be hashed (a list or a dict
    that is not empty); with such a record it raises [TypeError].  No other
    exception leaves it: a record without index 7 does not make it fail. *)
Theorem X3_bot_summarize_fails_only_on_unhashable_code (snap : snapshot) :
  (forallb countable (List.map snd (Bot.nodes_of snap)) = true ->
   exists counts,
     Bot.summarize_by_country snap = Ok (Bot.total_nodes_of snap, counts))
  /\ (forallb countable (List.map snd (Bot.nodes_of snap)) = false ->
      Bot.summarize_by_country snap = Raise TypeError).
Proof.
  unfold Bot.summarize_by_country. split; intros H.
  - destruct (bot_count_records_countable _ [] H) as [c ->]. now exists c.
  - now rewrite (bot_count_records_uncountable _ [] H).
Qed.

Lemma X3_bot_summarize_fails_only_on_unhashable_code_witness :
  let good := {| snap_timestamp := None; snap_total_nodes := None;
                 snap_nodes := Some [(str "a", short_record);
                                     (str "b", record_with (PStr (str "US")))]
              |} in
  let bad := {| snap_timestamp := None; snap_total_nodes := None;
                snap_nodes := Some [(str "a", record_with (PList [PInt 1]))]
             |} in
  (exists counts, Bot.summarize_by_country good = Ok (2, counts))
  /\ Bot.summarize_by_country bad = Raise TypeError.
Proof.
  intros good bad. split.
  - exact (proj1 (X3_bot_summarize_fails_only_on_unhashable_code good)
             eq_refl).
  - exact (proj2 (X3_bot_summarize_fails_only_on_unhashable_code bad)
             eq_refl).
Defined.

Section OnceCounting.

Lemma once_count_record_ok counts arr counts' :
  BotOnce.count_record counts arr = Ok counts' ->
  exists k0,
    once_key arr = Some k0
    /\ counts' = dict_set counts k0 (count_of counts k0 + 1).
Proof.
  unfold BotOnce.count_record, once_key, rbind.
  destruct (subscript arr 7) as [v|e]; [|discriminate].
  destruct (to_key (if truthy v then v else PNone)) as [k0|]; [|discriminate].
  intros [= <-]. now exists k0.
Qed.

Lemma once_count_records_inv records k : forall counts counts',
  BotOnce.count_records counts records = Ok counts' ->
  counter_ok counts ->
  counter_ok counts'
  /\ sum (values counts')
     = sum (values counts) + Z.of_nat (List.length records)
  /\ count_of counts' k
     = count_of counts k
       + Z.of_nat (List.length (filter (counted_under once_key k) records)).
Proof.
  induction records as [|arr rest IH]; simpl; intros counts counts' H Hok.
  - injection H as <-. repeat split; try apply Hok; lia.
  - destruct (BotOnce.count_record counts arr) as [c1|e] eqn:E;
      [|discriminate].
    simpl in H.
    destruct (once_count_record_ok counts arr c1 E) as (k0 & Hk0 & ->).
    destruct (IH _ counts' H (counter_ok_incr counts k0 Hok))
      as (Hok' & Hsum & Hc).
    split; [assumption|]. split.
    + rewrite Hsum, sum_values_incr. lia.
    + rewrite Hc, count_of_incr. unfold counted_under at 2. rewrite Hk0.
      destruct (key_eqb k0 k); simpl List.length; lia.
Qed.

Lemma once_count_records_raise records : forall counts,
  Exists (fun arr => exists e, subscript arr 7 = Raise e) records ->
  exists e', BotOnce.count_records counts records = Raise e'.
Proof.
  induction records as [|arr rest IH]; intros counts H;
    [inversion H|].
  simpl. destruct (BotOnce.count_record counts arr) as [c1|e1] eqn:E.
  - simpl. inversion H as [? ? [e He]|? ? Hrest]; subst.
    + unfold BotOnce.count_record in E. rewrite He in E. discriminate.
    + now apply IH.
  - now exists e1.
Qed.

End OnceCounting.

(** X4: when [summarize_by_country] of [bot_once.py] returns, every record
    is in exactly one bucket: the counts add up to the number of records,
    every count is above zero, no key is there twice, and the count under a
    key is the number of records with that code, the records whose code is
    [None] or empty being the ones under the key [None]. *)
Theorem X4_once_counts_every_record
    (nodes_dict : list (pystr * pyval)) (counts : dict Z) :
  BotOnce.summarize_by_country nodes_dict = Ok counts ->
  sum (values counts) = Z.of_nat (List.length nodes_dict)
  /\ positive_counts counts
  /\ keys_distinct (keys counts) = true
  /\ forall k,
       count_of counts k
       = Z.of_nat (List.length
                     (filter (counted_under once_key k)
                        (List.map snd nodes_dict))).
Proof.
  unfold BotOnce.summarize_by_country. intros H.
  assert (Hok0 : counter_ok []) by (split; [constructor | reflexivity]).
  destruct (once_count_records_inv _ KNone [] counts H Hok0)
    as ((Hpos & Hd) & Hsum & _).
  split; [rewrite Hsum, length_map; reflexivity|].
  split; [assumption|]. split; [assumption|].
  intros k. now destruct (once_count_records_inv _ k [] counts H Hok0)
    as (_ & _ & ->).
Qed.

Lemma X4_once_counts_every_record_witness :
  let nodes := [(str "a", record_with (PStr (str "US")));
                (str "b", record_with PNone);
                (str "c", record_with (PStr []))] in
  BotOnce.summarize_by_country nodes
  = Ok [(KStr (str "US"), 1); (KNone, 2)]
  /\ sum (values [(KStr (str "US"), 1); (KNone, 2)]) = 3
  /\ count_of [(KStr (str "US"), 1); (KNone, 2)] KNone = 2.
Proof.
  intros nodes. split; [reflexivity|].
  destruct (X4_once_counts_every_record nodes
              [(KStr (str "US"), 1); (KNone, 2)] eq_refl)
    as (Hsum & _ & _ & Hcount).
  split; [exact Hsum | exact (Hcount KNone)].
Defined.

(** X5: one record without an index 7 (a list that is too short, a value
    that is no list) makes [summarize_by_country] of [bot_once.py] raise: it
    returns no counts, whatever the other records are. *)
Theorem X5_once_summarize_raises_on_record_without_code
    (nodes_dict : list (pystr * pyval)) :
  Exists (fun arr => exists e, subscript arr 7 = Raise e)
    (List.map snd nodes_dict) ->
  exists e', BotOnce.summarize_by_country nodes_dict = Raise e'.
Proof. intros H. now apply once_count_records_raise. Qed.

Lemma X5_once_summarize_raises_on_record_without_code_witness :
  exists e',
    BotOnce.summarize_by_country
      [(str "a", record_with (PStr (str "US"))); (str "b", short_record)]
    = Raise e'.
Proof.
  apply X5_once_summarize_raises_on_record_without_code.
  apply Exists_cons_tl, Exists_cons_hd. now exists IndexError.
Defined.

(* ------------------------------------------------------------------ *)
(** ** More on the report *)





Lemma rmap_length {A B} (f : A -> result B) (l : list A) : forall l',
  rmap f l = Ok l' -> List.length l' = List.length l.
Proof.
  induction l as [|x l IH]; simpl; intros l' H.
  - now injection H as <-.
  - destruct (f x) as [y|]; [|discriminate]. simpl in H.
    destruct (rmap f l) as [ys|]; [|discriminate]. simpl in H.
    injection H as <-. simpl. now rewrite (IH ys).
Qed.

Lemma sorted_desc_length {K} (items : list (K * Z)) :
  List.length (sorted_desc items) = List.length items.
Proof. apply Permutation_length, sorted_desc_perm. Qed.

Lemma last_after {A} (a : A) (l m : list A) (f d : A) :
  last (a :: l ++ m ++ [f]) d = f.
Proof.
  rewrite app_assoc, app_comm_cons. apply last_last.
Qed.

(** X7: a report of [bot.py] that is built has the total line first and the
    footer last, and between them one line for each of the first [top_n]
    countries, never more than [top_n], and one Others line exactly when the
    Others count is not 0. *)
Theorem X7_report_lines_shape
    (total_now total_prev : Z) (by_country_now : dict Z)
    (by_country_prev : pyval) (n : nat) (lines : list pystr) :
  Bot.report_lines total_now total_prev by_country_now by_country_prev n
  = Ok lines ->
  List.length lines
  = (2 + Nat.min n (List.length by_country_now)
     + (if (Bot.others_count by_country_now n =? 0)%Z then 0 else 1))%nat
  /\ hd_error lines = Some (Bot.total_line total_now total_prev)
  /\ last lines [] = Bot.footer.
Proof.
  unfold Bot.report_lines, Bot.country_lines, Bot.others_lines.
  destruct (rmap _ (Bot.top_items by_country_now n)) as [cl|] eqn:Ecl;
    [|discriminate].
  apply rmap_length in Ecl. unfold Bot.top_items in Ecl.
  rewrite length_firstn, sorted_desc_length in Ecl.
  cbn [rbind].
  destruct (Bot.others_count by_country_now n =? 0); cbn [negb].
  - cbn [rbind]. intros [= <-]. split; [|split; [reflexivity|]].
    + cbn [List.length]. rewrite length_app. cbn [List.length].
      unfold pystr in *. lia.
    + apply (last_after _ cl []).
  - destruct (Bot.others_prev _ _) as [op|]; [|discriminate].
    cbn [rbind]. intros [= <-]. split; [|split; [reflexivity|]].
    + cbn [List.length]. rewrite length_app. cbn [List.length].
      unfold pystr in *. lia.
    + exact (last_after _ cl [_] _ _).
Qed.

Lemma X7_report_lines_shape_witness :
  List.length
    [ str "Total: 170 (+70, 70.00%)";
      bullet ++ str " United States: 150 (+50, 50.00%)";
      bullet ++ str " Others: 20 (+20, 100.00%)";
      Bot.footer ] = 4%nat.
Proof.
  exact (proj1 (X7_report_lines_shape 170 100
                  [(KStr (str "US"), 150); (KStr (str "DE"), 20)]
                  (counts_obj [(KStr (str "US"), 100)]) 1 _ eq_refl)).
Defined.

Lemma sum_values_zero_nil {K} (l : list (K * Z)) :
  Forall (fun kv => 0 < snd kv) l -> sum (values l) = 0 -> l = [].
Proof.
  intros H. destruct H as [|x l Hx Hl]; [reflexivity|].
  pose proof (sum_values_pos l Hl) as Hs.
  unfold values, sum in *. simpl. lia.
Qed.

(** X8: with counts above zero, as [summarize_by_country] returns them,
    [bot.py] leaves the Others line out exactly when there are no more
    countries than [top_n]; with more countries the Others count is above
    zero. *)
Theorem X8_others_line_iff_more_than_top_n
    (by_country_now : dict Z) (n : nat) :
  positive_counts by_country_now ->
  (Bot.others_count by_country_now n =? 0)
  = (List.length by_country_now <=? n)%nat
  /\ 0 <= Bot.others_count by_country_now n.
Proof.
  intros Hpos.
  assert (Hskip : Forall (fun kv => 0 < snd kv)
                    (skipn n (sorted_desc by_country_now))).
  { apply Forall_drop. now apply sorted_desc_Forall. }
  split; [|now apply sum_values_pos].
  unfold Bot.others_count.
  destruct (List.length by_country_now <=? n)%nat eqn:E.
  - apply Nat.leb_le in E. rewrite skipn_all2; [reflexivity|].
    now rewrite sorted_desc_length.
  - apply Nat.leb_gt in E. apply Z.eqb_neq. intros Hz.
    apply sum_values_zero_nil in Hz; [|assumption].
    apply (f_equal (@List.length _)) in Hz.
    rewrite length_skipn, sorted_desc_length in Hz. simpl in Hz. lia.
Qed.

Lemma X8_others_line_iff_more_than_top_n_witness :
  (Bot.others_count [(KStr (str "US"), 150); (KStr (str "DE"), 20)] 1 =? 0)
  = false.
Proof.
  refine (proj1 (X8_others_line_iff_more_than_top_n
                   [(KStr (str "US"), 150); (KStr (str "DE"), 20)] 1 _)).
  repeat constructor.
Defined.







(* ------------------------------------------------------------------ *)
(** ** More on the cycles of [bot.py] *)

Section MoreCycles.

Variable strftime : Z -> result pystr.

Lemma setitem_last state v state' :
  Bot.setitem state (str "last") v = Ok state' ->
  exists d,
    state = PDict d
    /\ state' = PDict (dict_set d (KStr (str "last")) v)
    /\ py_get state' (str "last") PNone = Ok v.
Proof.
  unfold Bot.setitem. destruct state as [| | | | |d]; try discriminate.
  intros [= <-]. exists d. split; [reflexivity|]. split; [reflexivity|].
  unfold py_get. now rewrite dict_get_set, key_eqb_refl.
Qed.


Lemma fetch_latest_snapshot_pure w r w1 :
  Bot.fetch_latest_snapshot w = (r, w1) -> w1 = w.
Proof.
  unfold Bot.fetch_latest_snapshot, http_get_json.
  destruct (get_reply w) as [|status body]; [now intros [= _ <-]|].
  destruct (bad_status status); [now intros [= _ <-]|].
  destruct body; now intros [= _ <-].
Qed.

(** X10: a cycle of [bot.py] whose [try] block comes to its end has fetched
    a snapshot and counted it, and the state it leaves, in memory and in
    the state file, is the old state with the entry "last" set to the
    timestamp, the total and the counts of this snapshot. *)
Theorem X10_successful_cycle_stores_current_counts
    (now : Z) (state state' : pyval) (w w' : world) :
  Bot.try_block strftime now state w = (Ok state', w') ->
  exists snap tc,
    Bot.fetch_latest_snapshot w = (Ok snap, w)
    /\ Bot.summarize_by_country snap = Ok tc
    /\ Bot.setitem state (str "last")
         (Bot.last_entry
            (match snap_timestamp snap with Some t => t | None => now end)
            (fst tc) (snd tc)) = Ok state'
    /\ state_file w' = Doc (encode state')
    /\ Bot.cycle strftime now state w = (state', w').
Proof.
  intros H. unfold Bot.cycle. rewrite H.
  rewrite try_block_run in H.
  destruct (Bot.fetch_latest_snapshot w) as [[snap|e] w1] eqn:Ef;
    [|discriminate].
  pose proof (fetch_latest_snapshot_pure _ _ _ Ef) as Hw. subst w1.
  unfold report_of in H.
  destruct (Bot.summarize_by_country snap) as [tc|] eqn:Es; [|discriminate].
  cbn [rbind] in H.
  destruct (py_get state (str "last") PNone) as [last|]; [|discriminate].
  cbn [rbind] in H.
  destruct (py_get (py_or last (PDict [])) (str "total") (PInt 0)) as [tp|];
    [|discriminate].
  cbn [rbind] in H.
  destruct (py_int tp) as [total_prev|]; [|discriminate].
  cbn [rbind] in H.
  destruct (py_get (py_or last (PDict [])) (str "by_cc") (PDict []))
    as [by_cc_prev|]; [|discriminate].
  cbn [rbind] in H.
  destruct (strftime _) as [stamp|]; [|discriminate].
  cbn [rbind] in H.
  destruct (Bot.format_report _ _ _ _ _ _) as [report|]; [|discriminate].
  cbn [rbind] in H.
  destruct (post_reply w (List.length (posts w))) as [|status []];
    [discriminate|].
  destruct (bad_status status); [discriminate|].
  destruct (Bot.setitem state (str "last") _) as [s1|] eqn:Eset;
    [|discriminate].
  injection H as <- <-.
  exists snap, tc. repeat split; try assumption; reflexivity.
Qed.

End MoreCycles.

Lemma X10_successful_cycle_stores_current_counts_witness :
  let strftime := fun _ : Z => Ok (str "2023-11-15 03:13 PKT") in
  let w := {| state_file := Missing; posts := [];
              get_reply := Answer 200 (Some sample_snapshot);
              post_reply := fun _ => Answer 200 tt |} in
  let state' := PDict [(KStr (str "last"),
                        Bot.last_entry 1700000000 1 [(KStr (str "US"), 1)])]
  in
  Bot.cycle strftime 0 (PDict []) w
  = (state', snd (Bot.try_block strftime 0 (PDict []) w))
  /\ state_file (snd (Bot.try_block strftime 0 (PDict []) w))
     = Doc (encode state').
Proof.
  intros strftime w state'.
  destruct (X10_successful_cycle_stores_current_counts strftime 0 (PDict [])
              state' w (snd (Bot.try_block strftime 0 (PDict []) w)))
    as (snap & tc & _ & _ & _ & Hfile & Hcycle).
  - vm_compute. reflexivity.
  - split; assumption.
Defined.




Lemma dict_set_stable (d : dict pyval) k v :
  json_stable (PDict d) = true ->
  json_stable v = true ->
  json_stable (PDict (dict_set d (KStr k) v)) = true.
Proof.
  cbn [json_stable]. intros H Hv.
  apply andb_prop in H as [H Hvals]. apply andb_prop in H as [Hstr Hdist].
  fold (keys d) in Hstr, Hdist. fold (keys (dict_set d (KStr k) v)).
  rewrite (dict_set_keys_distinct d (KStr k) v Hdist). rewrite andb_true_r.
  apply andb_true_intro. split.
  - rewrite dict_set_keys. destruct (dict_get d (KStr k)); [assumption|].
    rewrite forallb_app, Hstr. reflexivity.
  - clear Hstr Hdist. induction d as [|[k0 v0] d IH]; simpl.
    + now rewrite Hv.
    + simpl in Hvals. apply andb_prop in Hvals as [H0 Hd].
      destruct (key_eqb k0 (KStr k)); simpl.
      * now rewrite Hv, Hd.
      * now rewrite H0, IH.
Qed.

Lemma last_entry_stable ts total (counts : dict Z) :
  forallb is_str_key (keys counts) = true ->
  keys_distinct (keys counts) = true ->
  json_stable (Bot.last_entry ts total counts) = true.
Proof.
  intros Hstr Hdist. unfold Bot.last_entry.
  cbn [json_stable List.map fst snd forallb].
  change (json_stable (PInt ts)) with true.
  change (json_stable (PInt total)) with true.
  rewrite (counts_obj_stable _ Hstr Hdist). reflexivity.
Qed.

(** X12: the state that a successful cycle of [bot.py] saves comes back
    from [load_state] as it was saved, so a restart goes on from the same
    baseline: this holds when the keys of the state in memory and of the
    counts are strings, none twice. *)
Theorem X12_bot_state_round_trip
    (state state' : pyval) (ts total : Z) (counts : dict Z) (w : world) :
  json_stable state = true ->
  forallb is_str_key (keys counts) = true ->
  keys_distinct (keys counts) = true ->
  Bot.setitem state (str "last") (Bot.last_entry ts total counts)
  = Ok state' ->
  Bot.load_state (snd (Bot.save_state state' w))
  = (Ok state', snd (Bot.save_state state' w)).
Proof.
  intros Hstate Hstr Hdist Hset.
  destruct (setitem_last _ _ _ Hset) as (d & -> & -> & _).
  unfold Bot.save_state, write_state, Bot.load_state. cbn [snd state_file].
  rewrite decode_encode; [reflexivity|].
  apply dict_set_stable; [assumption|]. now apply last_entry_stable.
Qed.

Lemma X12_bot_state_round_trip_witness :
  let w := {| state_file := Missing; posts := [];
              get_reply := Refused; post_reply := fun _ => Refused |} in
  let state' := PDict [(KStr (str "last"),
                        Bot.last_entry 1700000000 4 [(KStr (str "US"), 4)])]
  in
  Bot.load_state (snd (Bot.save_state state' w))
  = (Ok state', snd (Bot.save_state state' w)).
Proof.
  intros w state'.
  exact (X12_bot_state_round_trip (PDict []) state' 1700000000 4
           [(KStr (str "US"), 4)] w eq_refl eq_refl eq_refl eq_refl).
Defined.


Lemma bot_cycle_writes_only_after_delivery_witness :
  let strftime := fun _ : Z => Ok (str "2023-11-15 03:13 PKT") in
  let w := {| state_file := Missing; posts := [];
              get_reply := Answer 200 (Some sample_snapshot);
              post_reply := fun _ => Answer 200 tt |} in
  exists report status,
    posts (snd (Bot.cycle strftime 0 (PDict []) w)) = posts w ++ [report]
    /\ post_reply w (List.length (posts w)) = Answer status tt
    /\ bad_status status = false.
Proof.
  intros strftime w.
  apply (bot_cycle_writes_only_after_delivery strftime 0 (PDict []) w).
  vm_compute. discriminate.
Defined.

Lemma bot_failed_cycle_keeps_state_witness :
  let strftime := fun _ : Z => Ok (str "2023-11-15 03:13 PKT") in
  state_file (snd (Bot.cycle strftime 0 (PDict []) rejecting_world))
  = state_file rejecting_world
  /\ fst (Bot.cycle strftime 0 (PDict []) rejecting_world) = PDict [].
Proof.
  intros strftime.
  apply (bot_failed_cycle_keeps_state strftime 0 (PDict []) rejecting_world
           HTTPError).
  vm_compute. reflexivity.
Defined.

Section CyclePosts.

Variable strftime : Z -> result pystr.

Lemma cycle_posts now state w :
  exists added,
    posts (snd (Bot.cycle strftime now state w)) = posts w ++ added
    /\ (List.length added <= 1)%nat.
Proof.
  unfold Bot.cycle. rewrite try_block_run.
  destruct (Bot.fetch_latest_snapshot w) as [[snap|e] w1];
    [|exists []; split; [now rewrite app_nil_r | simpl; lia]].
  destruct (report_of strftime now state snap) as [[[ts tc] report]|e];
    [|exists []; split; [now rewrite app_nil_r | simpl; lia]].
  exists [report]. split; [|simpl; lia].
  destruct (post_reply w (List.length (posts w))) as [|status []];
    [reflexivity|].
  destruct (bad_status status); [reflexivity|].
  destruct (Bot.setitem state (str "last") _); reflexivity.
Qed.

Lemma cycles_posts nows : forall state w,
  exists added,
    posts (snd (Bot.cycles strftime nows state w)) = posts w ++ added
    /\ (List.length added <= List.length nows)%nat.
Proof.
  induction nows as [|now rest IH]; intros state w; simpl.
  - exists []. split; [now rewrite app_nil_r | simpl; lia].
  - destruct (cycle_posts now state w) as (a1 & H1 & L1).
    destruct (Bot.cycle strftime now state w) as [state1 w1].
    destruct (IH state1 w1) as (a2 & H2 & L2).
    exists (a1 ++ a2). simpl in H1. rewrite H2, H1, app_assoc.
    split; [reflexivity|]. rewrite length_app. lia.
Qed.

Lemma loop_cycles ticks : forall next_run state w,
  Bot.loop strftime ticks next_run state w
  = Bot.cycles strftime (run_times ticks next_run) state w.
Proof.
  induction ticks as [|now rest IH]; intros next_run state w; simpl;
    [reflexivity|].
  destruct (now >=? next_run); [|apply IH].
  simpl. destruct (Bot.cycle strftime now state w) as [state1 w1]. apply IH.
Qed.

Lemma run_times_from ticks : forall next_run,
  Forall (fun t => next_run <= t) (run_times ticks next_run).
Proof.
  induction ticks as [|now rest IH]; intros next_run; simpl; [constructor|].
  destruct (now >=? next_run) eqn:E; [|apply IH].
  rewrite Z.geb_leb in E. apply Z.leb_le in E.
  constructor; [assumption|].
  refine (Forall_impl _ _ (IH (now + Bot.interval * 60))).
  unfold Bot.interval. intros t Ht. cbv beta in *. lia.
Qed.

Lemma run_times_apart ticks : forall next_run,
  apart (run_times ticks next_run).
Proof.
  unfold apart.
  induction ticks as [|now rest IH]; intros next_run; simpl; [constructor|].
  destruct (now >=? next_run); [|apply IH].
  constructor; [apply IH|].
  refine (Forall_impl _ _ (run_times_from rest (now + Bot.interval * 60))).
  unfold Bot.interval. intros t Ht. cbv beta in *. lia.
Qed.

Lemma run_times_sub ticks : forall next_run,
  (List.length (run_times ticks next_run) <= List.length ticks)%nat.
Proof.
  induction ticks as [|now rest IH]; intros next_run; [simpl; lia|].
  cbn [run_times]. destruct (now >=? next_run); cbn [List.length].
  - specialize (IH (now + Bot.interval * 60)). lia.
  - specialize (IH next_run). lia.
Qed.

End CyclePosts.

(** X13: over any number of cycles [bot.py] only adds to what has been
    posted, and adds at most one POST for each cycle. *)
Theorem X13_at_most_one_post_per_cycle
    (strftime : Z -> result pystr) (nows : list Z) (state : pyval) (w : world) :
  exists added,
    posts (snd (Bot.cycles strftime nows state w)) = posts w ++ added
    /\ (List.length added <= List.length nows)%nat.
Proof. apply cycles_posts. Qed.

(** X14: the loop of [bot.py] runs a cycle in its first pass (the time is
    not negative and [next_run] starts at 0), and any two cycles it runs are
    at least 1800 seconds, the 30 minutes of [interval], apart by the clock
    of their passes; what it does is what these cycles do, one after the
    other, so it posts at most one message for each of them. *)
Theorem X14_loop_runs_cycles_30_minutes_apart
    (strftime : Z -> result pystr) (ticks : list Z) (next_run : Z)
    (state : pyval) (w : world) :
  Bot.loop strftime ticks next_run state w
  = Bot.cycles strftime (run_times ticks next_run) state w
  /\ apart (run_times ticks next_run)
  /\ Forall (fun t => next_run <= t) (run_times ticks next_run)
  /\ (forall now rest,
        ticks = now :: rest -> 0 <= now ->
        exists later, run_times ticks 0 = now :: later)
  /\ exists added,
       posts (snd (Bot.loop strftime ticks next_run state w))
       = posts w ++ added
       /\ (List.length added
           <= List.length (run_times ticks next_run))%nat.
Proof.
  split; [apply loop_cycles|]. split; [apply run_times_apart|].
  split; [apply run_times_from|]. split.
  - intros now rest -> Hnow. simpl.
    destruct (now >=? 0) eqn:E; [now eexists|].
    rewrite Z.geb_leb in E. apply Z.leb_gt in E. lia.
  - rewrite loop_cycles. apply cycles_posts.
Qed.

Lemma X14_loop_runs_cycles_30_minutes_apart_witness :
  run_times [100; 102; 1000; 1900; 1902; 3699; 3701] 0 = [100; 1900; 3701].
Proof.
  destruct (proj1 (proj2 (proj2 (proj2
              (X14_loop_runs_cycles_30_minutes_apart
                 (fun _ => Ok []) [100; 102; 1000; 1900; 1902; 3699; 3701] 0
                 PNone rejecting_world)))) 100
              [102; 1000; 1900; 1902; 3699; 3701] eq_refl ltac:(lia))
    as [later H].
  rewrite H. injection H as <-. reflexivity.
Defined.


(* ------------------------------------------------------------------ *)
(** ** More on the chunked delivery *)

Lemma concat_length_groups {A} (groups : list (list A)) :
  Forall (fun g => g <> []) groups ->
  (List.length groups <= List.length (List.concat groups))%nat.
Proof.
  induction 1 as [|g gs Hg _ IH]; simpl; [lia|].
  rewrite length_app. destruct g; [congruence | simpl; lia].
Qed.

Lemma chunk_loop_fits chunk_size lines : forall chunk size,
  (size + lines_size lines <= chunk_size)%nat ->
  chunk ++ lines <> [] ->
  BotOnce.chunk_loop chunk_size lines chunk size = [chunk ++ lines].
Proof.
  induction lines as [|line rest IH]; intros chunk size Hfit Hne.
  - rewrite app_nil_r in *. simpl. destruct chunk; [congruence | reflexivity].
  - rewrite chunk_loop_cons.
    assert (E : (chunk_size <? size + (List.length line + 1))%nat = false).
    { apply Nat.ltb_ge. simpl in Hfit. lia. }
    rewrite E. cbn [andb]. rewrite IH.
    + now rewrite <- app_assoc.
    + simpl in Hfit. lia.
    + destruct chunk; discriminate.
Qed.

(** X15: for every text and chunk size, [send_chunked] of [bot_once.py]
    loses, doubles or reorders no line: its chunks are the lines of the
    text, in order, cut into groups of one line or more, each group joined
    by newline, so there are no more chunks than lines; and a text without
    lines is answered with no post at all. *)
Theorem X15_chunks_are_the_lines_in_order (chunk_size : nat) (text : pystr) :
  (exists groups,
     BotOnce.chunks chunk_size text = List.map (join nl) groups
     /\ List.concat groups = splitlines text
     /\ Forall (fun g => g <> []) groups)
  /\ (List.length (BotOnce.chunks chunk_size text)
      <= List.length (splitlines text))%nat
  /\ (splitlines text = [] ->
      forall w, BotOnce.send_chunked text chunk_size w = (Ok tt, w)).
Proof.
  destruct (chunk_loop_groups chunk_size (splitlines text) [] 0)
    as [Hcat Hne].
  simpl in Hcat. split; [|split].
  - eexists. split; [reflexivity|]. now split.
  - unfold BotOnce.chunks. rewrite length_map.
    pose proof (concat_length_groups _ Hne) as H. now rewrite Hcat in H.
  - intros Hnone w. unfold BotOnce.send_chunked. now rewrite Hnone.
Qed.

Lemma X15_chunks_are_the_lines_in_order_witness :
  BotOnce.send_chunked [] BotOnce.default_chunk_size rejecting_world
  = (Ok tt, rejecting_world).
Proof.
  exact (proj2 (proj2 (X15_chunks_are_the_lines_in_order
                         BotOnce.default_chunk_size []))
           eq_refl rejecting_world).
Defined.

(** X16: where [send_chunked] of [bot_once.py] cuts.  The text is the join
    by newline of two lines or more that hold no line boundary, the last
    not empty.  If the text is shorter than the chunk size it goes out as
    it is, in one message; if it is as long as the chunk size or longer
    there are two messages or more: a text of exactly the chunk size is
    cut although it would fit. *)
Theorem X16_one_chunk_iff_shorter_than_chunk_size
    (chunk_size : nat) (l1 l2 : pystr) (rest : list pystr) (text : pystr) :
  text = join nl (l1 :: l2 :: rest) ->
  Forall break_free (l1 :: l2 :: rest) ->
  last (l1 :: l2 :: rest) [] <> [] ->
  ((List.length text < chunk_size)%nat ->
   BotOnce.chunks chunk_size text = [text])
  /\ ((chunk_size <= List.length text)%nat ->
      (2 <= List.length (BotOnce.chunks chunk_size text))%nat).
Proof.
  intros -> Hfree Hlast. unfold BotOnce.chunks.
  rewrite splitlines_join by assumption.
  pose proof (join_length_size (l1 :: l2 :: rest) ltac:(discriminate)) as Hl.
  split; intros Hlen.
  - rewrite chunk_loop_fits; [reflexivity| |discriminate].
    unfold pystr in *. lia.
  - rewrite length_map.
    destruct (le_lt_dec 2 (List.length
                (BotOnce.chunk_loop chunk_size (l1 :: l2 :: rest) [] 0)))
      as [|Hone]; [assumption|].
    exfalso. rewrite chunk_loop_cons, andb_false_r in Hone.
    pose proof (chunk_loop_one chunk_size (l2 :: rest) ([] ++ [l1])
                  (0 + (List.length l1 + 1))%nat
                  ltac:(discriminate) ltac:(discriminate)
                  ltac:(unfold pystr in *; lia)) as H.
    simpl lines_size in *. unfold pystr in *. lia.
Qed.

Lemma X16_one_chunk_iff_shorter_than_chunk_size_witness :
  let text := str "ab" ++ nl ++ str "cd" in
  BotOnce.chunks 6 text = [text]
  /\ (2 <= List.length (BotOnce.chunks 5 text))%nat.
Proof.
  intros text. split.
  - apply (proj1 (X16_one_chunk_iff_shorter_than_chunk_size 6
                    (str "ab") (str "cd") [] text eq_refl
                    ltac:(repeat constructor) ltac:(discriminate))).
    simpl. lia.
  - apply (proj2 (X16_one_chunk_iff_shorter_than_chunk_size 5
                    (str "ab") (str "cd") [] text eq_refl
                    ltac:(repeat constructor) ltac:(discriminate))).
    simpl. lia.
Defined.


(* ------------------------------------------------------------------ *)
(** ** More on [main] of [bot_once.py] *)

Lemma send_all_effect texts : forall w,
  state_file (snd (send_all texts w)) = state_file w
  /\ exists sent,
       posts (snd (send_all texts w)) = posts w ++ sent
       /\ sent = firstn (List.length sent) texts.
Proof.
  induction texts as [|t rest IH]; intros w; simpl.
  - split; [reflexivity|]. exists []. split; [now rewrite app_nil_r|].
    reflexivity.
  - unfold bind, BotOnce.send_telegram, bind, http_post.
    fold (add_posts w [t]).
    destruct (post_reply w (List.length (posts w))) as [|status []].
    + simpl. split; [reflexivity|]. now exists [t].
    + unfold ret. destruct (IH (add_posts w [t])) as (Hfile & sent & Hp & Hs).
      destruct (send_all rest (add_posts w [t])) as [r w'].
      simpl in *. split; [assumption|].
      exists (t :: sent). rewrite Hp, <- app_assoc.
      split; [reflexivity|]. simpl. now rewrite <- Hs.
Qed.

(** X17: [main] of [bot_once.py] writes the state file only at its very
    end: a run that raises, in the fetch, in the aggregation, in building
    the message or in a post that finds no connection, leaves the state
    file as it was; and every run only adds to what has been posted, the
    chunks of the message in order up to the one that failed. *)
Theorem X17_once_main_that_raises_keeps_state
    (pycountry_name : pystr -> option pystr) (configured : bool)
    (stamp : pystr) (w : world) :
  (forall e,
     fst (BotOnce.main pycountry_name configured stamp w) = Raise e ->
     state_file (snd (BotOnce.main pycountry_name configured stamp w))
     = state_file w)
  /\ exists sent,
       posts (snd (BotOnce.main pycountry_name configured stamp w))
       = posts w ++ sent.
Proof.
  destruct configured.
  - rewrite main_run.
    destruct (BotOnce.fetch_latest w) as [[data|e0] w1].
    + destruct (message_of pycountry_name stamp data (once_loaded w))
        as [[[total by_country] message]|e0].
      * destruct (send_all_effect
                    (BotOnce.chunks BotOnce.default_chunk_size message) w)
          as (Hfile & sent & Hposts & _).
        destruct (send_all _ w) as [[[]|e0] w']; simpl in *.
        -- split; [discriminate | now exists sent].
        -- split; [now intros | now exists sent].
      * split; [reflexivity|]. exists []. simpl. now rewrite app_nil_r.
    + split; [reflexivity|]. exists []. simpl. now rewrite app_nil_r.
  - split; [discriminate|]. exists []. simpl. now rewrite app_nil_r.
Qed.

Lemma X17_once_main_that_raises_keeps_state_witness :
  let w := {| state_file :=
                Doc (encode (BotOnce.saved_state 5 [(KStr (str "US"), 5)]));
              posts := [];
              get_reply := Answer 200 (Some sample_snapshot);
              post_reply := fun _ => Refused |} in
  fst (BotOnce.main (fun _ => None) true (str "2023-11-15 03:13") w)
  = Raise ConnectionError
  /\ state_file (snd (BotOnce.main (fun _ => None) true
                        (str "2023-11-15 03:13") w))
     = state_file w.
Proof.
  intros w. split; [vm_compute; reflexivity|].
  apply (proj1 (X17_once_main_that_raises_keeps_state (fun _ => None) true
                  (str "2023-11-15 03:13") w) ConnectionError).
  vm_compute. reflexivity.
Defined.

Section Renaming.

Lemma normal_key_apart_no_null a b :
  key_eqb a b = false ->
  key_eqb a (KStr (str "null")) = false ->
  key_eqb b (KStr (str "null")) = false ->
  key_eqb (BotOnce.normal_key a) (BotOnce.normal_key b) = false.
Proof.
  intros Hab Ha Hb.
  destruct a, b; simpl; try assumption.
  now rewrite key_eqb_sym.
Qed.

Lemma renamed_keys_distinct (by_country : dict Z) :
  keys_distinct (keys by_country) = true ->
  no_null_code by_country ->
  keys_distinct (keys (renamed by_country)) = true.
Proof.
  unfold no_null_code, renamed, keys.
  induction by_country as [|[k v] bc IH]; simpl; [reflexivity|].
  intros Hd Hn. apply andb_prop in Hd as [Hk Hd].
  apply andb_prop in Hn as [Hkn Hn].
  rewrite IH by assumption. rewrite andb_true_r.
  apply negb_true_iff in Hkn.
  clear IH Hd. induction bc as [|[k1 v1] bc IHbc]; [reflexivity|].
  simpl in *. apply andb_prop in Hk as [H1 Hk].
  apply andb_prop in Hn as [H1n Hn].
  rewrite IHbc by assumption. rewrite andb_true_r.
  apply negb_true_iff. apply negb_true_iff in H1, H1n.
  now apply normal_key_apart_no_null.
Qed.

Lemma fold_rename_fresh (by_country : dict Z) : forall acc : dict Z,
  keys_distinct (keys acc ++ keys (renamed by_country)) = true ->
  fold_left (fun acc kv =>
               dict_set acc (BotOnce.normal_key (fst kv)) (snd kv))
    by_country acc
  = acc ++ renamed by_country.
Proof.
  induction by_country as [|[k v] bc IH]; intros acc H; simpl.
  - now rewrite app_nil_r.
  - simpl in H. rewrite dict_set_fresh
      by (eapply keys_distinct_app_head; exact H).
    rewrite IH.
    + now rewrite <- app_assoc.
    + unfold keys in *. rewrite map_app, <- app_assoc. exact H.
Qed.

End Renaming.

(** X18: the dict that [main] of [bot_once.py] saves as "countries" is the
    counts with the key [None] renamed to "null" and nothing else changed:
    the buckets, their order and their counts stay.  This holds for counts
    without a key twice, as [summarize_by_country] returns them, when no
    country code is itself the string "null". *)
Theorem X18_normalized_only_renames_none (by_country : dict Z) :
  keys_distinct (keys by_country) = true ->
  no_null_code by_country ->
  BotOnce.normalized by_country = renamed by_country
  /\ sum (values (BotOnce.normalized by_country)) = sum (values by_country)
  /\ List.length (BotOnce.normalized by_country) = List.length by_country.
Proof.
  intros Hd Hn.
  assert (E : BotOnce.normalized by_country = renamed by_country).
  { unfold BotOnce.normalized. rewrite fold_rename_fresh; [reflexivity|].
    simpl. now apply renamed_keys_distinct. }
  rewrite E. split; [reflexivity|]. unfold renamed, values.
  rewrite map_map, length_map. now split.
Qed.

Lemma X18_normalized_only_renames_none_witness :
  BotOnce.normalized [(KStr (str "US"), 3); (KNone, 2)]
  = [(KStr (str "US"), 3); (KStr (str "null"), 2)].
Proof.
  exact (proj1 (X18_normalized_only_renames_none
                  [(KStr (str "US"), 3); (KNone, 2)] eq_refl eq_refl)).
Defined.

(** When a code is the string "null" and there is a [None] bucket too, the
    two are saved as one: the later count takes the place of the earlier. *)
Lemma normalized_merges_null_code :
  BotOnce.normalized [(KNone, 2); (KStr (str "null"), 3)]
  = [(KStr (str "null"), 3)].
Proof. reflexivity. Qed.


Section SecondRun.

Variable pycountry_name : pystr -> option pystr.







End SecondRun.




(* ------------------------------------------------------------------ *)
(** ** A report against the same counts *)

Section SameCounts.











End SameCounts.




(* ------------------------------------------------------------------ *)
(** ** The loop of [bot.py] while no delivery gets through *)

Section Undelivered.

Variable strftime : Z -> result pystr.

Lemma undelivered_cycle now state w :
  delivered w (List.length (posts w)) = false ->
  let r := Bot.cycle strftime now state w in
  fst r = state
  /\ state_file (snd r) = state_file w
  /\ post_reply (snd r) = post_reply w
  /\ (List.length (posts w) <= List.length (posts (snd r)))%nat.
Proof.
  unfold delivered, Bot.cycle. rewrite try_block_run. intros Hd.
  destruct (Bot.fetch_latest_snapshot w) as [[snap|e] w1];
    [|simpl; auto].
  destruct (report_of strftime now state snap) as [[[ts tc] report]|e];
    [|simpl; auto].
  destruct (post_reply w (List.length (posts w))) as [|status []].
  - simpl. rewrite length_app. repeat split; lia.
  - apply negb_false_iff in Hd. rewrite Hd.
    simpl. rewrite length_app. repeat split; lia.
Qed.

Lemma undelivered_cycles nows : forall state w,
  (forall i, (List.length (posts w) <= i)%nat -> delivered w i = false) ->
  fst (Bot.cycles strftime nows state w) = state
  /\ state_file (snd (Bot.cycles strftime nows state w)) = state_file w.
Proof.
  induction nows as [|now rest IH]; intros state w Hd; simpl;
    [now split|].
  destruct (undelivered_cycle now state w (Hd _ (le_n _)))
    as (Hs & Hf & Hr & Hp).
  destruct (Bot.cycle strftime now state w) as [state1 w1].
  simpl in Hs, Hf, Hr, Hp. subst state1. rewrite <- Hf. apply IH.
  intros i Hi. unfold delivered. rewrite Hr. apply Hd. lia.
Qed.

End Undelivered.

(** X21: while the messaging API accepts no POST (it refuses the connection
    or answers with a status from 400 to 599), the loop of [bot.py] keeps
    the state it holds and the state file as they were, however many cycles
    it runs. *)
Theorem X21_loop_keeps_state_while_no_delivery
    (strftime : Z -> result pystr) (ticks : list Z) (next_run : Z)
    (state : pyval) (w : world) :
  (forall i, (List.length (posts w) <= i)%nat -> delivered w i = false) ->
  fst (Bot.loop strftime ticks next_run state w) = state
  /\ state_file (snd (Bot.loop strftime ticks next_run state w))
     = state_file w.
Proof.
  intros Hd. rewrite loop_cycles. now apply undelivered_cycles.
Qed.

Lemma X21_loop_keeps_state_while_no_delivery_witness :
  let strftime := fun _ : Z => Ok (str "2023-11-15 03:13 PKT") in
  fst (Bot.loop strftime [0; 1800; 3600] 0 (PDict []) rejecting_world)
  = PDict []
  /\ state_file
       (snd (Bot.loop strftime [0; 1800; 3600] 0 (PDict []) rejecting_world))
     = state_file rejecting_world.
Proof.
  intros strftime.
  apply (X21_loop_keeps_state_while_no_delivery
           strftime [0; 1800; 3600] 0 (PDict []) rejecting_world).
  intros i _. reflexivity.
Defined.


(** X22: [bot.py] writes the state file only after an accepted delivery,
    and only with the state it goes on with.  After a cycle the state file
    is as it was before the cycle, or else the POST of the cycle was
    accepted by the messaging API and the state file holds the JSON of the
    state the loop holds after the cycle.  (Nothing is said of the state in
    memory when the file is as it was: the entry "last" is set in place
    before the file is written.) *)
Theorem X22_cycle_writes_state_file_only_after_delivery
    (strftime : Z -> result pystr) (now : Z) (state : pyval) (w : world) :
  let r := Bot.cycle strftime now state w in
  state_file (snd r) = state_file w
  \/ (delivered w (List.length (posts w)) = true
      /\ state_file (snd r) = Doc (encode (fst r))
      /\ exists report, posts (snd r) = posts w ++ [report]).
Proof.
  unfold delivered, Bot.cycle. rewrite try_block_run.
  destruct (Bot.fetch_latest_snapshot w) as [[snap|e] w1];
    [|left; reflexivity].
  destruct (report_of strftime now state snap) as [[[ts tc] report]|e];
    [|left; reflexivity].
  destruct (post_reply w (List.length (posts w))) as [|status []];
    [left; reflexivity|].
  destruct (bad_status status); [left; reflexivity|].
  destruct (Bot.setitem state (str "last") _) as [state'|e];
    [|left; reflexivity].
  right. simpl. repeat split. now exists report.
Qed.
